(** * validate-examples: a shallow embedding of [.ci/validate-examples.py]

    The script walks a tree of example directories, checks naming
    conventions, required files, notebook hygiene and the recipe document
    of every example, collects the violations as strings and exits with
    their count.

    Python values are embedded as follows: [str] as [string] (a sequence of
    bytes), parsed JSON documents as [json], exceptions as [exn] in the
    [result] type, and the statements of [__main__], which append to the
    process-wide error collection and print to the standard output, as
    computations of the monad [M] over [state]. *)

From Stdlib Require Import String Ascii List ZArith Lia Bool DecimalString.
Import ListNotations.
Open Scope list_scope.
Open Scope string_scope.

(** ** Python string methods used by the script *)

Module PyStr.

Definition dquote : ascii := ascii_of_nat 34.
Definition newline : ascii := ascii_of_nat 10.

(** [s.startswith(p)] *)
Definition startswith (s p : string) : bool := String.prefix p s.

Fixpoint rev (s : string) : string :=
  match s with
  | EmptyString => EmptyString
  | String c s' => rev s' ++ String c EmptyString
  end.

(** [s.endswith(p)] *)
Definition endswith (s p : string) : bool := String.prefix (rev p) (rev s).

(** [sub in s], also [bool(re.search(sub, s))] for a pattern [sub] made of
    literal characters only. *)
Fixpoint contains (sub s : string) : bool :=
  String.prefix sub s ||
  match s with
  | EmptyString => false
  | String _ s' => contains sub s'
  end.

(** Number of occurrences of the character [c]. *)
Fixpoint count_char (c : ascii) (s : string) : nat :=
  match s with
  | EmptyString => 0
  | String d s' => (if Ascii.eqb d c then 1 else 0) + count_char c s'
  end.

Definition cons_head (c : ascii) (ps : list string) : list string :=
  match ps with
  | [] => [String c EmptyString]
  | p :: ps' => String c p :: ps'
  end.

Definition may_split (maxsplit : option nat) : bool :=
  match maxsplit with
  | Some O => false
  | _ => true
  end.

(** [split_go sep maxsplit skip s]: the pieces of [s] once its first [skip]
    characters are dropped, scanning left to right for the non-empty
    separator [sep], with at most [maxsplit] cuts ([None]: no limit).  The
    first piece returned continues the piece being read. *)
Fixpoint split_go (sep : string) (maxsplit : option nat) (skip : nat)
                  (s : string) : list string :=
  match s with
  | EmptyString => [EmptyString]
  | String c s' =>
      match skip with
      | S k => split_go sep maxsplit k s'
      | O =>
          if may_split maxsplit && String.prefix sep s
          then EmptyString ::
               split_go sep (option_map Nat.pred maxsplit)
                        (String.length sep - 1) s'
          else cons_head c (split_go sep maxsplit 0 s')
      end
  end.

(** [s.split(sep)] *)
Definition split (s sep : string) : list string := split_go sep None 0 s.

(** [s.rsplit(sep, n)]: cut from the right, read off the reversed string. *)
Definition rsplit (s sep : string) (n : nat) : list string :=
  List.rev (map rev (split_go (rev sep) (Some n) 0 (rev s))).

(** [replace_go old new skip s]: [s] without its first [skip] characters,
    every occurrence of the non-empty [old] replaced by [new], left to
    right and without overlap. *)
Fixpoint replace_go (old new : string) (skip : nat) (s : string) : string :=
  match s with
  | EmptyString => EmptyString
  | String c s' =>
      match skip with
      | S k => replace_go old new k s'
      | O =>
          if String.prefix old s
          then new ++ replace_go old new (String.length old - 1) s'
          else String c (replace_go old new 0 s')
      end
  end.

(** [s.replace(old, new)] *)
Definition replace (s old new : string) : string := replace_go old new 0 s.

(** [sep.join(l)] *)
Fixpoint join (sep : string) (l : list string) : string :=
  match l with
  | [] => EmptyString
  | [x] => x
  | x :: l' => x ++ sep ++ join sep l'
  end.

(** [str(n)] for an [int] *)
Definition str_of_Z (z : Z) : string := NilZero.string_of_int (Z.to_int z).
Definition str_of_nat (n : nat) : string := NilZero.string_of_uint (Nat.to_uint n).

Definition hex_digit (n : nat) : ascii :=
  if (n <? 10)%nat then ascii_of_nat (48 + n) else ascii_of_nat (87 + n).

(** [str.isprintable] on one character.  A [str] is the list of its code
    points, which this development takes below 256: there the characters
    that are not printable are the control characters 0 to 31 and 127 to
    159, the no-break space 160 and the soft hyphen 173. *)
Definition is_printable (c : ascii) : bool :=
  let n := nat_of_ascii c in
  negb ((n <? 32) || ((127 <=? n) && (n <=? 160)) || (n =? 173))%nat.

(** One character of [repr(s)], [q] being the quote chosen for the string. *)
Definition repr_char (q c : ascii) : string :=
  let n := nat_of_ascii c in
  if Ascii.eqb c "\" then "\\"
  else if Ascii.eqb c q then String "\" (String q EmptyString)
  else if (n =? 10)%nat then "\n"
  else if (n =? 13)%nat then "\r"
  else if (n =? 9)%nat then "\t"
  else if negb (is_printable c)
       then "\x" ++ String (hex_digit (n / 16)) (String (hex_digit (n mod 16)) EmptyString)
  else String c EmptyString.

Fixpoint repr_chars (q : ascii) (s : string) : string :=
  match s with
  | EmptyString => EmptyString
  | String c s' => repr_char q c ++ repr_chars q s'
  end.

(** [repr(s)] for a [str]: single quotes, unless the string holds a single
    quote and no double quote. *)
Definition repr (s : string) : string :=
  let q := if contains "'" s && negb (contains (String dquote EmptyString) s)
           then dquote else "'"%char in
  String q (repr_chars q s ++ String q EmptyString).

(** Character classes of the two naming patterns. *)
Definition is_digit (c : ascii) : bool :=
  let n := nat_of_ascii c in ((48 <=? n) && (n <=? 57))%nat.
Definition is_lower (c : ascii) : bool :=
  let n := nat_of_ascii c in ((97 <=? n) && (n <=? 122))%nat.
Definition is_upper (c : ascii) : bool :=
  let n := nat_of_ascii c in ((65 <=? n) && (n <=? 90))%nat.

(** [bool(re.search(r"^[cls]+$", s))]: a non-empty run of characters of the
    class, up to the end of the string or up to a newline that ends it
    (which [$] accepts). *)
Fixpoint search_class_line (p : ascii -> bool) (s : string) : bool :=
  match s with
  | EmptyString => false
  | String c s' =>
      p c &&
      match s' with
      | EmptyString => true
      | String d EmptyString => Ascii.eqb d newline || p d
      | _ => search_class_line p s'
      end
  end.

End PyStr.

(** ** Exceptions and results *)

Inductive exn : Type :=
| ValidationError (msg : string)   (* jsonschema.exceptions.ValidationError *)
| ValueError (msg : string)
| KeyError (key : string)
| TypeError
| AttributeError
| JSONDecodeError                  (* a subclass of ValueError *)
| FileNotFoundError (path : string)
| IsADirectoryError (path : string)
| RequestException
| CalledProcessError.

Inductive result (A : Type) : Type :=
| Ok (a : A)
| Raise (e : exn).
Arguments Ok {A} a.
Arguments Raise {A} e.

Definition rbind {A B : Type} (c : result A) (k : A -> result B) : result B :=
  match c with
  | Ok a => k a
  | Raise e => Raise e
  end.

Declare Scope result_scope.
Delimit Scope result_scope with result.
Notation "x <- c ;; k" := (rbind c (fun x => k))
  (at level 61, c at next level, right associativity) : result_scope.
Notation "c ;; k" := (rbind c (fun _ => k))
  (at level 61, right associativity) : result_scope.

(** ** Parsed JSON documents and the Python operations applied to them *)

#[local] Unset Elimination Schemes.
Inductive json : Type :=
| JNull
| JBool (b : bool)
| JNum (n : Z)          (* integers; the script compares no fractional number *)
| JStr (s : string)
| JArr (l : list json)
| JObj (kvs : list (string * json)).
#[local] Set Elimination Schemes.

Module Py.

Fixpoint assoc {A : Type} (k : string) (kvs : list (string * A)) : option A :=
  match kvs with
  | [] => None
  | (k', v) :: kvs' => if String.eqb k k' then Some v else assoc k kvs'
  end.

(** [bool(j)] *)
Definition truthy (j : json) : bool :=
  match j with
  | JNull => false
  | JBool b => b
  | JNum n => negb (n =? 0)%Z
  | JStr s => negb (String.eqb s EmptyString)
  | JArr l => match l with [] => false | _ => true end
  | JObj kvs => match kvs with [] => false | _ => true end
  end.

(** [a or b] *)
Definition or_ (a b : json) : json := if truthy a then a else b.

(** [j is not None] *)
Definition is_not_none (j : json) : bool :=
  match j with JNull => false | _ => true end.

(** [j[k]] for a string key [k] *)
Definition subscript (j : json) (k : string) : result json :=
  match j with
  | JObj kvs =>
      match assoc k kvs with
      | Some v => Ok v
      | None => Raise (KeyError k)
      end
  | _ => Raise TypeError
  end.

(** [j.get(k, default)] *)
Definition get (j : json) (k : string) (default : json) : result json :=
  match j with
  | JObj kvs =>
      match assoc k kvs with
      | Some v => Ok v
      | None => Ok default
      end
  | _ => Raise AttributeError
  end.

(** The receiver of a [str] method such as [startswith], [split], [replace]. *)
Definition str_method (j : json) : result string :=
  match j with
  | JStr s => Ok s
  | _ => Raise AttributeError
  end.

Fixpoint chars (s : string) : list json :=
  match s with
  | EmptyString => []
  | String c s' => JStr (String c EmptyString) :: chars s'
  end.

(** [len(j)] *)
Definition len (j : json) : result nat :=
  match j with
  | JStr s => Ok (String.length s)
  | JArr l => Ok (List.length l)
  | JObj kvs => Ok (List.length kvs)
  | _ => Raise TypeError
  end.

(** The items visited by [for x in j]. *)
Definition iter (j : json) : result (list json) :=
  match j with
  | JStr s => Ok (chars s)
  | JArr l => Ok l
  | JObj kvs => Ok (map (fun kv => JStr (fst kv)) kvs)
  | _ => Raise TypeError
  end.

(** [a == b]: [True == 1], and two objects are equal when they hold the same
    keys with equal values, in any order. *)
Fixpoint eq (a b : json) {struct a} : bool :=
  match a, b with
  | JNull, JNull => true
  | JBool x, JBool y => Bool.eqb x y
  | JBool x, JNum n => (n =? (if x then 1 else 0))%Z
  | JNum n, JBool x => (n =? (if x then 1 else 0))%Z
  | JNum n, JNum m => (n =? m)%Z
  | JStr s, JStr t => String.eqb s t
  | JArr l, JArr m =>
      (fix go (l m : list json) {struct l} : bool :=
         match l, m with
         | [], [] => true
         | x :: l', y :: m' => eq x y && go l' m'
         | _, _ => false
         end) l m
  | JObj kvs, JObj kvs' =>
      (List.length kvs =? List.length kvs')%nat &&
      (fix go (kvs : list (string * json)) : bool :=
         match kvs with
         | [] => true
         | (k, v) :: r =>
             match assoc k kvs' with
             | Some v' => eq v v'
             | None => false
             end && go r
         end) kvs
  | _, _ => false
  end.

(** [k in j] for a string [k] *)
Definition contains (j : json) (k : string) : result bool :=
  match j with
  | JObj kvs => Ok (match assoc k kvs with Some _ => true | None => false end)
  | JStr s => Ok (PyStr.contains k s)
  | JArr l => Ok (existsb (eq (JStr k)) l)
  | _ => Raise TypeError
  end.

(** [j > n] for an integer literal [n] *)
Definition gt (j : json) (n : Z) : result bool :=
  match j with
  | JNum m => Ok (m >? n)%Z
  | JBool b => Ok ((if b then 1 else 0) >? n)%Z
  | _ => Raise TypeError
  end.

(** [repr(j)] *)
Fixpoint repr (j : json) : string :=
  match j with
  | JNull => "None"
  | JBool true => "True"
  | JBool false => "False"
  | JNum n => PyStr.str_of_Z n
  | JStr s => PyStr.repr s
  | JArr l => "[" ++ PyStr.join ", " (map repr l) ++ "]"
  | JObj kvs =>
      "{" ++ PyStr.join ", "
               (map (fun kv => PyStr.repr (fst kv) ++ ": " ++ repr (snd kv)) kvs)
          ++ "}"
  end.

(** [str(j)], which an f-string applies to [{j}] *)
Definition str (j : json) : string :=
  match j with
  | JStr s => s
  | _ => repr j
  end.

(** [sep.join(j)] *)
Fixpoint strings (l : list json) : result (list string) :=
  match l with
  | [] => Ok []
  | JStr s :: l' =>
      match strings l' with
      | Ok ss => Ok (s :: ss)
      | Raise e => Raise e
      end
  | _ :: _ => Raise TypeError
  end.

Definition join (sep : string) (j : json) : result string :=
  (items <- iter j ;; ss <- strings items ;; Ok (PyStr.join sep ss))%result.

End Py.

(** ** The error collection and the statements of the script *)

(** [ErrorCollection._errors] is a class attribute: one list for the run.
    [stdout] holds the argument of every [print] call, oldest first. *)
Record state : Type := mkState {
  _errors : list string;
  stdout : list string
}.

Definition M (A : Type) : Type := state -> result A * state.

Definition ret {A : Type} (a : A) : M A := fun st => (Ok a, st).

Definition raise {A : Type} (e : exn) : M A := fun st => (Raise e, st).

Definition bind {A B : Type} (c : M A) (k : A -> M B) : M B :=
  fun st =>
    match c st with
    | (Ok a, st') => k a st'
    | (Raise e, st') => (Raise e, st')
    end.

Definition lift {A : Type} (r : result A) : M A := fun st => (r, st).

Declare Scope M_scope.
Delimit Scope M_scope with M.
Notation "x <- c ;; k" := (bind c (fun x => k))
  (at level 61, c at next level, right associativity) : M_scope.
Notation "c ;; k" := (bind c (fun _ => k))
  (at level 61, right associativity) : M_scope.

(** [print(s)] *)
Definition print (s : string) : M unit :=
  fun st => (Ok tt, mkState (_errors st) (stdout st ++ [s])%list).

(** [for x in l: body(x)] *)
Fixpoint for_each {A : Type} (l : list A) (body : A -> M unit) : M unit :=
  match l with
  | [] => ret tt
  | x :: l' => (body x ;; for_each l' body)%M
  end.

(** [sys.exit(n)] for an [int] [n]: the process ends, and its exit status
    is the low eight bits of [n]. *)
Definition sys_exit (n : Z) : Z := n mod 256.

Module ErrorCollection.

(** [ERRORS.add(error)] *)
Definition add (error : string) : M unit :=
  fun st => (Ok tt, mkState (_errors st ++ [error])%list (stdout st)).

(** [ERRORS.num_errors] *)
Definition num_errors (st : state) : nat := List.length (_errors st).

(** The loop of [report], [i] being the number of the next line. *)
Fixpoint print_errors (i : nat) (errors : list string) : M unit :=
  match errors with
  | [] => ret tt
  | error :: rest =>
      (print (PyStr.str_of_nat i ++ ". " ++ error) ;;
       print_errors (i + 1) rest)%M
  end.

Definition banner : string :=
  String PyStr.newline
    ("------ check results ------" ++ String PyStr.newline EmptyString).

Definition header (n : nat) : string :=
  PyStr.str_of_nat n ++ " errors found checking examples"
                     ++ String PyStr.newline EmptyString.

(** [ERRORS.report()].  [sys.exit] ends the script, which has no statement
    after the report and no handler around it: the value returned is the
    exit status of the process. *)
Definition report : M Z :=
  (print banner ;;
   (fun st => print (header (num_errors st)) st) ;;
   (fun st => print_errors 1 (_errors st) st) ;;
   (fun st => ret (sys_exit (Z.of_nat (num_errors st))) st))%M.

End ErrorCollection.

(** ** The files under the examples directory *)

(** A file carries the JSON document its text parses to, if it parses. *)
#[local] Unset Elimination Schemes.
Inductive node : Type :=
| File (name : string) (content : option json)
| Dir (name : string) (children : list node).
#[local] Set Elimination Schemes.

Definition node_name (n : node) : string :=
  match n with
  | File name _ => name
  | Dir name _ => name
  end.

(** One entry of a template catalog, as [json.load] returns it. *)
Record template : Type := mkTemplate {
  title : string;
  weight : Z;
  thumbnail_image_url : string;
  recipe_path : string
}.

(** What a run reads: the command line, the files, and the answers of the
    network.  [jsonschema_validate] is [validate(instance=j, schema=schema)]
    for the schema fetched at start-up ([Some msg]: it raises
    [ValidationError] and [str(e)] is [msg]); [instance_type_options] holds
    the keys of the [tiers] mapping; [listing] holds the entries of
    [EXAMPLES_DIR] in the order of [os.listdir]; [catalogs] maps the name of
    a catalog file to its [templates] list.  [EXAMPLES_DIR] holds none of
    the characters that [glob] expands. *)
Record world : Type := mkWorld {
  EXAMPLES_DIR : string;
  SKIP_IMAGE_CHECK : bool;
  jsonschema_validate : json -> option string;
  instance_type_options : list string;
  listing : list node;
  catalogs : string -> option (list template);
  requests_get : string -> result Z;
  docker_token : string -> result string;
  aws_token : result string;
  requests_head : string -> list (string * string) -> result Z
}.

Module OsPath.

(** [os.path.join(a, b)] *)
Definition join (a b : string) : string :=
  if PyStr.startswith b "/" then b
  else if String.eqb a EmptyString || PyStr.endswith a "/" then a ++ b
  else a ++ "/" ++ b.

(** [os.path.basename(p)]: the text after the last slash. *)
Definition basename (p : string) : string :=
  List.last (PyStr.split p "/") EmptyString.

Fixpoint drop_slashes (s : string) : string :=
  match s with
  | String "/" s' => drop_slashes s'
  | _ => s
  end.

(** [os.path.basename(os.path.normpath(p))] for a path [p] that [glob]
    returned and whose last component names a directory: [normpath] then
    changes the last component only by dropping the slashes after it. *)
Definition basename_normpath (p : string) : string :=
  basename (PyStr.rev (drop_slashes (PyStr.rev p))).

Fixpoint strip_prefix (p s : string) : option string :=
  match p, s with
  | EmptyString, _ => Some s
  | String a p', String b s' => if Ascii.eqb a b then strip_prefix p' s' else None
  | String _ _, EmptyString => None
  end.

Fixpoint find_child (name : string) (nodes : list node) : option node :=
  match nodes with
  | [] => None
  | n :: nodes' =>
      if String.eqb name (node_name n) then Some n else find_child name nodes'
  end.

(** The node that the components [comps] lead to from the node [cur],
    [up] being the directories above it, the nearest first, up to the
    examples directory.  Only a directory has components below it.  A name
    of the directory leads to the entry of that name; an empty component (a
    doubled or a trailing slash) and [.] stay in the directory; [..] leads
    one directory up, and the world says nothing of what is above the
    examples directory. *)
Fixpoint walk (up : list node) (cur : node) (comps : list string)
  : option node :=
  match comps with
  | [] => Some cur
  | c :: rest =>
      match cur with
      | File _ _ => None
      | Dir _ children =>
          match find_child c children with
          | Some n => walk (cur :: up) n rest
          | None =>
              if String.eqb c EmptyString || String.eqb c "." then
                walk up cur rest
              else if String.eqb c ".." then
                match up with
                | parent :: up' => walk up' parent rest
                | [] => None
                end
              else None
          end
      end
  end.

(** The examples directory itself. *)
Definition root_dir (w : world) : node := Dir (EXAMPLES_DIR w) (listing w).

(** The node at [path], for a path that starts with [EXAMPLES_DIR] as the
    paths that the script builds do. *)
Definition resolve (w : world) (path : string) : option node :=
  match strip_prefix (join (EXAMPLES_DIR w) EmptyString) path with
  | Some rel => walk [] (root_dir w) (PyStr.split rel "/")
  | None => if String.eqb path (EXAMPLES_DIR w) then Some (root_dir w) else None
  end.

Definition isdir (w : world) (path : string) : bool :=
  match resolve w path with
  | Some (Dir _ _) => true
  | _ => false
  end.

Definition isfile (w : world) (path : string) : bool :=
  match resolve w path with
  | Some (File _ _) => true
  | _ => false
  end.

Definition exists_ (w : world) (path : string) : bool :=
  match resolve w path with
  | Some _ => true
  | None => false
  end.

End OsPath.

(** [os.listdir(EXAMPLES_DIR)] *)
Definition listdir (w : world) : list string := map node_name (listing w).

(** [with open(path) as f: json.load(f)] *)
Definition load_json (w : world) (path : string) : result json :=
  match OsPath.resolve w path with
  | None => Raise (FileNotFoundError path)
  | Some (Dir _ _) => Raise (IsADirectoryError path)
  | Some (File _ None) => Raise JSONDecodeError
  | Some (File _ (Some j)) => Ok j
  end.

Module Glob.

(** [glob._ishidden] *)
Definition ishidden (name : string) : bool := PyStr.startswith name ".".

(** [glob._rlistdir]: every name below a directory that no hidden
    component leads to, parents first; nothing below a file. *)
Fixpoint rlistdir (n : node) : list string :=
  match n with
  | File _ _ => []
  | Dir _ children =>
      (fix go (l : list node) : list string :=
         match l with
         | [] => []
         | c :: l' =>
             ((if ishidden (node_name c) then []
               else node_name c :: map (OsPath.join (node_name c)) (rlistdir c))
              ++ go l')%list
         end) children
  end.

(** [glob.glob(dirname + "/**", recursive=True)]: [glob._glob2] yields the
    empty name first, which [os.path.join] turns into [dirname] followed by
    a slash, then the names of [_rlistdir].  (Some releases of CPython yield
    the empty name only when [dirname] is a directory; an example directory
    is one.) *)
Definition glob_recursive (w : world) (dirname : string) : list string :=
  map (OsPath.join dirname)
      (EmptyString ::
       match OsPath.resolve w dirname with
       | Some n => rlistdir n
       | None => []
       end).

(** [glob.glob(dirname + "/**", recursive=False)]: the entries of
    [dirname] that are not hidden. *)
Definition glob_children (w : world) (dirname : string) : list string :=
  match OsPath.resolve w dirname with
  | Some (Dir _ children) =>
      map (OsPath.join dirname)
          (filter (fun x => negb (ishidden x)) (map node_name children))
  | _ => []
  end.

End Glob.

(** ** The registry existence checker *)

Definition INSTANCE_TYPE_OPTIONS_URL : string :=
  "https://saturncloud.io/static/constants.yaml".

Definition option_eqb (a : option string) (b : string) : bool :=
  match a with
  | Some s => String.eqb s b
  | None => false
  end.

(** [headers["Authorization"] = f"Bearer {token}"] *)
Definition with_bearer (headers : list (string * string)) (token : string)
  : list (string * string) :=
  (headers ++ [("Authorization", String.append "Bearer " token)])%list.

Definition image_exists_on_registry (w : world) (registry : option string)
    (image_name image_tag : string) : result bool :=
  let headers :=
    [("Accept", "application/vnd.docker.distribution.manifest.v2+json")] in
  (conf <-
     match registry with
     | None =>
         token <- docker_token w
           ("https://auth.docker.io/token?scope=repository:"
              ++ image_name ++ ":pull&service=registry.docker.io") ;;
         Ok (with_bearer headers token, "registry-1.docker.io")
     | Some r =>
         if String.eqb r "docker.io" then
           token <- docker_token w
             ("https://auth.docker.io/token?scope=repository:"
                ++ image_name ++ ":pull&service=registry.docker.io") ;;
           Ok (with_bearer headers token, "registry-1.docker.io")
         else if String.eqb r "public.ecr.aws" then
           token <- aws_token w ;;
           Ok (with_bearer headers token, r)
         else Ok (headers, r)
     end ;;
   status <- requests_head w
     ("https://" ++ snd conf ++ "/v2/" ++ image_name ++ "/manifests/" ++ image_tag)
     (fst conf) ;;
   Ok (status =? 200)%Z)%result.

(** ** The recipe validator *)

(** [a, b = l] *)
Definition unpack2 (l : list string) : result (string * string) :=
  match l with
  | [a; b] => Ok (a, b)
  | _ :: _ :: _ :: _ => Raise (ValueError "too many values to unpack (expected 2)")
  | _ =>
      Raise (ValueError ("not enough values to unpack (expected 2, got "
                           ++ PyStr.str_of_nat (List.length l) ++ ")"))
  end.

(** [x in instance_type_options]: the keys of the mapping are strings, and
    looking a list or an object up hashes it, which raises. *)
Definition in_options (w : world) (x : json) : result bool :=
  match x with
  | JStr s => Ok (existsb (String.eqb s) (instance_type_options w))
  | JArr _ => Raise TypeError
  | JObj _ => Raise TypeError
  | _ => Ok false
  end.

(** [all("path" in repo for repo in git_repositories)] *)
Fixpoint all_have_path (repos : list json) : result bool :=
  match repos with
  | [] => Ok true
  | repo :: repos' =>
      (b <- Py.contains repo "path" ;;
       if b then all_have_path repos' else Ok false)%result
  end.

Definition name_prefix : string := "example-".
Definition working_dir_prefix : string := "/home/jovyan/examples/examples/".

Definition instance_type_msg (it : json) : string :=
  "instance_type ('" ++ Py.str it ++ "') is not a valid option. "
    ++ "Look at " ++ INSTANCE_TYPE_OPTIONS_URL ++ " for valid options.".

Definition too_many_workers_msg : string :=
  "there should not be more than 3 workers per dask cluster.".

Definition worker_mismatch_msg : string :=
  "Dask worker instance type should match the instance type "
    ++ "of its attached jupyter_server or deployment".

(** The statements of [validate_recipe] after [json.load], one definition
    for each rule, in the order of the source.  [resource] and [workspace]
    are locals of the source that several rules read. *)
Section ValidateRecipe.

Variable w : world.
Variable recipe : json.
Variable example_dir : string.

(** lines 80 to 85 *)
Definition check_schema_and_name : result unit :=
  (match jsonschema_validate w recipe with
   | Some msg => Raise (ValidationError msg)
   | None => Ok tt
   end ;;
   name_pre <- Py.subscript recipe "name" ;;
   s <- Py.str_method name_pre ;;
   if negb (PyStr.startswith s name_prefix)
   then Raise (ValidationError
                 ("name ('" ++ s ++ "') needs to start with " ++ name_prefix))
   else Ok tt)%result.

(** line 88 *)
Definition image_name_tag (image_uri : string) : result (string * string) :=
  unpack2 (PyStr.split image_uri ":").

(** lines 87 to 102 *)
Definition check_image : result unit :=
  (image_uri <- Py.subscript recipe "image_uri" ;;
   s <- Py.str_method image_uri ;;
   nt <- image_name_tag s ;;
   let image_name := fst nt in
   let image_tag := snd nt in
   if negb (SKIP_IMAGE_CHECK w) then
     let image_pieces := PyStr.rsplit image_name "/" 2 in
     let rr :=
       match image_pieces with
       | [p0; p1; p2] => (Some p0, p1 ++ "/" ++ p2)
       | _ => (None, image_name)
       end in
     image_exists <- image_exists_on_registry w (fst rr) (snd rr) image_tag ;;
     if negb image_exists
     then Raise (ValidationError
                   ("image '" ++ image_name ++ ":" ++ image_tag
                      ++ "' is not available on Docker Hub."))
     else Ok tt
   else Ok tt)%result.

(** lines 104 to 120 *)
Definition check_working_directory : result unit :=
  (wd <- Py.subscript recipe "working_directory" ;;
   working_dir <- Py.str_method wd ;;
   if negb (PyStr.startswith working_dir working_dir_prefix)
   then Raise (ValidationError
                 ("working_directory ('" ++ working_dir
                    ++ "') needs to start with " ++ working_dir_prefix))
   else
     let working_dir_suffix :=
       PyStr.replace working_dir working_dir_prefix EmptyString in
     if negb (String.eqb working_dir_suffix example_dir)
     then Raise (ValidationError
                   ("working_directory ('" ++ working_dir
                      ++ "') needs to end with "
                      ++ "the name of the example directory: " ++ example_dir))
     else
       let rel_path :=
         PyStr.replace working_dir working_dir_prefix EmptyString in
       let abs_path := OsPath.join (EXAMPLES_DIR w) rel_path in
       if negb (OsPath.exists_ w abs_path)
       then Raise (ValidationError
                     ("working_directory ('" ++ working_dir
                        ++ "') needs to point to a real path"))
       else Ok tt)%result.

(** lines 122 to 126 *)
Definition check_git_repositories : result unit :=
  (git_repositories <- Py.subscript recipe "git_repositories" ;;
   n <- Py.len git_repositories ;;
   if (n <? 1)%nat
   then Raise (ValidationError "git_repositories cannot be empty")
   else
     repos <- Py.iter git_repositories ;;
     ok <- all_have_path repos ;;
     if negb ok
     then Raise (ValidationError
                   ("At least one git_repository is missing a path "
                      ++ Py.str git_repositories))
     else Ok tt)%result.

(** lines 128 to 132: [jupyter or deployment or job or rstudio] *)
Definition resource : result json :=
  (jupyter <- Py.get recipe "jupyter_server" JNull ;;
   deployment <- Py.get recipe "deployment" JNull ;;
   job <- Py.get recipe "job" JNull ;;
   rstudio <- Py.get recipe "rstudio_server" JNull ;;
   Ok (Py.or_ (Py.or_ (Py.or_ jupyter deployment) job) rstudio))%result.

(** line 133: [jupyter or rstudio] *)
Definition workspace : result json :=
  (jupyter <- Py.get recipe "jupyter_server" JNull ;;
   rstudio <- Py.get recipe "rstudio_server" JNull ;;
   Ok (Py.or_ jupyter rstudio))%result.

(** lines 135 to 139 *)
Definition check_instance_type : result unit :=
  (res <- resource ;;
   it <- Py.subscript res "instance_type" ;;
   valid <- in_options w it ;;
   if negb valid
   then Raise (ValidationError (instance_type_msg it))
   else Ok tt)%result.

(** lines 141 to 149 *)
Definition check_dask_cluster : result unit :=
  (res <- resource ;;
   dask <- Py.get recipe "dask_cluster" JNull ;;
   if Py.truthy dask then
     dask_cluster <- Py.subscript recipe "dask_cluster" ;;
     num_workers <- Py.subscript dask_cluster "num_workers" ;;
     too_many <- Py.gt num_workers 3 ;;
     if too_many then Raise (ValidationError too_many_workers_msg)
     else
       worker <- Py.subscript dask_cluster "worker" ;;
       worker_it <- Py.subscript worker "instance_type" ;;
       it <- Py.subscript res "instance_type" ;;
       if negb (Py.eq worker_it it)
       then Raise (ValidationError worker_mismatch_msg)
       else Ok tt
   else Ok tt)%result.

(** lines 151 to 152 *)
Definition check_disk_space : result unit :=
  (ws <- workspace ;;
   if Py.is_not_none ws then
     has <- Py.contains ws "disk_space" ;;
     if negb has
     then Raise (ValidationError "disk_space is required for workspaces.")
     else Ok tt
   else Ok tt)%result.

(** The rules that come before the instance-type rule. *)
Definition checks_before_instance_type : result unit :=
  (check_schema_and_name ;;
   check_image ;;
   check_working_directory ;;
   check_git_repositories)%result.

Definition validate_loaded : result unit :=
  (checks_before_instance_type ;;
   check_instance_type ;;
   check_dask_cluster ;;
   check_disk_space)%result.

End ValidateRecipe.

Definition validate_recipe (w : world) (recipe_path example_dir : string)
  : result unit :=
  (recipe <- load_json w recipe_path ;;
   validate_loaded w recipe example_dir)%result.

(** ** The code-cell lint *)

Definition warnings_filter_msg (file_name : string) : string :=
  "Found use of warnings.simplefilter() or warnings.filterwarnings() in "
    ++ file_name ++ ". "
    ++ "Do not filter out warnings in example notebooks. Try to fix them or "
    ++ "add text explaining why they can be safely ignored.".

Definition delayed_msg (file_name : string) : string :=
  "Found a use of '@delayed' in " ++ file_name ++ ". "
    ++ "Instead, 'import dask' and then use '@dask.delayed'.".

(** [re.search] finds [WARNING_FILTER_REGEX], whose two [.*] may match
    nothing, exactly where the text [warnings.filter] occurs, and
    [DELAYED_DECORATOR_REGEX] is made of literal characters. *)
Definition _lint_python_cell (file_name : string) (code_lines : json)
  : result (list string) :=
  (code_str <- Py.join EmptyString code_lines ;;
   let errors := [] in
   let errors :=
     if PyStr.contains "warnings.filter" code_str
     then (errors ++ [warnings_filter_msg file_name])%list else errors in
   let errors :=
     if PyStr.contains "@delayed" code_str
     then (errors ++ [delayed_msg file_name])%list else errors in
   Ok errors)%result.

(** ** The script *)

Definition ADMIN_DIRS : list string := ["_img"].
Definition SATURN_DIR_NAME : string := ".saturn".
Definition SATURN_JSON_NAME : string := "saturn.json".
Definition TEMPLATES_JSON_NAMES : list string :=
  ["templates-hosted.json"; "templates-enterprise.json"].

(** [bool(re.search(DIRECTORY_REGEX, s))] *)
Definition directory_regex (s : string) : bool :=
  PyStr.search_class_line
    (fun c => PyStr.is_digit c || PyStr.is_lower c || Ascii.eqb c "-") s.

(** [bool(re.search(FILENAME_REGEX, s))] *)
Definition filename_regex (s : string) : bool :=
  PyStr.search_class_line
    (fun c => PyStr.is_digit c || PyStr.is_upper c || PyStr.is_lower c
              || Ascii.eqb c "-" || Ascii.eqb c "." || Ascii.eqb c "_") s.

(** *** The template catalogs *)

Definition thumbnail_msg (t : template) : string :=
  "Thumbnail image (" ++ thumbnail_image_url t ++ ") for " ++ title t
    ++ " is not a valid url.".

Definition weight_msg (t : template) (matches : list string) : string :=
  "Weight (" ++ PyStr.str_of_Z (weight t) ++ ") for '" ++ title t
    ++ "' is non-unique. It matches " ++ Py.repr (JArr (map JStr matches))
    ++ ".".

Definition missing_example_msg (example_dir : string) (t : template) : string :=
  "Example directory: '" ++ example_dir ++ "' referenced by template: '"
    ++ title t ++ "' does " ++ "not exist.".

(** [weights[k] = v] on a dictionary kept in insertion order *)
Fixpoint dict_set (weights : list (string * Z)) (k : string) (v : Z)
  : list (string * Z) :=
  match weights with
  | [] => [(k, v)]
  | (k', v') :: rest =>
      if String.eqb k k' then (k', v) :: rest
      else (k', v') :: dict_set rest k v
  end.

(** [[key for key, value in weights.items() if weight == value]] *)
Definition weight_matches (weights : list (string * Z)) (weight : Z)
  : list string :=
  map fst (filter (fun kv => (weight =? snd kv)%Z) weights).

(** [template["recipe_path"].split("examples/")[-1].split("/")[0]] *)
Definition example_dir_of (recipe_path : string) : string :=
  List.hd EmptyString
    (PyStr.split (List.last (PyStr.split recipe_path "examples/") EmptyString)
                 "/").

(** The body of the loop at lines 277 to 298; it returns [weights].  The
    message of line 284 is assigned to [msg] and nothing reads it. *)
Definition check_template (w : world) (example_dirs : list string)
    (weights : list (string * Z)) (t : template) : M (list (string * Z)) :=
  (status <- lift (requests_get w (thumbnail_image_url t)) ;;
   let msg := if negb (status =? 200)%Z then thumbnail_msg t else EmptyString in
   let matches := weight_matches weights (weight t) in
   match matches with
   | [] => ret tt
   | _ :: _ => ErrorCollection.add (weight_msg t matches)
   end ;;
   let weights := dict_set weights (title t) (weight t) in
   let example_dir := example_dir_of (recipe_path t) in
   (if negb (existsb (String.eqb example_dir) example_dirs)
    then ErrorCollection.add (missing_example_msg example_dir t)
    else ret tt) ;;
   ret weights)%M.

Fixpoint check_templates (w : world) (example_dirs : list string)
    (weights : list (string * Z)) (templates : list template) : M unit :=
  match templates with
  | [] => ret tt
  | t :: templates' =>
      (weights' <- check_template w example_dirs weights t ;;
       check_templates w example_dirs weights' templates')%M
  end.

(** The body of the loop at lines 269 to 298. *)
Definition check_catalog (w : world) (example_dirs : list string)
    (template_name : string) : M unit :=
  let templates_json :=
    OsPath.join (OsPath.join (OsPath.join (EXAMPLES_DIR w) "..") ".saturn")
                template_name in
  match catalogs w template_name with
  | None => raise (FileNotFoundError templates_json)
  | Some templates =>
      (print ("Working on " ++ template_name) ;;
       check_templates w example_dirs [] templates)%M
  end.

(** *** The example directories *)

Section Example.

Variable w : world.
Variable example_dir : string.

Definition full_dir : string := OsPath.join (EXAMPLES_DIR w) example_dir.

Definition bad_example_name_msg : string :=
  "All directories under '" ++ EXAMPLES_DIR w ++ "' should be named with only "
    ++ "lower alphanumeric characters and dashes. "
    ++ "'" ++ full_dir ++ "` violates this rule.".

Definition empty_msg : string := "Directory '" ++ full_dir ++ "' is empty".

Definition second_level_readme_msg (fname : string) : string :=
  "Every directory two-levels below '" ++ EXAMPLES_DIR w ++ "' "
    ++ "must have a README.md. None found for '" ++ fname ++ "'.".

Definition non_empty_cells_msg (n : nat) (notebook_file : string) : string :=
  "Found " ++ PyStr.str_of_nat n ++ " non-empty cells in '" ++ notebook_file
    ++ "'. " ++ "Clear all outputs and re-commit this file.".

Definition bad_dirname_msg (fname : string) : string :=
  "[here] All directories should be named with only "
    ++ "lower alphanumeric characters and dashes. "
    ++ "'" ++ fname ++ "` violates this rule.".

Definition bad_filename_msg (fname : string) : string :=
  "All files should be named with only "
    ++ "alphanumeric characters, dashes, underscores, and periods. "
    ++ "'" ++ fname ++ "` violates this rule.".

Definition readme_msg : string :=
  "Every example must have a README.md. '" ++ full_dir ++ "' does not.".

Definition saturn_dir : string := OsPath.join full_dir SATURN_DIR_NAME.
Definition saturn_json : string := OsPath.join saturn_dir SATURN_JSON_NAME.

Definition saturn_dir_msg : string :=
  "'" ++ full_dir ++ "' does not include a '" ++ SATURN_DIR_NAME
    ++ "/' directory".

Definition saturn_json_msg : string :=
  "Did not find saturn.json in '" ++ saturn_dir ++ "'. This file is required.".

Definition schema_issues_msg (e : string) : string :=
  "'" ++ saturn_json ++ "' has the following schema issues: " ++ e.

(** lines 319 to 328 *)
Definition check_second_level_readmes : M unit :=
  for_each (Glob.glob_children w full_dir)
    (fun fname =>
       if OsPath.isdir w fname then
         let readme_file := OsPath.join fname "README.md" in
         if negb (OsPath.isfile w readme_file)
         then ErrorCollection.add (second_level_readme_msg fname)
         else ret tt
       else ret tt).

(** lines 337 to 343; it returns [non_empty_cells]. *)
Fixpoint scan_cells (notebook_file : string) (cells : list json)
    (non_empty_cells : nat) : M nat :=
  match cells with
  | [] => ret non_empty_cells
  | cell :: cells' =>
      (outputs <- lift (Py.get cell "outputs" (JArr [])) ;;
       execution_count <- lift (Py.get cell "execution_count" JNull) ;;
       let non_empty_cells :=
         if Py.truthy (Py.or_ outputs execution_count)
         then non_empty_cells + 1 else non_empty_cells in
       cell_type <- lift (Py.subscript cell "cell_type") ;;
       (if Py.eq cell_type (JStr "code") then
          source <- lift (Py.subscript cell "source") ;;
          linting_errors <- lift (_lint_python_cell notebook_file source) ;;
          for_each linting_errors ErrorCollection.add
        else ret tt) ;;
       scan_cells notebook_file cells' non_empty_cells)%M
  end.

(** lines 332 to 349 *)
Definition check_notebooks (all_files : list string) : M unit :=
  let notebook_files := filter (fun f => PyStr.endswith f ".ipynb") all_files in
  for_each notebook_files
    (fun notebook_file =>
       (notebook_dict <- lift (load_json w notebook_file) ;;
        cells_value <- lift (Py.subscript notebook_dict "cells") ;;
        cells <- lift (Py.iter cells_value) ;;
        non_empty_cells <- scan_cells notebook_file cells 0 ;;
        if (0 <? non_empty_cells)%nat
        then ErrorCollection.add (non_empty_cells_msg non_empty_cells notebook_file)
        else ret tt)%M).

(** lines 352 to 372 *)
Definition check_names (all_files : list string) : M unit :=
  for_each all_files
    (fun fname =>
       let is_valid_msg :=
         if OsPath.isdir w fname then
           let base_name := OsPath.basename_normpath fname in
           let is_valid := directory_regex base_name in
           let is_valid :=
             if existsb (String.eqb base_name) ADMIN_DIRS then true
             else is_valid in
           (is_valid, bad_dirname_msg fname)
         else
           let base_name := OsPath.basename fname in
           (filename_regex base_name, bad_filename_msg fname) in
       if negb (fst is_valid_msg)
       then ErrorCollection.add (snd is_valid_msg)
       else ret tt).

(** lines 375 to 378 *)
Definition check_readme : M unit :=
  let readme_file := OsPath.join full_dir "README.md" in
  if negb (OsPath.isfile w readme_file)
  then ErrorCollection.add readme_msg
  else ret tt.

(** lines 392 to 397: [try: validate_recipe(...) except ValidationError] *)
Definition try_validate_recipe : M unit :=
  match validate_recipe w saturn_json example_dir with
  | Ok _ => ret tt
  | Raise (ValidationError e) => ErrorCollection.add (schema_issues_msg e)
  | Raise e => raise e
  end.

(** lines 381 to 397 *)
Definition check_saturn : M unit :=
  ((if negb (OsPath.isdir w saturn_dir)
    then ErrorCollection.add saturn_dir_msg
    else ret tt) ;;
   if negb (OsPath.isfile w saturn_json)
   then ErrorCollection.add saturn_json_msg
   else try_validate_recipe)%M.

(** The body of the loop at lines 300 to 397; [continue] ends it. *)
Definition check_example : M unit :=
  (print ("Working on directory '" ++ example_dir ++ "'") ;;
   if negb (directory_regex (OsPath.basename example_dir))
   then ErrorCollection.add bad_example_name_msg
   else
     let all_files := Glob.glob_recursive w full_dir in
     if (List.length all_files =? 0)%nat
     then ErrorCollection.add empty_msg
     else
       check_second_level_readmes ;;
       check_notebooks all_files ;;
       check_names all_files ;;
       check_readme ;;
       check_saturn)%M.

End Example.

(** Lines 265 to 397: the checks.  The schema and the instance types are
    fetched before (lines 259 to 263); a run that fails there never gets
    here. *)
Definition checks (w : world) : M unit :=
  let example_dirs := listdir w in
  ((if (List.length example_dirs =? 0)%nat
    then ErrorCollection.add
           ("No directories found under '" ++ EXAMPLES_DIR w ++ "'")
    else ret tt) ;;
   for_each TEMPLATES_JSON_NAMES (check_catalog w example_dirs) ;;
   for_each example_dirs (check_example w))%M.

(** Lines 265 to 399. *)
Definition script (w : world) : M Z :=
  (checks w ;; ErrorCollection.report)%M.

Definition initial : state := mkState [] [].

(** How the process ends: with the exit status [code] that [sys.exit] in
    the report leaves, or with an exception that no handler caught. *)
Inductive outcome : Type :=
| Exited (out : list string) (code : Z)
| Aborted (out : list string) (e : exn).

Definition main (w : world) : outcome :=
  match script w initial with
  | (Ok code, st) => Exited (stdout st) code
  | (Raise e, st) => Aborted (stdout st) e
  end.

(** * What the properties speak of *)

(** ** The report, the split and the workloads as the specification words them *)

(** The numbered list as the specification words it: line [k], counting
    from 0, shows the number [k + 1] and the [k]-th recorded error. *)
Definition numbered_from (i : nat) (errors : list string) : list string :=
  map (fun k => PyStr.str_of_nat (i + k) ++ ". " ++ nth k errors EmptyString)
      (seq 0 (List.length errors)).

Definition numbered_list (errors : list string) : list string :=
  numbered_from 1 errors.

(** The split the specification describes: at the last occurrence of the
    character [x], if there is one. *)
Fixpoint split_on_last (x : ascii) (s : string) : option (string * string) :=
  match s with
  | EmptyString => None
  | String c s' =>
      match split_on_last x s' with
      | Some (a, b) => Some (String c a, b)
      | None => if Ascii.eqb c x then Some (EmptyString, s') else None
      end
  end.

(** The value of a field of the recipe, [null] when the field is absent. *)
Definition field (kvs : list (string * json)) (k : string) : json :=
  match Py.assoc k kvs with
  | Some v => v
  | None => JNull
  end.

(** The active workload as the specification words it: the first of the
    four workload fields that is not [null]. *)
Fixpoint first_non_null (l : list json) : option json :=
  match l with
  | [] => None
  | JNull :: l' => first_non_null l'
  | x :: _ => Some x
  end.

Definition workload_fields (kvs : list (string * json)) : list json :=
  [field kvs "jupyter_server"; field kvs "deployment"; field kvs "job";
   field kvs "rstudio_server"].


(** ** Classes of exceptions and of errors *)

Definition is_validation_error (e : exn) : bool :=
  match e with
  | ValidationError _ => true
  | _ => false
  end.

(** The errors of the uniqueness rule are those that start as line 288
    does. *)
Definition is_weight_error (msg : string) : bool :=
  PyStr.startswith msg "Weight (".

(** The errors of the decorator rule are those that start as line 247
    does. *)
Definition is_decorator_error (msg : string) : bool :=
  PyStr.startswith msg "Found a use of '@delayed' in ".

(** ** What the loop over a catalog adds *)

(** What the loop over the templates of a catalog adds, read off the
    source: the errors of one template, then those of the rest with the
    dictionary updated. *)
Definition template_errors (example_dirs : list string)
    (weights : list (string * Z)) (t : template) : list string :=
  (match weight_matches weights (weight t) with
   | [] => []
   | _ :: _ => [weight_msg t (weight_matches weights (weight t))]
   end
   ++ (if negb (existsb (String.eqb (example_dir_of (recipe_path t))) example_dirs)
       then [missing_example_msg (example_dir_of (recipe_path t)) t]
       else []))%list.

Fixpoint templates_errors (example_dirs : list string)
    (weights : list (string * Z)) (templates : list template) : list string :=
  match templates with
  | [] => []
  | t :: templates' =>
      (template_errors example_dirs weights t
       ++ templates_errors example_dirs
            (dict_set weights (title t) (weight t)) templates')%list
  end.

Fixpoint weight_errors (weights : list (string * Z)) (templates : list template)
  : list string :=
  match templates with
  | [] => []
  | t :: templates' =>
      (match weight_matches weights (weight t) with
       | [] => []
       | _ :: _ => [weight_msg t (weight_matches weights (weight t))]
       end
       ++ weight_errors (dict_set weights (title t) (weight t)) templates')%list
  end.

(** The dictionary once the templates [seen], of distinct titles, are in. *)
Definition dict_of (seen : list template) : list (string * Z) :=
  map (fun t => (title t, weight t)) seen.

Definition thumbnails_answer (w : world) (templates : list template) : Prop :=
  forall t, In t templates ->
            exists status, requests_get w (thumbnail_image_url t) = Ok status.

(** ** Paths and the growth of the error collection *)

(** [EXAMPLES_DIR] with the slash that [os.path.join] puts after it. *)
Definition root (w : world) : string := OsPath.join (EXAMPLES_DIR w) EmptyString.

Definition appends {A : Type} (c : M A) : Prop :=
  forall st, exists new, _errors (snd (c st)) = (_errors st ++ new)%list.

(** ** Sample inputs *)

Definition sample_recipe (image_uri instance_type : string)
    (more : list (string * json)) : list (string * json) :=
  ([("name", JStr "example-demo");
    ("image_uri", JStr image_uri);
    ("working_directory", JStr "/home/jovyan/examples/examples/demo");
    ("git_repositories",
     JArr [JObj [("url", JStr "git@github.com:saturncloud/examples.git");
                 ("path", JStr "/home/jovyan/examples")]]);
    ("jupyter_server",
     JObj [("instance_type", JStr instance_type);
           ("disk_space", JStr "10Gi")])] ++ more)%list.

Definition sample_template (title : string) (weight : Z) : template :=
  mkTemplate title weight
    ("https://saturncloud.io/thumbnails/" ++ title ++ ".png")
    "examples/demo/.saturn/saturn.json".

(** A run with the image check skipped, in which every thumbnail answers
    404. *)
Definition sample_world (listing : list node)
    (hosted enterprise : list template) : world :=
  mkWorld "examples" true (fun _ => None) ["medium"; "large"] listing
    (fun name =>
       if String.eqb name "templates-hosted.json" then Some hosted
       else if String.eqb name "templates-enterprise.json" then Some enterprise
       else None)
    (fun _ => Ok 404%Z) (fun _ => Ok "token") (Ok "token")
    (fun _ _ => Ok 200%Z).

Definition demo_dir (recipe : list (string * json)) : node :=
  Dir "demo"
    [File "README.md" None;
     Dir ".saturn" [File "saturn.json" (Some (JObj recipe))]].

Definition valid_recipe : list (string * json) :=
  sample_recipe "saturncloud/saturn:2021.02.22" "medium" [].

(** One valid example, and one template whose thumbnail answers 404. *)
Definition world_bad_thumbnail : world :=
  sample_world [demo_dir valid_recipe] [sample_template "Demo" 1] [].

(** An example directory with a README and no [.saturn] directory. *)
Definition world_no_saturn : world :=
  sample_world [Dir "demo" [File "README.md" None]] [] [].

(** An example directory that holds nothing. *)
Definition world_empty_example : world :=
  sample_world [Dir "empty-example" []] [] [].

Definition huge_recipe : list (string * json) :=
  sample_recipe "saturncloud/saturn:2021.02.22" "huge" [].

Definition four_workers : list (string * json) :=
  [("num_workers", JNum 4)].

Definition dask_recipe : list (string * json) :=
  sample_recipe "saturncloud/saturn:2021.02.22" "medium"
    [("dask_cluster", JObj four_workers)].

Definition port_recipe : list (string * json) :=
  sample_recipe "localhost:5000/saturn:2021.02.22" "medium" [].





Definition numbered_template (k : nat) : template :=
  mkTemplate ("Template " ++ PyStr.str_of_nat k) (Z.of_nat k)
    "https://saturncloud.io/thumbnails/template.png"
    "examples/gone/.saturn/saturn.json".

(** No example, and 255 templates of distinct titles and weights: one error
    for the empty directory and one for each template. *)
Definition world_256_errors : world :=
  sample_world [] (map numbered_template (seq 0 255)) [].

(** ** What the further properties speak of *)

(** Every character of [s] is in the class [p]. *)
Fixpoint every_char (p : ascii -> bool) (s : string) : bool :=
  match s with
  | EmptyString => true
  | String c s' => p c && every_char p s'
  end.

(** The class [[0-9a-z\-]] of [DIRECTORY_REGEX] (line 34). *)
Definition directory_class (c : ascii) : bool :=
  PyStr.is_digit c || PyStr.is_lower c || Ascii.eqb c "-".

(** The newline before which [$] also matches. *)
Definition line_end : string := String PyStr.newline EmptyString.

(** The values that [str.join] accepts as items. *)
Definition is_str (j : json) : bool :=
  match j with
  | JStr _ => true
  | _ => false
  end.

(** A cell as the loop of lines 337 to 343 expects it: an object with a
    [cell_type] string, and for a code cell a [source] list of strings. *)
Definition well_formed_cell (cell : json) : Prop :=
  exists kvs cell_type,
    cell = JObj kvs
    /\ Py.assoc "cell_type" kvs = Some (JStr cell_type)
    /\ (cell_type = "code" ->
        exists lines, Py.assoc "source" kvs = Some (JArr (map JStr lines))).

(** A cell with outputs or an execution count. *)
Definition cell_non_empty (cell : json) : bool :=
  match cell with
  | JObj kvs =>
      Py.truthy
        (Py.or_ (match Py.assoc "outputs" kvs with
                 | Some v => v
                 | None => JArr []
                 end)
                (field kvs "execution_count"))
  | _ => false
  end.

(** The lint errors of a cell: those of its source if it is a code cell. *)
Definition cell_lint (notebook_file : string) (cell : json) : list string :=
  match cell with
  | JObj kvs =>
      if Py.eq (field kvs "cell_type") (JStr "code")
      then match _lint_python_cell notebook_file (field kvs "source") with
           | Ok errors => errors
           | Raise _ => []
           end
      else []
  | _ => []
  end.

Definition count_non_empty (cells : list json) : nat :=
  List.length (filter cell_non_empty cells).

(** The cells of the notebook at [path], if it is an object with a list
    under [cells]. *)
Definition notebook_cells (w : world) (path : string) : option (list json) :=
  match load_json w path with
  | Ok (JObj kvs) =>
      match Py.assoc "cells" kvs with
      | Some (JArr cells) => Some cells
      | _ => None
      end
  | _ => None
  end.

Definition notebook_errors (w : world) (path : string) : list string :=
  match notebook_cells w path with
  | Some cells =>
      flat_map (cell_lint path) cells
      ++ (if (0 <? count_non_empty cells)%nat
          then [non_empty_cells_msg (count_non_empty cells) path]
          else [])
  | None => []
  end.

Definition well_formed_notebook (w : world) (path : string) : Prop :=
  exists cells, notebook_cells w path = Some cells
                /\ Forall well_formed_cell cells.

(** A repository given as an object, and one that has the key [path]
    (line 125). *)
Definition is_obj (j : json) : bool :=
  match j with
  | JObj _ => true
  | _ => false
  end.

Definition has_path (repo : json) : bool :=
  match repo with
  | JObj kvs => match Py.assoc "path" kvs with Some _ => true | None => false end
  | _ => false
  end.

(** [s] written [n] times. *)
Fixpoint repeat_string (s : string) (n : nat) : string :=
  match n with
  | O => EmptyString
  | S n' => s ++ repeat_string s n'
  end.

(** The request that asks Docker Hub for the manifest of an image. *)
Definition docker_hub_token_url (image_name : string) : string :=
  "https://auth.docker.io/token?scope=repository:"
    ++ image_name ++ ":pull&service=registry.docker.io".

Definition manifest_url (host image_name image_tag : string) : string :=
  "https://" ++ host ++ "/v2/" ++ image_name ++ "/manifests/" ++ image_tag.

Definition accept_header : list (string * string) :=
  [("Accept", "application/vnd.docker.distribution.manifest.v2+json")].

Definition image_missing_msg (image_name image_tag : string) : string :=
  "image '" ++ image_name ++ ":" ++ image_tag
    ++ "' is not available on Docker Hub.".

(** The registry and the repository that lines 90 to 95 read from an image
    name. *)
Definition registry_and_repository (image_name : string)
  : option string * string :=
  match PyStr.rsplit image_name "/" 2 with
  | [p0; p1; p2] => (Some p0, p1 ++ "/" ++ p2)
  | _ => (None, image_name)
  end.

(** The errors of lines 294 to 298. *)
Definition is_missing_example_error (msg : string) : bool :=
  PyStr.startswith msg "Example directory: '".

(** [example_dir in example_dirs] for the example directory of [t]
    (lines 292 and 293). *)
Definition example_is_listed (example_dirs : list string) (t : template) : bool :=
  existsb (String.eqb (example_dir_of (recipe_path t))) example_dirs.

(** The titles of the templates [seen] that have the weight of [t]. *)
Definition earlier_same_weight (seen : list template) (t : template)
  : list string :=
  map title (filter (fun s => (weight t =? weight s)%Z) seen).

(** One error for each template that comes after a template of the same
    weight, in the order of the catalog. *)
Fixpoint collisions (seen templates : list template) : list string :=
  match templates with
  | [] => []
  | t :: templates' =>
      (match earlier_same_weight seen t with
       | [] => []
       | _ :: _ => [weight_msg t (earlier_same_weight seen t)]
       end
       ++ collisions (seen ++ [t]) templates')%list
  end.

(** The error of lines 352 to 372 for one path, if it has one. *)
Definition name_error (w : world) (fname : string) : list string :=
  if OsPath.isdir w fname then
    if directory_regex (OsPath.basename_normpath fname)
       || existsb (String.eqb (OsPath.basename_normpath fname)) ADMIN_DIRS
    then [] else [bad_dirname_msg fname]
  else
    if filename_regex (OsPath.basename fname) then []
    else [bad_filename_msg fname].

(** The least that an example directory holds: a README and the recipe. *)
Definition minimal_example (name : string) (readme : option json)
    (recipe : json) : node :=
  Dir name
    [File "README.md" readme;
     Dir ".saturn" [File "saturn.json" (Some recipe)]].

(** An entry of the examples directory that passes every check: a
    directory of a valid name that holds a README and an accepted recipe. *)
Definition clean_example (w : world) (n : node) : Prop :=
  exists readme recipe,
    n = minimal_example (node_name n) readme recipe
    /\ directory_regex (node_name n) = true
    /\ validate_loaded w recipe (node_name n) = Ok tt.

(** A catalog that passes every check. *)
Definition clean_catalog (w : world) (templates : list template) : Prop :=
  thumbnails_answer w templates
  /\ NoDup (map title templates)
  /\ NoDup (map weight templates)
  /\ forall t, In t templates -> example_is_listed (listdir w) t = true.

(** ** Further sample inputs *)

Definition sample_git : json :=
  JArr [JObj [("url", JStr "git@github.com:saturncloud/examples.git");
              ("path", JStr "/home/jovyan/examples")]].

Definition medium_jupyter : string * json :=
  ("jupyter_server",
   JObj [("instance_type", JStr "medium"); ("disk_space", JStr "10Gi")]).

Definition custom_recipe (name image_uri working_directory : string)
    (git_repositories : json) (more : list (string * json))
  : list (string * json) :=
  ([("name", JStr name);
    ("image_uri", JStr image_uri);
    ("working_directory", JStr working_directory);
    ("git_repositories", git_repositories)] ++ more)%list.

Definition demo_working_directory : string :=
  "/home/jovyan/examples/examples/demo".

Definition unprefixed_recipe : list (string * json) :=
  custom_recipe "demo" "saturncloud/saturn:2021.02.22" demo_working_directory
    sample_git [medium_jupyter].

Definition no_git_recipe : list (string * json) :=
  custom_recipe "example-demo" "saturncloud/saturn:2021.02.22"
    demo_working_directory (JArr []) [medium_jupyter].

Definition pathless_git_recipe : list (string * json) :=
  custom_recipe "example-demo" "saturncloud/saturn:2021.02.22"
    demo_working_directory
    (JArr [JObj [("url", JStr "git@github.com:saturncloud/examples.git")]])
    [medium_jupyter].

Definition doubled_prefix_recipe : list (string * json) :=
  custom_recipe "example-demo" "saturncloud/saturn:2021.02.22"
    "/home/jovyan/examples/examples//home/jovyan/examples/examples/demo"
    sample_git [medium_jupyter].

Definition other_directory_recipe : list (string * json) :=
  custom_recipe "example-demo" "saturncloud/saturn:2021.02.22"
    "/home/jovyan/examples/examples/other" sample_git [medium_jupyter].

Definition no_disk_space_recipe : list (string * json) :=
  custom_recipe "example-demo" "saturncloud/saturn:2021.02.22"
    demo_working_directory sample_git
    [("jupyter_server", JObj [("instance_type", JStr "medium")])].

Definition large_worker : list (string * json) :=
  [("instance_type", JStr "large")].

Definition three_large_workers : list (string * json) :=
  [("num_workers", JNum 3); ("worker", JObj large_worker)].

Definition large_worker_recipe : list (string * json) :=
  custom_recipe "example-demo" "saturncloud/saturn:2021.02.22"
    demo_working_directory sample_git
    [medium_jupyter; ("dask_cluster", JObj three_large_workers)].

Definition ecr_recipe : list (string * json) :=
  custom_recipe "example-demo" "public.ecr.aws/saturncloud/saturn:2022.01.06"
    demo_working_directory sample_git [medium_jupyter].

(** A run that checks the images, in which every registry answers
    [status]. *)
Definition checking_world (listing : list node) (status : Z) : world :=
  mkWorld "examples" false (fun _ => None) ["medium"; "large"] listing
    (fun _ => Some []) (fun _ => Ok 200%Z) (fun _ => Ok "token") (Ok "token")
    (fun _ _ => Ok status).

(** One valid example whose image is found on Docker Hub. *)
Definition world_checked : world :=
  checking_world [demo_dir valid_recipe] 200.

(** A run without its catalogs. *)
Definition world_without_catalogs : world :=
  mkWorld "examples" true (fun _ => None) ["medium"; "large"]
    [demo_dir valid_recipe] (fun _ => None) (fun _ => Ok 200%Z)
    (fun _ => Ok "token") (Ok "token") (fun _ _ => Ok 200%Z).

(** An example whose [saturn.json] is no JSON text. *)
Definition world_unreadable_recipe : world :=
  sample_world
    [Dir "demo"
       [File "README.md" None; Dir ".saturn" [File "saturn.json" None]]]
    [] [].

Definition sample_cells : list json :=
  [JObj [("cell_type", JStr "markdown"); ("source", JArr [JStr "# Dask"])];
   JObj [("cell_type", JStr "code");
         ("source", JArr [JStr "import dask "; JStr "@delayed "]);
         ("outputs", JArr [JStr "3"]);
         ("execution_count", JNum 2)];
   JObj [("cell_type", JStr "code");
         ("source", JArr [JStr "x = 1"]);
         ("outputs", JArr []);
         ("execution_count", JNull)]].

Definition world_notebook : world :=
  sample_world
    [Dir "demo"
       [File "README.md" None;
        File "analysis.ipynb" (Some (JObj [("cells", JArr sample_cells)]))]]
    [] [].

Definition stray_template : template :=
  mkTemplate "Stray" 5 "https://saturncloud.io/thumbnails/Stray.png"
    "examples/gone/.saturn/saturn.json".

Definition world_stray_template : world :=
  sample_world [demo_dir valid_recipe]
    [sample_template "Dask" 1; stray_template] [].

Definition world_three_weights : world :=
  sample_world [demo_dir valid_recipe]
    [sample_template "Dask" 1; sample_template "Prefect" 1;
     sample_template "Snowflake" 1] [].

Definition world_no_examples : world :=
  sample_world [] [sample_template "Dask" 1] [].

(** * Properties *)

(** ** The monad *)

Lemma bind_ok {A B : Type} (c : M A) (k : A -> M B) (st st' : state) (a : A) :
  c st = (Ok a, st') -> bind c k st = k a st'.
Proof. intros H. unfold bind. rewrite H. reflexivity. Qed.

Lemma bind_raise {A B : Type} (c : M A) (k : A -> M B) (st st' : state) (e : exn) :
  c st = (Raise e, st') -> bind c k st = (Raise e, st').
Proof. intros H. unfold bind. rewrite H. reflexivity. Qed.

(** A loop whose body raises at one of its items does not end normally. *)
Lemma for_each_raises {A : Type} (l : list A) (body : A -> M unit) (x : A) :
  In x l ->
  (forall st, exists e st', body x st = (Raise e, st')) ->
  forall st, exists e st', for_each l body st = (Raise e, st').
Proof.
  intros Hin Hx. induction l as [|y l IH]; [contradiction|].
  intros st. simpl. unfold bind.
  destruct (body y st) as [[[]|e] st1] eqn:Hy.
  - destruct Hin as [->|Hin].
    + destruct (Hx st) as (e & st' & He). congruence.
    + apply IH. exact Hin.
  - eauto.
Qed.

(** ** The report *)

Lemma numbered_from_cons (i : nat) (error : string) (errors : list string) :
  numbered_from i (error :: errors)
  = (PyStr.str_of_nat i ++ ". " ++ error) :: numbered_from (i + 1) errors.
Proof.
  unfold numbered_from. cbn [List.length seq map nth].
  rewrite Nat.add_0_r. f_equal.
  rewrite <- seq_shift, map_map.
  apply map_ext. intros k. cbn [nth].
  replace (i + S k) with (i + 1 + k) by lia. reflexivity.
Qed.

Lemma print_errors_spec (errors : list string) :
  forall (i : nat) (st : state),
    ErrorCollection.print_errors i errors st
    = (Ok tt, mkState (_errors st) (stdout st ++ numbered_from i errors)%list).
Proof.
  induction errors as [|error errors IH]; intros i st.
  - cbn. rewrite app_nil_r. destruct st; reflexivity.
  - rewrite numbered_from_cons.
    cbn [ErrorCollection.print_errors]. unfold bind, print at 1.
    rewrite IH. cbn [_errors stdout]. rewrite <- app_assoc. reflexivity.
Qed.

Lemma report_spec (st : state) :
  ErrorCollection.report st
  = (Ok (sys_exit (Z.of_nat (List.length (_errors st)))),
     mkState (_errors st)
       (stdout st
          ++ [ErrorCollection.banner;
              ErrorCollection.header (List.length (_errors st))]
          ++ numbered_list (_errors st))%list).
Proof.
  unfold ErrorCollection.report, bind, print, ret, ErrorCollection.num_errors.
  cbn [_errors stdout]. rewrite print_errors_spec. cbn [_errors stdout].
  unfold numbered_list. rewrite <- !app_assoc. reflexivity.
Qed.

Lemma sys_exit_small (n : nat) : n < 256 -> sys_exit (Z.of_nat n) = Z.of_nat n.
Proof. intros H. unfold sys_exit. apply Z.mod_small. lia. Qed.

(** C1.  When the checks are over, the script prints the banner, the header
    that starts with the number of recorded errors and the recorded errors
    numbered from 1 in the order of their recording, and ends with an exit
    status that is that number when fewer than 256 errors are recorded;
    [add] records an error behind those recorded before. *)
Theorem report_prints_numbered_errors_and_exits_with_count :
  forall (w : world) (st : state),
    checks w initial = (Ok tt, st) ->
    let errors := _errors st in
    let count := List.length errors in
    (exists code,
       main w
       = Exited (stdout st
                   ++ [ErrorCollection.banner;
                       (PyStr.str_of_nat count
                          ++ " errors found checking examples"
                          ++ String PyStr.newline EmptyString)%string]
                   ++ numbered_list errors)%list
                code
       /\ (count < 256 -> code = Z.of_nat count))
    /\ List.length (numbered_list errors) = count
    /\ (forall k error,
          nth_error errors k = Some error ->
          nth_error (numbered_list errors) k
          = Some (PyStr.str_of_nat (k + 1) ++ ". " ++ error))
    /\ (forall error st0,
          ErrorCollection.add error st0
          = (Ok tt, mkState (_errors st0 ++ [error])%list (stdout st0))).
Proof.
  intros w st H errors count. repeat split.
  - exists (sys_exit (Z.of_nat count)). split.
    + unfold main, script. rewrite (bind_ok _ _ _ _ _ H).
      rewrite report_spec. reflexivity.
    + apply sys_exit_small.
  - unfold numbered_list, numbered_from. rewrite length_map, length_seq.
    reflexivity.
  - intros k error Hk. unfold numbered_list, numbered_from.
    assert (Hlt : k < List.length errors)
      by (apply nth_error_Some; congruence).
    rewrite nth_error_map, nth_error_seq.
    destruct (Nat.ltb_spec k (List.length errors)) as [_|Hge]; [|lia].
    cbn [option_map Nat.add].
    rewrite (nth_error_nth _ _ EmptyString Hk).
    replace (k + 1) with (S k) by lia. reflexivity.
Qed.

(** C1, as the specification words it, fails: with 256 recorded errors the
    exit status of the process is 0. *)
Lemma report_of_256_errors_exits_with_status_zero :
  exists st out,
    checks world_256_errors initial = (Ok tt, st)
    /\ List.length (_errors st) = 256
    /\ main world_256_errors = Exited out 0.
Proof.
  exists (snd (checks world_256_errors initial)),
         (stdout (snd (script world_256_errors initial))).
  split; [|split]; vm_compute; reflexivity.
Qed.

(** ** The code-cell lint *)

Lemma strings_of_strs (lines : list string) :
  Py.strings (map JStr lines) = Ok lines.
Proof.
  induction lines as [|l lines IH]; cbn [map Py.strings].
  - reflexivity.
  - rewrite IH. reflexivity.
Qed.

(** The joined source of a cell whose [source] is a list of strings. *)
Lemma join_source (lines : list string) :
  Py.join EmptyString (JArr (map JStr lines))
  = Ok (PyStr.join EmptyString lines).
Proof.
  unfold Py.join. cbn [Py.iter rbind]. rewrite strings_of_strs. reflexivity.
Qed.

Lemma warnings_filter_msg_not_delayed_msg (file_name : string) :
  warnings_filter_msg file_name <> delayed_msg file_name.
Proof. unfold warnings_filter_msg, delayed_msg. cbn. discriminate. Qed.

Lemma startswith_append (p s : string) : PyStr.startswith (p ++ s) p = true.
Proof.
  unfold PyStr.startswith. induction p as [|c p IH]; cbn [append String.prefix].
  - destruct s; reflexivity.
  - destruct (ascii_dec c c); [exact IH|congruence].
Qed.

Lemma is_decorator_error_delayed_msg (file_name : string) :
  is_decorator_error (delayed_msg file_name) = true.
Proof. unfold is_decorator_error, delayed_msg. apply startswith_append. Qed.

Lemma is_decorator_error_warnings_filter_msg (file_name : string) :
  is_decorator_error (warnings_filter_msg file_name) = false.
Proof. reflexivity. Qed.

(** C9.  On a code cell whose joined source holds the text [@delayed], the
    lint returns exactly one error of the decorator rule, which says that
    [@delayed] was found in the file and that [@dask.delayed] is to be used;
    on a cell whose joined source holds [@dask.delayed] and no [@delayed],
    it returns none for that rule. *)
Theorem lint_delayed_decorator :
  forall (file_name : string) (lines : list string),
    let code_str := PyStr.join EmptyString lines in
    exists errors,
      _lint_python_cell file_name (JArr (map JStr lines)) = Ok errors
      /\ (PyStr.contains "@delayed" code_str = true ->
          filter is_decorator_error errors
          = ["Found a use of '@delayed' in " ++ file_name
               ++ ". Instead, 'import dask' and then use '@dask.delayed'."])
      /\ (PyStr.contains "@dask.delayed" code_str = true ->
          PyStr.contains "@delayed" code_str = false ->
          filter is_decorator_error errors = []).
Proof.
  intros file_name lines code_str.
  unfold _lint_python_cell. rewrite join_source. cbn [rbind].
  fold code_str.
  eexists. split; [reflexivity|].
  destruct (PyStr.contains "warnings.filter" code_str);
    destruct (PyStr.contains "@delayed" code_str);
    cbn [app filter];
    rewrite ?is_decorator_error_delayed_msg,
            ?is_decorator_error_warnings_filter_msg;
    split; intros; try discriminate; reflexivity.
Qed.

Lemma lint_delayed_decorator_witness :
  (exists errors,
     _lint_python_cell "a.ipynb"
       (JArr (map JStr ["import dask "; "@delayed "; "def f(): pass"]))
     = Ok errors
     /\ filter is_decorator_error errors
        = ["Found a use of '@delayed' in a.ipynb. Instead, 'import dask' and then use '@dask.delayed'."])
  /\ (exists errors,
        _lint_python_cell "a.ipynb"
          (JArr (map JStr ["import dask "; "@dask.delayed "; "def f(): pass"]))
        = Ok errors
        /\ filter is_decorator_error errors = []).
Proof.
  split.
  - destruct (lint_delayed_decorator "a.ipynb"
                ["import dask "; "@delayed "; "def f(): pass"])
      as (errors & Hrun & Hone & _).
    exists errors. split; [exact Hrun|]. apply Hone. reflexivity.
  - destruct (lint_delayed_decorator "a.ipynb"
                ["import dask "; "@dask.delayed "; "def f(): pass"])
      as (errors & Hrun & _ & Hnone).
    exists errors. split; [exact Hrun|]. apply Hnone; reflexivity.
Defined.

(** ** Splitting at a one-character separator *)

Lemma prefix_empty (s : string) : String.prefix EmptyString s = true.
Proof. destruct s; reflexivity. Qed.

Lemma prefix_char (x d : ascii) (s : string) :
  String.prefix (String x EmptyString) (String d s) = Ascii.eqb d x.
Proof.
  cbn. destruct (ascii_dec x d) as [->|Hne].
  - rewrite prefix_empty, Ascii.eqb_refl. reflexivity.
  - symmetry. apply Ascii.eqb_neq. congruence.
Qed.

Lemma split_char_cons (x c : ascii) (s : string) :
  PyStr.split (String c s) (String x EmptyString)
  = if Ascii.eqb c x
    then EmptyString :: PyStr.split s (String x EmptyString)
    else PyStr.cons_head c (PyStr.split s (String x EmptyString)).
Proof.
  unfold PyStr.split. cbn [PyStr.split_go PyStr.may_split andb].
  rewrite prefix_char. destruct (Ascii.eqb c x); reflexivity.
Qed.

Lemma split_char_length (x : ascii) (s : string) :
  List.length (PyStr.split s (String x EmptyString)) = S (PyStr.count_char x s).
Proof.
  induction s as [|c s IH].
  - reflexivity.
  - rewrite split_char_cons. cbn [PyStr.count_char].
    destruct (Ascii.eqb c x); cbn [List.length].
    + rewrite IH. reflexivity.
    + destruct (PyStr.split s (String x EmptyString)); cbn in *; lia.
Qed.

Lemma split_char_absent (x : ascii) (s : string) :
  PyStr.count_char x s = 0 -> PyStr.split s (String x EmptyString) = [s].
Proof.
  induction s as [|c s IH]; intros H.
  - reflexivity.
  - rewrite split_char_cons. cbn [PyStr.count_char] in H.
    destruct (Ascii.eqb c x); [discriminate|].
    rewrite IH by exact H. reflexivity.
Qed.

Lemma split_char_app (x : ascii) (a b : string) :
  PyStr.count_char x a = 0 ->
  PyStr.split (a ++ String x b) (String x EmptyString)
  = a :: PyStr.split b (String x EmptyString).
Proof.
  induction a as [|c a IH]; intros H.
  - cbn [append]. rewrite split_char_cons, Ascii.eqb_refl. reflexivity.
  - cbn [append]. rewrite split_char_cons. cbn [PyStr.count_char] in H.
    destruct (Ascii.eqb c x); [discriminate|].
    rewrite IH by exact H. reflexivity.
Qed.

(** ** The image name and tag *)

Lemma split_on_last_absent (x : ascii) (s : string) :
  PyStr.count_char x s = 0 -> split_on_last x s = None.
Proof.
  induction s as [|c s IH]; intros H; cbn in *.
  - reflexivity.
  - destruct (Ascii.eqb c x); [discriminate|].
    rewrite IH by exact H. reflexivity.
Qed.

Lemma split_char_once (x : ascii) (s : string) :
  PyStr.count_char x s = 1 ->
  exists a b,
    PyStr.split s (String x EmptyString) = [a; b]
    /\ split_on_last x s = Some (a, b)
    /\ s = a ++ String x b
    /\ PyStr.count_char x b = 0.
Proof.
  induction s as [|c s IH]; intros H; [discriminate|].
  rewrite split_char_cons. cbn [PyStr.count_char] in H.
  cbn [split_on_last].
  destruct (Ascii.eqb_spec c x) as [->|Hne].
  - assert (H0 : PyStr.count_char x s = 0) by lia.
    exists EmptyString, s.
    rewrite split_char_absent, split_on_last_absent by exact H0.
    repeat split; assumption.
  - destruct (IH H) as (a & b & Hs & Hl & Heq & Hb).
    exists (String c a), b. rewrite Hs, Hl. cbn [PyStr.cons_head append].
    repeat split; [congruence|exact Hb].
Qed.

Lemma image_name_tag_error (image_uri : string) :
  PyStr.count_char ":" image_uri <> 1 ->
  exists msg, image_name_tag image_uri = Raise (ValueError msg).
Proof.
  intros H. unfold image_name_tag.
  pose proof (split_char_length ":" image_uri) as Hlen.
  destruct (PyStr.split image_uri ":") as [|a [|b [|c l]]]; cbn in *.
  - eauto.
  - eauto.
  - lia.
  - eauto.
Qed.

(** C3, as amended.  When [image_uri] holds exactly one colon, line 88
    yields the text before it as the image name and the text after it as the
    tag, which is the split at the last colon. *)
Theorem image_uri_with_one_colon_splits_at_it :
  forall (image_uri : string),
    PyStr.count_char ":" image_uri = 1 ->
    exists image_name image_tag,
      image_name_tag image_uri = Ok (image_name, image_tag)
      /\ split_on_last ":" image_uri = Some (image_name, image_tag)
      /\ image_uri = image_name ++ ":" ++ image_tag
      /\ PyStr.count_char ":" image_tag = 0.
Proof.
  intros image_uri H.
  destruct (split_char_once ":" image_uri H) as (a & b & Hs & Hl & Heq & Hb).
  exists a, b. unfold image_name_tag. rewrite Hs. cbn [unpack2].
  repeat split; assumption.
Qed.

Lemma image_uri_with_one_colon_splits_at_it_witness :
  exists image_name image_tag,
    image_name_tag "saturncloud/saturn:2021.02.22" = Ok (image_name, image_tag)
    /\ split_on_last ":" "saturncloud/saturn:2021.02.22"
       = Some (image_name, image_tag)
    /\ "saturncloud/saturn:2021.02.22" = image_name ++ ":" ++ image_tag
    /\ PyStr.count_char ":" image_tag = 0.
Proof.
  apply (image_uri_with_one_colon_splits_at_it "saturncloud/saturn:2021.02.22").
  reflexivity.
Defined.

(** C3, as the specification words it, fails: an [image_uri] with a
    registry port has a last colon, and line 88 raises on it. *)
Lemma image_uri_with_port_is_not_split :
  split_on_last ":" "localhost:5000/saturn:2021.02.22"
  = Some ("localhost:5000/saturn", "2021.02.22")
  /\ image_name_tag "localhost:5000/saturn:2021.02.22"
     = Raise (ValueError "too many values to unpack (expected 2)").
Proof. split; reflexivity. Qed.

(** ** The recipe validator *)











Lemma get_field (kvs : list (string * json)) (k : string) :
  Py.get (JObj kvs) k JNull = Ok (field kvs k).
Proof. unfold Py.get, field. destruct (Py.assoc k kvs); reflexivity. Qed.

Lemma or_truthy (a b : json) : Py.truthy a = true -> Py.or_ a b = a.
Proof. intros H. unfold Py.or_. rewrite H. reflexivity. Qed.

Lemma truthy_workload (fields : list (string * json)) (it : json) :
  Py.assoc "instance_type" fields = Some it -> Py.truthy (JObj fields) = true.
Proof. destruct fields; [discriminate|reflexivity]. Qed.

(** Where every workload carries an [instance_type], the [or] chain of
    line 132 picks the first workload that is not [null]. *)
Lemma resource_is_first_non_null (kvs fields : list (string * json)) (it : json) :
  first_non_null (workload_fields kvs) = Some (JObj fields) ->
  Py.assoc "instance_type" fields = Some it ->
  resource (JObj kvs) = Ok (JObj fields).
Proof.
  intros Hfirst Hit. pose proof (truthy_workload _ _ Hit) as Ht.
  unfold resource. rewrite !get_field. cbn [rbind]. f_equal.
  unfold workload_fields in Hfirst. cbn [first_non_null] in Hfirst.
  destruct (field kvs "jupyter_server");
    try (injection Hfirst as ->;
         rewrite !(or_truthy (JObj fields)) by exact Ht; reflexivity);
    try discriminate.
  cbn [Py.or_ Py.truthy].
  destruct (field kvs "deployment");
    try (injection Hfirst as ->;
         rewrite !(or_truthy (JObj fields)) by exact Ht; reflexivity);
    try discriminate.
  cbn [Py.or_ Py.truthy].
  destruct (field kvs "job");
    try (injection Hfirst as ->;
         rewrite !(or_truthy (JObj fields)) by exact Ht; reflexivity);
    try discriminate.
  cbn [Py.or_ Py.truthy].
  destruct (field kvs "rstudio_server");
    try (injection Hfirst as ->; reflexivity);
    try discriminate.
Qed.

Lemma existsb_eqb_In (s : string) (l : list string) :
  existsb (String.eqb s) l = true <-> In s l.
Proof.
  rewrite existsb_exists. split.
  - intros (x & Hin & Heq). apply String.eqb_eq in Heq. congruence.
  - intros Hin. exists s. split; [exact Hin|apply String.eqb_refl].
Qed.





Lemma contains_append_r (sub a b : string) :
  PyStr.contains sub b = true -> PyStr.contains sub (a ++ b) = true.
Proof.
  intros H. induction a as [|c a IH]; cbn [append].
  - exact H.
  - cbn [PyStr.contains]. rewrite IH. apply orb_true_r.
Qed.

(** C8.  For a recipe that passes the rules before it and whose
    [dask_cluster] has more than 3 workers, [validate_recipe] raises the
    [ValidationError] of line 143 whatever the [worker] field holds, present
    or not, and the loop records it in a message that holds the text
    [should not be more than 3 workers]. *)
Theorem more_than_three_workers_is_an_error :
  forall (w : world) (example_dir : string)
         (kvs dask : list (string * json)) (num_workers : Z),
    load_json w (saturn_json w example_dir) = Ok (JObj kvs) ->
    checks_before_instance_type w (JObj kvs) example_dir = Ok tt ->
    check_instance_type w (JObj kvs) = Ok tt ->
    Py.assoc "dask_cluster" kvs = Some (JObj dask) ->
    Py.assoc "num_workers" dask = Some (JNum num_workers) ->
    (3 < num_workers)%Z ->
    validate_recipe w (saturn_json w example_dir) example_dir
    = Raise (ValidationError too_many_workers_msg)
    /\ PyStr.contains "should not be more than 3 workers" too_many_workers_msg
       = true
    /\ (forall st,
          try_validate_recipe w example_dir st
          = (Ok tt,
             mkState (_errors st
                        ++ [schema_issues_msg w example_dir too_many_workers_msg])%list
                     (stdout st)))
    /\ PyStr.contains "should not be more than 3 workers"
         (schema_issues_msg w example_dir too_many_workers_msg) = true.
Proof.
  intros w example_dir kvs dask n Hload Hbefore Hit Hdask Hnum Hgt.
  assert (Hraise : validate_recipe w (saturn_json w example_dir) example_dir
                   = Raise (ValidationError too_many_workers_msg)).
  { unfold validate_recipe. rewrite Hload. cbn [rbind].
    unfold validate_loaded. rewrite Hbefore, Hit. cbn [rbind].
    unfold check_dask_cluster.
    unfold check_instance_type in Hit.
    destruct (resource (JObj kvs)) as [res|e]; [|discriminate Hit].
    cbn [rbind Py.get Py.subscript]. rewrite Hdask. cbn [rbind Py.truthy].
    assert (Hne : dask <> []) by (intros ->; discriminate Hnum).
    destruct dask as [|kv dask']; [congruence|].
    cbn [rbind Py.subscript]. rewrite Hnum. cbn [rbind Py.gt].
    replace (n >? 3)%Z with true by (symmetry; apply Z.gtb_lt; lia).
    reflexivity. }
  repeat split.
  - exact Hraise.
  - intros st. unfold try_validate_recipe. rewrite Hraise. reflexivity.
  - unfold schema_issues_msg.
    do 3 apply contains_append_r. reflexivity.
Qed.

(** ** An exception that is not a [ValidationError] *)

Lemma check_image_value_error (w : world) (kvs : list (string * json))
    (image_uri : string) :
  Py.assoc "image_uri" kvs = Some (JStr image_uri) ->
  PyStr.count_char ":" image_uri <> 1 ->
  exists msg, check_image w (JObj kvs) = Raise (ValueError msg).
Proof.
  intros Huri Hcount.
  destruct (image_name_tag_error image_uri Hcount) as (msg & Hmsg).
  exists msg. unfold check_image. cbn [Py.subscript]. rewrite Huri.
  cbn [rbind Py.str_method]. rewrite Hmsg. reflexivity.
Qed.

Lemma glob_recursive_not_empty (w : world) (dirname : string) :
  (List.length (Glob.glob_recursive w dirname) =? 0)%nat = false.
Proof. unfold Glob.glob_recursive. cbn [map List.length]. reflexivity. Qed.

(** Whatever the earlier checks of an example do, an exception that the
    recipe validator raises and the handler does not catch leaves the
    body of the loop. *)
Lemma check_example_raises (w : world) (example_dir : string) (e : exn) :
  directory_regex (OsPath.basename example_dir) = true ->
  OsPath.isfile w (saturn_json w example_dir) = true ->
  validate_recipe w (saturn_json w example_dir) example_dir = Raise e ->
  is_validation_error e = false ->
  forall st, exists e' st', check_example w example_dir st = (Raise e', st').
Proof.
  intros Hname Hfile Hraise Hnot st.
  assert (Hsaturn : forall st1, exists st',
             check_saturn w example_dir st1 = (Raise e, st')).
  { intros st1. unfold check_saturn, bind. rewrite Hfile. cbn [negb].
    unfold try_validate_recipe. rewrite Hraise.
    unfold ErrorCollection.add, ret, raise.
    destruct (negb (OsPath.isdir w (saturn_dir w example_dir)));
      destruct e; try discriminate Hnot; eauto. }
  unfold check_example. rewrite Hname, glob_recursive_not_empty. cbn [negb].
  unfold bind.
  destruct (print _ st) as [[[]|e0] st0]; [|eauto].
  destruct (check_second_level_readmes w example_dir st0) as [[[]|e1] st1];
    [|eauto].
  destruct (check_notebooks w _ st1) as [[[]|e2] st2]; [|eauto].
  destruct (check_names w _ st2) as [[[]|e3] st3]; [|eauto].
  destruct (check_readme w example_dir st3) as [[[]|e4] st4]; [|eauto].
  destruct (Hsaturn st4) as (st' & Hst'). rewrite Hst'. eauto.
Qed.

Lemma load_json_isfile (w : world) (path : string) (j : json) :
  load_json w path = Ok j -> OsPath.isfile w path = true.
Proof.
  unfold load_json, OsPath.isfile.
  destruct (OsPath.resolve w path) as [[name [c|]|name ch]|];
    try discriminate; reflexivity.
Qed.

Lemma main_aborts (w : world) (example_dir : string) :
  In example_dir (listdir w) ->
  (forall st, exists e st', check_example w example_dir st = (Raise e, st')) ->
  exists out e, main w = Aborted out e.
Proof.
  intros Hin Hraise.
  assert (Hchecks : exists e st', checks w initial = (Raise e, st')).
  { unfold checks, bind.
    destruct ((if (List.length (listdir w) =? 0)%nat
               then ErrorCollection.add _ else ret tt) initial)
      as [[[]|e0] st0]; [|eauto].
    destruct (for_each TEMPLATES_JSON_NAMES _ st0) as [[[]|e1] st1]; [|eauto].
    apply (for_each_raises _ _ example_dir Hin Hraise). }
  destruct Hchecks as (e & st' & Hchecks).
  exists (stdout st'), e. unfold main, script.
  rewrite (bind_raise _ _ _ _ _ Hchecks). reflexivity.
Qed.

(** C10.  For a recipe that passes the schema and name rules and whose
    [image_uri] does not hold exactly one colon, [validate_recipe] raises a
    [ValueError], whether the image check is skipped or not; the handler of
    the loop lets it through without recording anything, and the run ends
    with an exception instead of the report. *)
Theorem image_uri_without_one_colon_aborts_the_run :
  forall (w : world) (example_dir : string)
         (kvs : list (string * json)) (image_uri : string),
    In example_dir (listdir w) ->
    directory_regex (OsPath.basename example_dir) = true ->
    load_json w (saturn_json w example_dir) = Ok (JObj kvs) ->
    check_schema_and_name w (JObj kvs) = Ok tt ->
    Py.assoc "image_uri" kvs = Some (JStr image_uri) ->
    PyStr.count_char ":" image_uri <> 1 ->
    exists msg,
      validate_recipe w (saturn_json w example_dir) example_dir
      = Raise (ValueError msg)
      /\ (forall st,
            try_validate_recipe w example_dir st = (Raise (ValueError msg), st))
      /\ (exists out e, main w = Aborted out e).
Proof.
  intros w example_dir kvs image_uri Hin Hname Hload Hschema Huri Hcount.
  destruct (check_image_value_error w kvs image_uri Huri Hcount) as (msg & Himg).
  assert (Hraise : validate_recipe w (saturn_json w example_dir) example_dir
                   = Raise (ValueError msg)).
  { unfold validate_recipe. rewrite Hload. cbn [rbind].
    unfold validate_loaded, checks_before_instance_type.
    rewrite Hschema. cbn [rbind]. rewrite Himg. reflexivity. }
  exists msg. split; [exact Hraise|]. split.
  - intros st. unfold try_validate_recipe. rewrite Hraise. reflexivity.
  - apply (main_aborts w example_dir Hin).
    apply (check_example_raises w example_dir (ValueError msg)).
    + exact Hname.
    + apply (load_json_isfile _ _ _ Hload).
    + exact Hraise.
    + reflexivity.
Qed.

(** ** The weights of a catalog *)

Lemma check_templates_spec (w : world) (example_dirs : list string)
    (templates : list template) :
  thumbnails_answer w templates ->
  forall weights st,
    check_templates w example_dirs weights templates st
    = (Ok tt,
       mkState (_errors st ++ templates_errors example_dirs weights templates)%list
               (stdout st)).
Proof.
  induction templates as [|t templates IH]; intros Hans weights st.
  - cbn. rewrite app_nil_r. destruct st; reflexivity.
  - destruct (Hans t (or_introl eq_refl)) as (status & Hstatus).
    cbn [check_templates templates_errors].
    unfold bind at 1. unfold check_template, bind, lift. rewrite Hstatus.
    unfold template_errors.
    assert (Hans' : thumbnails_answer w templates)
      by (intros t' Ht'; apply Hans; right; exact Ht').
    destruct (weight_matches weights (weight t)) as [|m ms];
      destruct (negb (existsb (String.eqb (example_dir_of (recipe_path t)))
                        example_dirs));
      unfold ErrorCollection.add, ret; cbn [_errors stdout];
      rewrite (IH Hans'); cbn [_errors stdout app];
      rewrite <- ?app_assoc; reflexivity.
Qed.

Lemma prefix_app (a b : string) : String.prefix a (a ++ b) = true.
Proof.
  induction a as [|c a IH]; cbn [append].
  - apply prefix_empty.
  - cbn [String.prefix]. destruct (ascii_dec c c); [exact IH|congruence].
Qed.

Lemma is_weight_error_weight_msg (t : template) (matches : list string) :
  is_weight_error (weight_msg t matches) = true.
Proof. unfold is_weight_error, PyStr.startswith, weight_msg. apply prefix_app. Qed.

Lemma is_weight_error_missing_example_msg (d : string) (t : template) :
  is_weight_error (missing_example_msg d t) = false.
Proof. reflexivity. Qed.

Lemma filter_templates_errors (example_dirs : list string)
    (templates : list template) :
  forall weights,
    filter is_weight_error (templates_errors example_dirs weights templates)
    = weight_errors weights templates.
Proof.
  induction templates as [|t templates IH]; intros weights.
  - reflexivity.
  - cbn [templates_errors weight_errors]. unfold template_errors.
    rewrite !filter_app, IH.
    destruct (weight_matches weights (weight t)) as [|m ms];
      destruct (negb (existsb (String.eqb (example_dir_of (recipe_path t)))
                        example_dirs));
      cbn [filter app];
      rewrite ?is_weight_error_weight_msg, ?is_weight_error_missing_example_msg;
      reflexivity.
Qed.

Lemma dict_set_fresh (weights : list (string * Z)) (k : string) (v : Z) :
  ~ In k (map fst weights) -> dict_set weights k v = (weights ++ [(k, v)])%list.
Proof.
  induction weights as [|[k' v'] weights IH]; intros Hk; cbn in *.
  - reflexivity.
  - destruct (String.eqb_spec k k') as [->|Hne]; [tauto|].
    rewrite IH by tauto. reflexivity.
Qed.

Lemma dict_of_keys (seen : list template) : map fst (dict_of seen) = map title seen.
Proof. unfold dict_of. rewrite map_map. reflexivity. Qed.

Lemma weight_matches_dict_of (seen : list template) (v : Z) :
  weight_matches (dict_of seen) v
  = map title (filter (fun s => (v =? weight s)%Z) seen).
Proof.
  unfold weight_matches, dict_of.
  induction seen as [|s seen IH]; cbn in *.
  - reflexivity.
  - destruct (v =? weight s)%Z; cbn; rewrite IH; reflexivity.
Qed.

Lemma filter_none {A : Type} (f : A -> bool) (l : list A) :
  (forall x, In x l -> f x = false) -> filter f l = [].
Proof.
  induction l as [|x l IH]; intros H; cbn.
  - reflexivity.
  - rewrite (H x (or_introl eq_refl)). apply IH. intros y Hy. apply H. right. exact Hy.
Qed.


(** One template whose title is new. *)
Lemma weight_errors_step (seen : list template) (t : template)
    (rest : list template) :
  ~ In (title t) (map title seen) ->
  weight_errors (dict_of seen) (t :: rest)
  = (match filter (fun s => (weight t =? weight s)%Z) seen with
     | [] => []
     | _ :: _ =>
         [weight_msg t
            (map title (filter (fun s => (weight t =? weight s)%Z) seen))]
     end
     ++ weight_errors (dict_of (seen ++ [t])) rest)%list.
Proof.
  intros Hfresh. cbn [weight_errors].
  rewrite dict_set_fresh by (rewrite dict_of_keys; exact Hfresh).
  rewrite weight_matches_dict_of.
  replace (dict_of seen ++ [(title t, weight t)])%list with (dict_of (seen ++ [t]))
    by (unfold dict_of; rewrite map_app; reflexivity).
  destruct (filter (fun s => (weight t =? weight s)%Z) seen); reflexivity.
Qed.

(** Templates whose weights differ from one another and from those seen
    add no error of the rule. *)
Lemma weight_errors_distinct (l1 l2 : list template) :
  forall seen,
    NoDup (map title (seen ++ l1 ++ l2)) ->
    (forall s u, In s seen -> In u l1 -> weight s <> weight u) ->
    NoDup (map weight l1) ->
    weight_errors (dict_of seen) (l1 ++ l2)
    = weight_errors (dict_of (seen ++ l1)) l2.
Proof.
  induction l1 as [|t l1 IH]; intros seen Htitles Hcross Hweights.
  - cbn [app]. rewrite app_nil_r. reflexivity.
  - cbn [app] in *.
    assert (Hfresh : ~ In (title t) (map title seen)).
    { rewrite map_app in Htitles. cbn [map] in Htitles.
      apply NoDup_remove_2 in Htitles. intros Hin. apply Htitles.
      apply in_or_app. left. exact Hin. }
    rewrite weight_errors_step by exact Hfresh.
    rewrite filter_none.
    2:{ intros s Hs. apply Z.eqb_neq. intros Heq.
        apply (Hcross s t Hs (or_introl eq_refl)). congruence. }
    cbn [app]. cbn [map] in Hweights. apply NoDup_cons_iff in Hweights as [Ht Hweights].
    replace (seen ++ t :: l1)%list with ((seen ++ [t]) ++ l1)%list
      by (rewrite <- app_assoc; reflexivity).
    apply IH.
    + rewrite <- app_assoc. exact Htitles.
    + intros s u Hs Hu. apply in_app_or in Hs as [Hs|[->|[]]].
      * apply Hcross; [exact Hs|right; exact Hu].
      * intros Heq. apply Ht. rewrite Heq. apply in_map. exact Hu.
    + exact Hweights.
Qed.


Lemma check_catalog_spec (w : world) (example_dirs : list string)
    (template_name : string) (templates : list template) (st : state) :
  catalogs w template_name = Some templates ->
  thumbnails_answer w templates ->
  check_catalog w example_dirs template_name st
  = (Ok tt,
     mkState (_errors st ++ templates_errors example_dirs [] templates)%list
             (stdout st ++ [("Working on " ++ template_name)%string])%list).
Proof.
  intros Hcat Hans. unfold check_catalog. rewrite Hcat.
  unfold bind, print. rewrite (check_templates_spec w example_dirs templates Hans).
  reflexivity.
Qed.

Lemma weight_errors_all_distinct (templates : list template) :
  NoDup (map title templates) ->
  NoDup (map weight templates) ->
  weight_errors [] templates = [].
Proof.
  intros Htitles Hweights.
  pose proof (weight_errors_distinct templates [] [] ) as H.
  rewrite !app_nil_r in H. cbn [app] in H.
  apply (H Htitles); [intros s u []|exact Hweights].
Qed.


Lemma contains_prefix (sub b : string) : PyStr.contains sub (sub ++ b) = true.
Proof.
  destruct (sub ++ b) eqn:Heq; cbn [PyStr.contains]; rewrite <- Heq;
    rewrite prefix_app; reflexivity.
Qed.




(** ** The paths of an example directory *)

Lemma append_nil_r (s : string) : s ++ EmptyString = s.
Proof. induction s as [|c s IH]; cbn; [reflexivity|rewrite IH; reflexivity]. Qed.

Lemma append_assoc (a b c : string) : (a ++ b) ++ c = a ++ (b ++ c).
Proof. induction a as [|x a IH]; cbn; [reflexivity|rewrite IH; reflexivity]. Qed.

Lemma rev_append (a b : string) : PyStr.rev (a ++ b) = PyStr.rev b ++ PyStr.rev a.
Proof.
  induction a as [|x a IH]; cbn [append PyStr.rev].
  - rewrite append_nil_r. reflexivity.
  - rewrite IH, append_assoc. reflexivity.
Qed.

Lemma count_char_append (x : ascii) (a b : string) :
  PyStr.count_char x (a ++ b) = PyStr.count_char x a + PyStr.count_char x b.
Proof.
  induction a as [|c a IH]; cbn [append PyStr.count_char];
    [reflexivity|rewrite IH; lia].
Qed.

Lemma count_char_rev (x : ascii) (s : string) :
  PyStr.count_char x (PyStr.rev s) = PyStr.count_char x s.
Proof.
  induction s as [|c s IH]; cbn [PyStr.rev PyStr.count_char]; [reflexivity|].
  rewrite count_char_append, IH. cbn [PyStr.count_char]. lia.
Qed.

Lemma endswith_append (a d : string) (x : ascii) :
  d <> EmptyString ->
  PyStr.endswith (a ++ d) (String x EmptyString)
  = PyStr.endswith d (String x EmptyString).
Proof.
  intros Hd. unfold PyStr.endswith. rewrite rev_append. cbn [PyStr.rev append].
  destruct (PyStr.rev d) as [|c r] eqn:Hrev.
  - exfalso. apply Hd. destruct d as [|c d]; [reflexivity|].
    cbn [PyStr.rev] in Hrev. destruct (PyStr.rev d); discriminate Hrev.
  - cbn [append]. rewrite !prefix_char. reflexivity.
Qed.

Lemma endswith_absent (d : string) (x : ascii) :
  PyStr.count_char x d = 0 -> PyStr.endswith d (String x EmptyString) = false.
Proof.
  intros H. unfold PyStr.endswith. cbn [PyStr.rev append].
  rewrite <- count_char_rev in H.
  destruct (PyStr.rev d) as [|c r]; [reflexivity|].
  rewrite prefix_char. cbn [PyStr.count_char] in H.
  destruct (Ascii.eqb c x); [discriminate H|reflexivity].
Qed.

Lemma eqb_append_nonempty (a d : string) :
  d <> EmptyString -> String.eqb (a ++ d) EmptyString = false.
Proof.
  intros Hd. apply String.eqb_neq. intros H. apply Hd.
  destruct a; [exact H|discriminate H].
Qed.

(** A name that [DIRECTORY_REGEX] accepts is not empty and holds no slash. *)
Lemma search_class_line_no (p : ascii -> bool) (x : ascii) (s : string) :
  p x = false -> Ascii.eqb x PyStr.newline = false ->
  PyStr.search_class_line p s = true ->
  s <> EmptyString /\ PyStr.count_char x s = 0.
Proof.
  intros Hp Hnl H. split; [intros ->; discriminate H|].
  induction s as [|c s IH]; [reflexivity|].
  cbn [PyStr.search_class_line] in H. apply andb_true_iff in H as [Hc H].
  cbn [PyStr.count_char].
  replace (Ascii.eqb c x) with false
    by (symmetry; apply Ascii.eqb_neq; intros ->; congruence).
  destruct s as [|d [|e s]].
  - reflexivity.
  - cbn [PyStr.count_char].
    replace (Ascii.eqb d x) with false; [reflexivity|].
    symmetry. apply Ascii.eqb_neq. intros ->.
    apply orb_true_iff in H as [H|H]; congruence.
  - apply IH. exact H.
Qed.

Lemma directory_regex_name (s : string) :
  directory_regex s = true ->
  s <> EmptyString /\ PyStr.count_char "/" s = 0.
Proof. apply search_class_line_no; reflexivity. Qed.

Lemma startswith_absent (s : string) (x : ascii) :
  PyStr.count_char x s = 0 -> PyStr.startswith s (String x EmptyString) = false.
Proof.
  unfold PyStr.startswith. destruct s as [|c s]; [reflexivity|].
  rewrite prefix_char. cbn [PyStr.count_char].
  destruct (Ascii.eqb c x); [discriminate|reflexivity].
Qed.

Lemma join_root (w : world) (name : string) :
  PyStr.count_char "/" name = 0 ->
  OsPath.join (EXAMPLES_DIR w) name = root w ++ name.
Proof.
  intros H. unfold root, OsPath.join.
  rewrite (startswith_absent name "/" H).
  change (PyStr.startswith EmptyString "/") with false.
  destruct (String.eqb (EXAMPLES_DIR w) EmptyString
            || PyStr.endswith (EXAMPLES_DIR w) "/").
  - rewrite append_nil_r. reflexivity.
  - rewrite !append_assoc. reflexivity.
Qed.

(** Below a path that ends with a name. *)
Lemma join_below (a name child : string) :
  name <> EmptyString -> PyStr.count_char "/" name = 0 ->
  PyStr.count_char "/" child = 0 ->
  OsPath.join (a ++ name) child = a ++ name ++ "/" ++ child.
Proof.
  intros Hne Hname Hchild. unfold OsPath.join.
  rewrite (startswith_absent child "/" Hchild).
  rewrite (eqb_append_nonempty a name Hne).
  rewrite (endswith_append a name "/" Hne), (endswith_absent name "/" Hname).
  cbn [orb]. rewrite append_assoc. reflexivity.
Qed.

Lemma strip_prefix_append (p s : string) :
  OsPath.strip_prefix p (p ++ s) = Some s.
Proof.
  induction p as [|c p IH]; cbn [append OsPath.strip_prefix].
  - destruct s; reflexivity.
  - rewrite Ascii.eqb_refl. exact IH.
Qed.

Lemma resolve_below_root (w : world) (rel : string) :
  OsPath.resolve w (root w ++ rel)
  = OsPath.walk [] (OsPath.root_dir w) (PyStr.split rel "/").
Proof.
  unfold OsPath.resolve. fold (root w). rewrite strip_prefix_append. reflexivity.
Qed.

(** A name that the pattern for directories accepts is none of the
    components that stay in a directory or leave it. *)
Lemma directory_regex_component (s : string) :
  directory_regex s = true ->
  String.eqb s EmptyString = false
  /\ String.eqb s "." = false
  /\ String.eqb s ".." = false.
Proof.
  intros H. repeat split; apply String.eqb_neq; intros ->; discriminate H.
Qed.

(** A name that is not an entry of a directory leads nowhere from it. *)
Lemma walk_no_entry (up : list node) (name c : string) (children : list node)
    (rest : list string) :
  directory_regex c = true ->
  OsPath.find_child c children = None ->
  OsPath.walk up (Dir name children) (c :: rest) = None.
Proof.
  intros Hc Hnone. apply directory_regex_component in Hc as (H0 & H1 & H2).
  cbn [OsPath.walk]. rewrite Hnone, H0, H1, H2. reflexivity.
Qed.

Lemma saturn_dir_path (w : world) (example_dir : string) :
  directory_regex example_dir = true ->
  saturn_dir w example_dir = root w ++ example_dir ++ "/.saturn".
Proof.
  intros H. apply directory_regex_name in H as [Hne Hslash].
  unfold saturn_dir, full_dir, SATURN_DIR_NAME.
  rewrite (join_root w example_dir Hslash).
  apply join_below; [exact Hne|exact Hslash|reflexivity].
Qed.

Lemma saturn_json_path (w : world) (example_dir : string) :
  directory_regex example_dir = true ->
  saturn_json w example_dir
  = root w ++ example_dir ++ "/.saturn/saturn.json".
Proof.
  intros H. unfold saturn_json. rewrite (saturn_dir_path w example_dir H).
  replace (root w ++ example_dir ++ "/.saturn")
    with ((root w ++ example_dir ++ "/") ++ ".saturn")
    by (rewrite !append_assoc; reflexivity).
  unfold SATURN_JSON_NAME.
  rewrite join_below by (reflexivity || discriminate).
  rewrite !append_assoc. reflexivity.
Qed.

(** No [saturn.json] where there is no [.saturn] directory. *)
Lemma no_saturn_dir_no_saturn_json (w : world) (example_dir : string) :
  directory_regex example_dir = true ->
  OsPath.isdir w (saturn_dir w example_dir) = false ->
  OsPath.isfile w (saturn_json w example_dir) = false.
Proof.
  intros Hname. pose proof Hname as Hregex.
  rewrite (saturn_dir_path w example_dir Hname),
          (saturn_json_path w example_dir Hname).
  apply directory_regex_name in Hname as [Hne Hslash].
  unfold OsPath.isdir, OsPath.isfile. rewrite !resolve_below_root.
  change (example_dir ++ "/.saturn")
    with (example_dir ++ String "/" ".saturn").
  change (example_dir ++ "/.saturn/saturn.json")
    with (example_dir ++ String "/" ".saturn/saturn.json").
  rewrite !(split_char_app "/" example_dir _ Hslash).
  change (PyStr.split ".saturn" "/") with [".saturn"].
  change (PyStr.split ".saturn/saturn.json" "/") with [".saturn"; "saturn.json"].
  unfold OsPath.root_dir.
  destruct (OsPath.find_child example_dir (listing w))
    as [[name c|name ch]|] eqn:Hfind.
  - cbn [OsPath.walk]. rewrite Hfind. reflexivity.
  - cbn [OsPath.walk]. rewrite Hfind.
    destruct (OsPath.find_child ".saturn" ch) as [[name2 c2|name2 ch2]|];
      cbn; try reflexivity.
    discriminate.
  - rewrite !(walk_no_entry _ _ _ _ _ Hregex Hfind). reflexivity.
Qed.

(** ** The error collection only grows *)

Lemma appends_ret {A : Type} (a : A) : appends (ret a).
Proof. intros st. exists []. cbn. rewrite app_nil_r. reflexivity. Qed.

Lemma appends_raise {A : Type} (e : exn) : appends (@raise A e).
Proof. intros st. exists []. cbn. rewrite app_nil_r. reflexivity. Qed.

Lemma appends_lift {A : Type} (r : result A) : appends (lift r).
Proof. intros st. exists []. cbn. rewrite app_nil_r. reflexivity. Qed.

Lemma appends_print (s : string) : appends (print s).
Proof. intros st. exists []. cbn. rewrite app_nil_r. reflexivity. Qed.

Lemma appends_add (error : string) : appends (ErrorCollection.add error).
Proof. intros st. exists [error]. reflexivity. Qed.

Lemma appends_bind {A B : Type} (c : M A) (k : A -> M B) :
  appends c -> (forall a, appends (k a)) -> appends (bind c k).
Proof.
  intros Hc Hk st. unfold bind. destruct (Hc st) as (n1 & H1).
  destruct (c st) as [[a|e] st1]; cbn [snd] in *.
  - destruct (Hk a st1) as (n2 & H2). exists (n1 ++ n2)%list.
    rewrite H2, H1, app_assoc. reflexivity.
  - exists n1. exact H1.
Qed.

Lemma appends_for_each {A : Type} (l : list A) (body : A -> M unit) :
  (forall x, appends (body x)) -> appends (for_each l body).
Proof.
  intros Hbody. induction l as [|x l IH]; cbn [for_each].
  - apply appends_ret.
  - apply appends_bind; [apply Hbody|intros _; exact IH].
Qed.

Lemma appends_if {A : Type} (b : bool) (c1 c2 : M A) :
  appends c1 -> appends c2 -> appends (if b then c1 else c2).
Proof. destruct b; tauto. Qed.

Create HintDb appends.
#[local] Hint Resolve appends_ret appends_raise appends_lift appends_print
  appends_add : appends.

Ltac appends_tac :=
  repeat first
    [ apply appends_bind; [|intros ?]
    | apply appends_for_each; intros ?
    | apply appends_if
    | solve [auto with appends] ].

Lemma appends_second_level_readmes (w : world) (example_dir : string) :
  appends (check_second_level_readmes w example_dir).
Proof. unfold check_second_level_readmes. appends_tac. Qed.

Lemma appends_scan_cells (notebook_file : string) (cells : list json) :
  forall n, appends (scan_cells notebook_file cells n).
Proof.
  induction cells as [|cell cells IH]; intros n; cbn [scan_cells].
  - apply appends_ret.
  - appends_tac.
Qed.

Lemma appends_notebooks (w : world) (all_files : list string) :
  appends (check_notebooks w all_files).
Proof.
  unfold check_notebooks. appends_tac. apply appends_scan_cells.
Qed.

Lemma appends_names (w : world) (all_files : list string) :
  appends (check_names w all_files).
Proof. unfold check_names. appends_tac. Qed.

Lemma appends_readme (w : world) (example_dir : string) :
  appends (check_readme w example_dir).
Proof. unfold check_readme. appends_tac. Qed.

Lemma appends_ok {A : Type} (c : M A) (st st' : state) (r : result A) :
  appends c -> c st = (r, st') ->
  exists new, _errors st' = (_errors st ++ new)%list.
Proof. intros Hc H. destruct (Hc st) as (new & Hn). rewrite H in Hn. eauto. Qed.

(** ** An example without its [.saturn] directory *)

Lemma basename_plain (name : string) :
  PyStr.count_char "/" name = 0 -> OsPath.basename name = name.
Proof.
  intros H. unfold OsPath.basename. rewrite (split_char_absent "/" name H).
  reflexivity.
Qed.

(** C4, as amended.  For an example directory of a valid name that has no
    [.saturn] directory, lines 381 to 390 record the missing-directory
    error and then the missing-[saturn.json] error, and skip the recipe
    validation; these two errors are the last that the body of the loop
    records for the directory. *)
Theorem missing_saturn_dir_records_two_errors :
  forall (w : world) (example_dir : string),
    directory_regex example_dir = true ->
    OsPath.isdir w (saturn_dir w example_dir) = false ->
    (forall st,
        check_saturn w example_dir st
        = (Ok tt,
           mkState (_errors st ++ [saturn_dir_msg w example_dir;
                                   saturn_json_msg w example_dir])%list
                   (stdout st)))
    /\ (forall st st',
          check_example w example_dir st = (Ok tt, st') ->
          exists earlier,
            _errors st'
            = (_errors st ++ earlier
                 ++ [saturn_dir_msg w example_dir;
                     saturn_json_msg w example_dir])%list).
Proof.
  intros w example_dir Hname Hdir.
  pose proof (no_saturn_dir_no_saturn_json w example_dir Hname Hdir) as Hfile.
  assert (Hsaturn : forall st,
             check_saturn w example_dir st
             = (Ok tt,
                mkState (_errors st ++ [saturn_dir_msg w example_dir;
                                        saturn_json_msg w example_dir])%list
                        (stdout st))).
  { intros st. unfold check_saturn, bind. rewrite Hdir, Hfile. cbn [negb].
    unfold ErrorCollection.add. cbn [_errors stdout].
    rewrite <- app_assoc. reflexivity. }
  split; [exact Hsaturn|].
  intros st st' Hrun. unfold check_example in Hrun.
  destruct (directory_regex_name example_dir Hname) as [_ Hslash].
  rewrite (basename_plain example_dir Hslash), Hname,
    glob_recursive_not_empty in Hrun.
  cbn [negb] in Hrun. unfold bind in Hrun.
  destruct (print _ st) as [[[]|e0] st0] eqn:H0; [|discriminate Hrun].
  destruct (check_second_level_readmes w example_dir st0)
    as [[[]|e1] st1] eqn:H1; [|discriminate Hrun].
  destruct (check_notebooks w _ st1) as [[[]|e2] st2] eqn:H2;
    [|discriminate Hrun].
  destruct (check_names w _ st2) as [[[]|e3] st3] eqn:H3; [|discriminate Hrun].
  destruct (check_readme w example_dir st3) as [[[]|e4] st4] eqn:H4;
    [|discriminate Hrun].
  rewrite Hsaturn in Hrun. injection Hrun as <-. cbn [_errors].
  destruct (appends_ok _ _ _ _ (appends_print _) H0) as (n0 & E0).
  destruct (appends_ok _ _ _ _ (appends_second_level_readmes _ _) H1) as (n1 & E1).
  destruct (appends_ok _ _ _ _ (appends_notebooks _ _) H2) as (n2 & E2).
  destruct (appends_ok _ _ _ _ (appends_names _ _) H3) as (n3 & E3).
  destruct (appends_ok _ _ _ _ (appends_readme _ _) H4) as (n4 & E4).
  exists (n0 ++ n1 ++ n2 ++ n3 ++ n4)%list.
  rewrite E4, E3, E2, E1, E0, <- !app_assoc. reflexivity.
Qed.

(** ** The properties on the sample inputs *)

Lemma report_prints_numbered_errors_and_exits_with_count_witness :
  main world_no_saturn
  = Exited
      ["Working on templates-hosted.json";
       "Working on templates-enterprise.json";
       "Working on directory 'demo'";
       ErrorCollection.banner;
       "2 errors found checking examples" ++ String PyStr.newline EmptyString;
       "1. 'examples/demo' does not include a '.saturn/' directory";
       "2. Did not find saturn.json in 'examples/demo/.saturn'. This file is required."]
      2.
Proof.
  destruct (report_prints_numbered_errors_and_exits_with_count
              world_no_saturn (snd (checks world_no_saturn initial)) eq_refl)
    as [(code & Hmain & Hcode) _].
  rewrite Hmain, Hcode.
  - reflexivity.
  - apply Nat.ltb_lt. reflexivity.
Defined.

(** C2.  The thumbnail of the only template answers 404, and the run
    records no error and exits with status 0: line 284 builds the message
    and no statement adds it to the collection. *)
Theorem thumbnail_error_is_not_recorded :
  requests_get world_bad_thumbnail
    (thumbnail_image_url (sample_template "Demo" 1)) = Ok 404%Z
  /\ catalogs world_bad_thumbnail "templates-hosted.json"
     = Some [sample_template "Demo" 1]
  /\ checks world_bad_thumbnail initial
     = (Ok tt,
        mkState []
          ["Working on templates-hosted.json";
           "Working on templates-enterprise.json";
           "Working on directory 'demo'"])
  /\ main world_bad_thumbnail
     = Exited
         ["Working on templates-hosted.json";
          "Working on templates-enterprise.json";
          "Working on directory 'demo'";
          ErrorCollection.banner;
          ErrorCollection.header 0]
         0.
Proof. repeat split; vm_compute; reflexivity. Qed.

(** Whatever the thumbnail answers, the template adds the same errors. *)
Lemma check_template_ignores_status (w : world) (example_dirs : list string)
    (weights : list (string * Z)) (t : template) (status : Z) (st : state) :
  requests_get w (thumbnail_image_url t) = Ok status ->
  check_template w example_dirs weights t st
  = (Ok (dict_set weights (title t) (weight t)),
     mkState (_errors st ++ template_errors example_dirs weights t)%list
             (stdout st)).
Proof.
  intros Hstatus. unfold check_template, bind, lift. rewrite Hstatus.
  unfold template_errors.
  destruct (weight_matches weights (weight t)) as [|m ms];
    destruct (negb (existsb (String.eqb (example_dir_of (recipe_path t)))
                      example_dirs));
    unfold ErrorCollection.add, ret; cbn [_errors stdout app];
    rewrite <- ?app_assoc, ?app_nil_r; try reflexivity;
    destruct st; reflexivity.
Qed.

(** C4, as the specification words it, fails: the example [demo] has a
    README and no [.saturn] directory, and the run records two errors for
    it, the second being the missing-[saturn.json] error. *)
Lemma missing_saturn_dir_records_a_second_error :
  OsPath.isdir world_no_saturn (saturn_dir world_no_saturn "demo") = false
  /\ _errors (snd (checks world_no_saturn initial))
     = [saturn_dir_msg world_no_saturn "demo";
        saturn_json_msg world_no_saturn "demo"]
  /\ saturn_json_msg world_no_saturn "demo"
     = "Did not find saturn.json in 'examples/demo/.saturn'. This file is required.".
Proof. repeat split; vm_compute; reflexivity. Qed.

Lemma missing_saturn_dir_records_two_errors_witness :
  check_saturn world_no_saturn "demo" initial
  = (Ok tt,
     mkState ["'examples/demo' does not include a '.saturn/' directory";
              "Did not find saturn.json in 'examples/demo/.saturn'. This file is required."]
             []).
Proof.
  destruct (missing_saturn_dir_records_two_errors world_no_saturn "demo"
              eq_refl eq_refl) as [Hsaturn _].
  exact (Hsaturn initial).
Defined.

(** C5.  The example directory [empty-example] holds no file; the listing
    of line 313 still has one item, the directory itself, so the run goes on
    to the later checks and records three errors, none of which reports the
    directory as empty. *)
Theorem empty_example_is_not_reported_empty :
  listing world_empty_example = [Dir "empty-example" []]
  /\ directory_regex "empty-example" = true
  /\ Glob.glob_recursive world_empty_example
       (full_dir world_empty_example "empty-example")
     = ["examples/empty-example/"]
  /\ _errors (snd (checks world_empty_example initial))
     = [readme_msg world_empty_example "empty-example";
        saturn_dir_msg world_empty_example "empty-example";
        saturn_json_msg world_empty_example "empty-example"]
  /\ existsb (String.eqb (empty_msg world_empty_example "empty-example"))
       (_errors (snd (checks world_empty_example initial)))
     = false.
Proof. repeat split; vm_compute; reflexivity. Qed.

(** The listing of line 313 is never empty, so line 316 adds no error. *)
Lemma check_example_never_reports_empty (w : world) (example_dir : string) :
  check_example w example_dir
  = (print ("Working on directory '" ++ example_dir ++ "'") ;;
     if negb (directory_regex (OsPath.basename example_dir))
     then ErrorCollection.add (bad_example_name_msg w example_dir)
     else
       check_second_level_readmes w example_dir ;;
       check_notebooks w (Glob.glob_recursive w (full_dir w example_dir)) ;;
       check_names w (Glob.glob_recursive w (full_dir w example_dir)) ;;
       check_readme w example_dir ;;
       check_saturn w example_dir)%M.
Proof.
  unfold check_example. rewrite glob_recursive_not_empty. reflexivity.
Qed.


Lemma more_than_three_workers_is_an_error_witness :
  validate_recipe (sample_world [demo_dir dask_recipe] [] [])
    (saturn_json (sample_world [demo_dir dask_recipe] [] []) "demo") "demo"
  = Raise (ValidationError too_many_workers_msg).
Proof.
  destruct (more_than_three_workers_is_an_error
              (sample_world [demo_dir dask_recipe] [] []) "demo"
              dask_recipe four_workers 4
              eq_refl eq_refl eq_refl eq_refl eq_refl eq_refl)
    as [Hraise _].
  exact Hraise.
Defined.

Lemma image_uri_without_one_colon_aborts_the_run_witness :
  SKIP_IMAGE_CHECK (sample_world [demo_dir port_recipe] [] []) = true
  /\ exists msg,
      validate_recipe (sample_world [demo_dir port_recipe] [] [])
        (saturn_json (sample_world [demo_dir port_recipe] [] []) "demo") "demo"
      = Raise (ValueError msg)
      /\ (forall st,
            try_validate_recipe (sample_world [demo_dir port_recipe] [] [])
              "demo" st
            = (Raise (ValueError msg), st))
      /\ (exists out e,
            main (sample_world [demo_dir port_recipe] [] []) = Aborted out e).
Proof.
  split; [reflexivity|].
  apply (image_uri_without_one_colon_aborts_the_run
           (sample_world [demo_dir port_recipe] [] []) "demo" port_recipe
           "localhost:5000/saturn:2021.02.22").
  - left. reflexivity.
  - reflexivity.
  - reflexivity.
  - reflexivity.
  - reflexivity.
  - cbn. discriminate.
Defined.


(** * Further properties *)

(** ** The pattern for directory names *)

Lemma search_class_line_body (p : ascii -> bool) (s : string) :
  PyStr.search_class_line p s = true ->
  exists body,
    body <> EmptyString /\ every_char p body = true
    /\ (s = body \/ s = body ++ line_end).
Proof.
  induction s as [|c s IH]; intros H; [discriminate H|].
  cbn [PyStr.search_class_line] in H. apply andb_true_iff in H as [Hc H].
  destruct s as [|d [|e s]].
  - exists (String c EmptyString). cbn. rewrite Hc. repeat split; auto. discriminate.
  - apply orb_true_iff in H as [H|H].
    + apply Ascii.eqb_eq in H. subst d.
      exists (String c EmptyString). cbn. rewrite Hc.
      repeat split; auto. discriminate.
    + exists (String c (String d EmptyString)). cbn. rewrite Hc, H.
      repeat split; auto. discriminate.
  - destruct (IH H) as (body & Hne & Hall & Hs).
    exists (String c body). cbn [every_char]. rewrite Hc, Hall.
    split; [discriminate|]. split; [reflexivity|].
    destruct Hs as [-> | ->]; [left|right]; reflexivity.
Qed.

Lemma search_class_line_of_body (p : ascii -> bool) (body : string) :
  p PyStr.newline = false ->
  body <> EmptyString -> every_char p body = true ->
  PyStr.search_class_line p body = true
  /\ PyStr.search_class_line p (body ++ line_end) = true.
Proof.
  intros Hnl. induction body as [|c body IH]; intros Hne Hall; [congruence|].
  cbn [every_char] in Hall. apply andb_true_iff in Hall as [Hc Hall].
  destruct body as [|d body].
  - cbn. rewrite Hc. split; reflexivity.
  - destruct IH as [IH1 IH2]; [discriminate|exact Hall|].
    cbn [every_char] in Hall. apply andb_true_iff in Hall as [Hd Hall'].
    split.
    + cbn [PyStr.search_class_line]. rewrite Hc. cbn [andb].
      destruct body as [|e body].
      * rewrite Hd. apply orb_true_r.
      * exact IH1.
    + cbn [append PyStr.search_class_line]. rewrite Hc. cbn [andb].
      destruct body as [|e body].
      * cbn [append]. unfold line_end in IH2. cbn [append] in IH2. exact IH2.
      * cbn [append]. exact IH2.
Qed.

(** X1. The pattern for directory names accepts exactly the non-empty words
    of digits, lower-case letters and dashes, and those words followed by
    one newline. *)
Theorem directory_regex_accepts :
  forall s : string,
    directory_regex s = true
    <-> exists body,
          body <> EmptyString /\ every_char directory_class body = true
          /\ (s = body \/ s = body ++ line_end).
Proof.
  intros s. split.
  - apply search_class_line_body.
  - intros (body & Hne & Hall & [-> | ->]);
      apply (search_class_line_of_body directory_class body); auto.
Qed.

Lemma every_char_append (p : ascii -> bool) (a b : string) :
  every_char p (a ++ b) = every_char p a && every_char p b.
Proof.
  induction a as [|c a IH]; cbn [append every_char]; [reflexivity|].
  rewrite IH, andb_assoc. reflexivity.
Qed.

Lemma append_last_char (a b body : string) (c x : ascii) :
  a ++ String c b = body ++ String x EmptyString ->
  (b = EmptyString /\ c = x /\ a = body)
  \/ (exists b', b = b' ++ String x EmptyString /\ body = a ++ String c b').
Proof.
  revert body. induction a as [|d a IH]; intros body H; cbn [append] in H.
  - destruct body as [|e body]; cbn [append] in H.
    + injection H as -> ->. left. auto.
    + injection H as -> ->. right. exists body. auto.
  - destruct body as [|e body]; cbn [append] in H.
    + injection H as _ H. destruct a; discriminate H.
    + injection H as -> H. destruct (IH body H) as [(Hb & Hc & Ha)|(b' & Hb & Hbody)].
      * left. subst. auto.
      * right. exists b'. subst. auto.
Qed.

(** A character outside the class, other than a newline that ends the
    name, makes the pattern fail. *)
Lemma directory_regex_rejects (a b : string) (c : ascii) :
  directory_class c = false ->
  c <> PyStr.newline \/ b <> EmptyString ->
  directory_regex (a ++ String c b) = false.
Proof.
  intros Hc Hpos. destruct (directory_regex (a ++ String c b)) eqn:H; [|reflexivity].
  exfalso. apply (search_class_line_body directory_class) in H as (body & _ & Hall & [Hs|Hs]).
  - rewrite <- Hs, every_char_append in Hall. cbn [every_char] in Hall.
    rewrite Hc, andb_false_r in Hall. discriminate Hall.
  - apply append_last_char in Hs as [(Hb & Hx & _)|(b' & _ & Hbody)].
    + destruct Hpos as [Hpos|Hpos]; congruence.
    + rewrite Hbody, every_char_append in Hall. cbn [every_char] in Hall.
      rewrite Hc, andb_false_r in Hall. discriminate Hall.
Qed.

(** X2. An example directory whose name holds a character outside the class
    (other than a newline that ends the name) gets the naming error and
    nothing else: after its line is printed the loop goes on to the next
    directory, whatever the directory holds. *)
Theorem badly_named_example_gets_one_error :
  forall (w : world) (a b : string) (c : ascii) (st : state),
    let example_dir := a ++ String c b in
    PyStr.count_char "/" example_dir = 0 ->
    directory_class c = false ->
    c <> PyStr.newline \/ b <> EmptyString ->
    check_example w example_dir st
    = (Ok tt,
       mkState (_errors st ++ [bad_example_name_msg w example_dir])%list
               (stdout st
                  ++ [("Working on directory '" ++ example_dir ++ "'")%string])%list).
Proof.
  intros w a b c st example_dir Hslash Hc Hpos.
  unfold check_example. rewrite (basename_plain example_dir Hslash).
  unfold example_dir at 2. rewrite (directory_regex_rejects a b c Hc Hpos).
  reflexivity.
Qed.

Lemma badly_named_example_gets_one_error_witness :
  check_example world_no_saturn "My_Example" initial
  = (Ok tt,
     mkState [bad_example_name_msg world_no_saturn "My_Example"]
             ["Working on directory 'My_Example'"]).
Proof.
  apply (badly_named_example_gets_one_error world_no_saturn "" "y_Example" "M" initial).
  - reflexivity.
  - reflexivity.
  - left. discriminate.
Defined.

(** ** The lint of a cell source *)

Lemma strings_chars (s : string) :
  exists l, Py.strings (Py.chars s) = Ok l /\ PyStr.join EmptyString l = s.
Proof.
  induction s as [|c s (l & Hl & Hj)].
  - exists []. split; reflexivity.
  - exists (String c EmptyString :: l). cbn [Py.chars Py.strings]. rewrite Hl.
    split; [reflexivity|].
    destruct l as [|x l].
    + cbn in Hj. subst s. reflexivity.
    + change (PyStr.join EmptyString (String c EmptyString :: x :: l))
        with (String c EmptyString ++ EmptyString
                ++ PyStr.join EmptyString (x :: l)).
      rewrite Hj. reflexivity.
Qed.

Lemma join_string_source (s : string) : Py.join EmptyString (JStr s) = Ok s.
Proof.
  unfold Py.join. cbn [Py.iter rbind].
  destruct (strings_chars s) as (l & Hl & Hj). rewrite Hl. cbn [rbind].
  rewrite Hj. reflexivity.
Qed.

Lemma join_one (s : string) : Py.join EmptyString (JArr [JStr s]) = Ok s.
Proof. reflexivity. Qed.

(** X3. A cell source that is one string is linted like the list that holds
    this string: joining the characters of a string gives the string back. *)
Theorem lint_reads_a_string_source_as_one_line :
  forall (file_name s : string),
    _lint_python_cell file_name (JStr s)
    = _lint_python_cell file_name (JArr [JStr s]).
Proof.
  intros file_name s. unfold _lint_python_cell.
  rewrite join_string_source, join_one. reflexivity.
Qed.

Lemma strings_not_all_str (items : list json) :
  forallb is_str items = false -> Py.strings items = Raise TypeError.
Proof.
  induction items as [|j items IH]; intros H; [discriminate H|].
  cbn [forallb] in H. destruct j; cbn [is_str andb] in H; try reflexivity.
  cbn [Py.strings]. rewrite (IH H). reflexivity.
Qed.

(** X4. A cell source that is a list with an item that is no string raises a
    TypeError in the join, before any rule is tried. *)
Theorem lint_raises_on_a_source_item_that_is_no_string :
  forall (file_name : string) (items : list json),
    forallb is_str items = false ->
    _lint_python_cell file_name (JArr items) = Raise TypeError.
Proof.
  intros file_name items H. unfold _lint_python_cell, Py.join.
  cbn [Py.iter rbind]. rewrite (strings_not_all_str items H). reflexivity.
Qed.

Lemma lint_raises_on_a_source_item_that_is_no_string_witness :
  _lint_python_cell "a.ipynb" (JArr [JStr "import dask"; JNull; JStr "x = 1"])
  = Raise TypeError.
Proof.
  apply (lint_raises_on_a_source_item_that_is_no_string "a.ipynb"
           [JStr "import dask"; JNull; JStr "x = 1"]).
  reflexivity.
Defined.

Lemma delayed_msg_not_warnings_filter_msg (file_name : string) :
  delayed_msg file_name <> warnings_filter_msg file_name.
Proof. unfold warnings_filter_msg, delayed_msg. cbn. discriminate. Qed.

(** X5. On a source of strings the lint returns the warnings-filter message
    once if and only if the joined source contains the text warnings.filter,
    the delayed message once if and only if it contains @delayed, nothing
    else, and the warnings-filter message first. *)
Theorem lint_rules_fire_on_their_texts :
  forall (file_name : string) (lines : list string),
    let code_str := PyStr.join EmptyString lines in
    exists errors,
      _lint_python_cell file_name (JArr (map JStr lines)) = Ok errors
      /\ count_occ string_dec errors (warnings_filter_msg file_name)
         = (if PyStr.contains "warnings.filter" code_str then 1 else 0)
      /\ count_occ string_dec errors (delayed_msg file_name)
         = (if PyStr.contains "@delayed" code_str then 1 else 0)
      /\ List.length errors
         = (if PyStr.contains "warnings.filter" code_str then 1 else 0)
           + (if PyStr.contains "@delayed" code_str then 1 else 0)
      /\ (PyStr.contains "warnings.filter" code_str = true ->
          List.hd_error errors = Some (warnings_filter_msg file_name)).
Proof.
  intros file_name lines code_str.
  unfold _lint_python_cell. rewrite join_source. cbn [rbind]. fold code_str.
  pose proof (warnings_filter_msg_not_delayed_msg file_name) as Hne.
  pose proof (delayed_msg_not_warnings_filter_msg file_name) as Hne'.
  eexists. split; [reflexivity|].
  destruct (PyStr.contains "warnings.filter" code_str);
    destruct (PyStr.contains "@delayed" code_str);
    cbn [app count_occ List.length hd_error];
    repeat match goal with
           | |- context [string_dec ?a ?b] => destruct (string_dec a b)
           end;
    repeat split; intros; congruence.
Qed.

(** ** The notebooks of an example *)

Lemma for_each_add (errors : list string) (st : state) :
  for_each errors ErrorCollection.add st
  = (Ok tt, mkState (_errors st ++ errors) (stdout st)).
Proof.
  revert st. induction errors as [|e errors IH]; intros st.
  - cbn. rewrite app_nil_r. destruct st; reflexivity.
  - cbn [for_each]. unfold bind, ErrorCollection.add at 1.
    rewrite IH. cbn [_errors stdout]. rewrite <- app_assoc. reflexivity.
Qed.

Lemma count_non_empty_cons (cell : json) (cells : list json) :
  count_non_empty (cell :: cells)
  = (if cell_non_empty cell then 1 else 0) + count_non_empty cells.
Proof.
  unfold count_non_empty. cbn [filter].
  destruct (cell_non_empty cell); reflexivity.
Qed.

Lemma scan_cells_spec (notebook_file : string) (cells : list json) :
  Forall well_formed_cell cells ->
  forall (n : nat) (st : state),
    scan_cells notebook_file cells n st
    = (Ok (n + count_non_empty cells),
       mkState (_errors st ++ flat_map (cell_lint notebook_file) cells)
               (stdout st)).
Proof.
  induction 1 as [|cell cells Hcell _ IH]; intros n st.
  - cbn. rewrite Nat.add_0_r, app_nil_r. destruct st; reflexivity.
  - destruct Hcell as (kvs & cell_type & -> & Htype & Hsource).
    rewrite count_non_empty_cons.
    cbn [scan_cells flat_map cell_non_empty cell_lint]. unfold bind, lift.
    cbn [Py.get Py.subscript]. rewrite Htype.
    unfold field. rewrite Htype. cbn [Py.eq].
    assert (Hget : forall k d,
               match Py.assoc k kvs with Some v => Ok v | None => Ok d end
               = Ok (match Py.assoc k kvs with Some v => v | None => d end))
      by (intros k d; destruct (Py.assoc k kvs); reflexivity).
    rewrite !Hget.
    set (non_empty :=
           Py.truthy
             (Py.or_ match Py.assoc "outputs" kvs with
                     | Some v => v
                     | None => JArr []
                     end
                     match Py.assoc "execution_count" kvs with
                     | Some v => v
                     | None => JNull
                     end)).
    assert (Hcount : (if non_empty then n + 1 else n)
                     = n + (if non_empty then 1 else 0))
      by (destruct non_empty; lia).
    rewrite Hcount. clear Hcount.
    destruct (String.eqb_spec cell_type "code") as [Hcode|Hcode].
    + destruct (Hsource Hcode) as (lines & Hlines).
      rewrite Hlines.
      destruct (_lint_python_cell notebook_file (JArr (map JStr lines)))
        as [errors|e] eqn:Hlint.
      2:{ unfold _lint_python_cell in Hlint. rewrite join_source in Hlint.
          discriminate Hlint. }
      rewrite for_each_add, IH. cbn [_errors stdout].
      rewrite <- app_assoc, Nat.add_assoc. reflexivity.
    + unfold ret. rewrite IH. cbn [app]. rewrite Nat.add_assoc. reflexivity.
Qed.

(** X6. When every notebook among the paths is an object whose cells are
    objects with a cell_type string and, for code cells, a source of
    strings, the notebook loop never raises, prints nothing, and adds for
    each notebook in order the lint errors of its code cells followed by one
    count error if some cell has outputs or an execution count. *)
Theorem well_formed_notebooks_get_one_error_each :
  forall (w : world) (all_files : list string) (st : state),
    (forall path, In path all_files -> PyStr.endswith path ".ipynb" = true ->
                  well_formed_notebook w path) ->
    check_notebooks w all_files st
    = (Ok tt,
       mkState (_errors st
                  ++ flat_map (notebook_errors w)
                       (filter (fun f => PyStr.endswith f ".ipynb") all_files))
               (stdout st)).
Proof.
  intros w all_files st Hwf. unfold check_notebooks.
  assert (Hall : forall path,
             In path (filter (fun f => PyStr.endswith f ".ipynb") all_files) ->
             well_formed_notebook w path).
  { intros path Hin. apply filter_In in Hin as [Hin Hend]. auto. }
  clear Hwf. revert st.
  induction (filter (fun f => PyStr.endswith f ".ipynb") all_files)
    as [|path paths IH]; intros st.
  - cbn. rewrite app_nil_r. destruct st; reflexivity.
  - destruct (Hall path (or_introl eq_refl)) as (cells & Hcells & Hforall).
    cbn [for_each flat_map]. unfold bind at 1.
    unfold notebook_errors at 1. rewrite Hcells.
    unfold notebook_cells in Hcells.
    destruct (load_json w path) as [[| | | | |kvs]|e] eqn:Hload;
      try discriminate Hcells.
    destruct (Py.assoc "cells" kvs) as [[| | | |l|]|] eqn:Hassoc;
      try discriminate Hcells.
    injection Hcells as ->.
    unfold bind, lift. cbn [Py.subscript]. rewrite Hassoc. cbn [Py.iter].
    rewrite (scan_cells_spec path cells Hforall). cbn [Nat.add].
    destruct (0 <? count_non_empty cells)%nat;
      unfold ErrorCollection.add, ret; cbn [_errors stdout];
      rewrite IH by (intros p Hp; apply Hall; right; exact Hp);
      cbn [_errors stdout]; rewrite <- ?app_assoc, ?app_nil_r; reflexivity.
Qed.

(** ** The name rule *)

(** X7. A recipe that passes the schema and whose name does not start with
    example- is rejected with the error that quotes the name, before any
    other rule is tried. *)
Theorem name_without_prefix_is_an_error :
  forall (w : world) (kvs : list (string * json)) (example_dir name : string),
    jsonschema_validate w (JObj kvs) = None ->
    Py.assoc "name" kvs = Some (JStr name) ->
    PyStr.startswith name "example-" = false ->
    validate_loaded w (JObj kvs) example_dir
    = Raise (ValidationError
               ("name ('" ++ name ++ "') needs to start with example-")).
Proof.
  intros w kvs example_dir name Hschema Hname Hprefix.
  unfold validate_loaded, checks_before_instance_type, check_schema_and_name.
  rewrite Hschema. cbn [rbind Py.subscript]. rewrite Hname.
  cbn [rbind Py.str_method]. unfold name_prefix. rewrite Hprefix. reflexivity.
Qed.

(** ** The git repositories rule *)

Lemma all_have_path_objects (repos : list json) :
  forallb is_obj repos = true ->
  all_have_path repos = Ok (forallb has_path repos).
Proof.
  induction repos as [|repo repos IH]; intros H; [reflexivity|].
  cbn [forallb] in H. apply andb_true_iff in H as [Hobj H].
  destruct repo; try discriminate Hobj.
  cbn [all_have_path Py.contains rbind forallb has_path].
  destruct (Py.assoc "path" kvs); cbn [andb]; [apply IH; exact H|reflexivity].
Qed.

Lemma git_rule_reached (w : world) (kvs : list (string * json))
    (example_dir : string) :
  check_schema_and_name w (JObj kvs) = Ok tt ->
  check_image w (JObj kvs) = Ok tt ->
  check_working_directory w (JObj kvs) example_dir = Ok tt ->
  validate_loaded w (JObj kvs) example_dir
  = rbind (check_git_repositories (JObj kvs))
      (fun _ =>
         rbind (check_instance_type w (JObj kvs))
           (fun _ =>
              rbind (check_dask_cluster (JObj kvs))
                (fun _ => check_disk_space (JObj kvs)))).
Proof.
  intros Hschema Himage Hwd.
  unfold validate_loaded, checks_before_instance_type.
  rewrite Hschema, Himage, Hwd. reflexivity.
Qed.

(** X8. A recipe that passes the name, image and working-directory rules and
    whose git_repositories is the empty list is rejected with the error that
    it cannot be empty. *)
Theorem empty_git_repositories_is_an_error :
  forall (w : world) (kvs : list (string * json)) (example_dir : string),
    check_schema_and_name w (JObj kvs) = Ok tt ->
    check_image w (JObj kvs) = Ok tt ->
    check_working_directory w (JObj kvs) example_dir = Ok tt ->
    Py.assoc "git_repositories" kvs = Some (JArr []) ->
    validate_loaded w (JObj kvs) example_dir
    = Raise (ValidationError "git_repositories cannot be empty").
Proof.
  intros w kvs example_dir Hschema Himage Hwd Hgit.
  rewrite (git_rule_reached w kvs example_dir Hschema Himage Hwd).
  unfold check_git_repositories. cbn [Py.subscript]. rewrite Hgit. reflexivity.
Qed.

(** X9. A recipe that passes the earlier rules and whose git_repositories is
    a list of objects, one of them without the key path, is rejected with
    the error that prints the whole list. *)
Theorem git_repository_without_path_is_an_error :
  forall (w : world) (kvs : list (string * json)) (example_dir : string)
         (repos : list json),
    check_schema_and_name w (JObj kvs) = Ok tt ->
    check_image w (JObj kvs) = Ok tt ->
    check_working_directory w (JObj kvs) example_dir = Ok tt ->
    Py.assoc "git_repositories" kvs = Some (JArr repos) ->
    forallb is_obj repos = true ->
    forallb has_path repos = false ->
    validate_loaded w (JObj kvs) example_dir
    = Raise (ValidationError
               ("At least one git_repository is missing a path "
                  ++ Py.str (JArr repos))).
Proof.
  intros w kvs example_dir repos Hschema Himage Hwd Hgit Hobj Hpath.
  rewrite (git_rule_reached w kvs example_dir Hschema Himage Hwd).
  unfold check_git_repositories. cbn [Py.subscript]. rewrite Hgit.
  cbn [rbind Py.len Py.iter]. rewrite (all_have_path_objects repos Hobj).
  destruct repos as [|repo repos]; [discriminate Hpath|].
  cbn [List.length Nat.ltb Nat.leb rbind]. rewrite Hpath. reflexivity.
Qed.

(** ** The working directory *)

Lemma replace_go_skip (old new a s : string) :
  PyStr.replace_go old new (String.length a) (a ++ s)
  = PyStr.replace_go old new 0 s.
Proof.
  induction a as [|c a IH]; cbn [String.length append].
  - reflexivity.
  - cbn [PyStr.replace_go]. exact IH.
Qed.

(** An occurrence at the start is cut out. *)
Lemma replace_at_start (old s : string) :
  old <> EmptyString ->
  PyStr.replace (old ++ s) old EmptyString = PyStr.replace s old EmptyString.
Proof.
  intros Hne. unfold PyStr.replace.
  destruct old as [|c old]; [congruence|].
  cbn [append PyStr.replace_go].
  change (String c (old ++ s)) with (String c old ++ s).
  rewrite prefix_app. cbn [append].
  replace (String.length (String c old) - 1) with (String.length old)
    by (cbn [String.length]; lia).
  apply replace_go_skip.
Qed.

(** A text in which [old] does not occur is left as it is. *)
Lemma replace_absent (old new s : string) :
  PyStr.contains old s = false -> PyStr.replace s old new = s.
Proof.
  unfold PyStr.replace. induction s as [|c s IH]; intros H.
  - reflexivity.
  - cbn [PyStr.contains] in H. apply orb_false_iff in H as [Hp Hc].
    cbn [PyStr.replace_go]. rewrite Hp, (IH Hc). reflexivity.
Qed.

Lemma contains_slash_absent (p s : string) :
  PyStr.count_char "/" s = 0 -> PyStr.contains (String "/" p) s = false.
Proof.
  induction s as [|c s IH]; intros H.
  - reflexivity.
  - cbn [PyStr.count_char] in H. cbn [PyStr.contains String.prefix].
    destruct (Ascii.eqb_spec c "/") as [->|Hne]; [discriminate H|].
    destruct (ascii_dec "/" c) as [Heq|_]; [congruence|].
    cbn [orb]. apply IH. exact H.
Qed.

Lemma replace_repeated_prefix (old s : string) (n : nat) :
  old <> EmptyString -> PyStr.contains old s = false ->
  PyStr.replace (repeat_string old n ++ s) old EmptyString = s.
Proof.
  intros Hne Habs. induction n as [|n IH]; cbn [repeat_string append].
  - apply replace_absent. exact Habs.
  - rewrite append_assoc, replace_at_start by exact Hne. exact IH.
Qed.

Lemma startswith_repeated (old s : string) (n : nat) :
  PyStr.startswith (repeat_string old (S n) ++ s) old = true.
Proof.
  unfold PyStr.startswith. cbn [repeat_string]. rewrite append_assoc.
  apply prefix_app.
Qed.

Lemma find_child_listed (name : string) (nodes : list node) :
  In name (map node_name nodes) ->
  exists n, OsPath.find_child name nodes = Some n.
Proof.
  induction nodes as [|m nodes IH]; intros H; [contradiction|].
  cbn [OsPath.find_child]. destruct (String.eqb name (node_name m)) eqn:Heq.
  - eauto.
  - destruct H as [H|H].
    + apply String.eqb_neq in Heq. congruence.
    + apply IH. exact H.
Qed.

Lemma exists_listed (w : world) (name : string) :
  In name (listdir w) -> PyStr.count_char "/" name = 0 ->
  OsPath.exists_ w (OsPath.join (EXAMPLES_DIR w) name) = true.
Proof.
  intros Hin Hslash. unfold OsPath.exists_.
  rewrite (join_root w name Hslash), resolve_below_root.
  rewrite (split_char_absent "/" name Hslash).
  unfold OsPath.root_dir. cbn [OsPath.walk].
  destruct (find_child_listed name (listing w) Hin) as (n & ->).
  reflexivity.
Qed.

(** X10. The working-directory rule accepts the prefix followed by the name
    of a listed example directory, and also the prefix written several times
    before that name, since every occurrence of the prefix is removed before
    the comparison. *)
Theorem working_directory_of_the_example_is_accepted :
  forall (w : world) (kvs : list (string * json)) (example_dir : string)
         (n : nat),
    In example_dir (listdir w) ->
    PyStr.count_char "/" example_dir = 0 ->
    Py.assoc "working_directory" kvs
    = Some (JStr (repeat_string working_dir_prefix (S n) ++ example_dir)) ->
    check_working_directory w (JObj kvs) example_dir = Ok tt.
Proof.
  intros w kvs example_dir n Hin Hslash Hwd.
  unfold check_working_directory. cbn [Py.subscript]. rewrite Hwd.
  cbn [rbind Py.str_method]. rewrite startswith_repeated. cbn [negb].
  rewrite replace_repeated_prefix.
  - rewrite String.eqb_refl. cbn [negb].
    rewrite (exists_listed w example_dir Hin Hslash). reflexivity.
  - discriminate.
  - apply contains_slash_absent. exact Hslash.
Qed.

(** X11. A working directory that is the prefix followed by another name
    than the example directory is rejected with the error that names the
    example directory. *)
Theorem working_directory_of_another_name_is_an_error :
  forall (w : world) (kvs : list (string * json))
         (example_dir other : string),
    check_schema_and_name w (JObj kvs) = Ok tt ->
    check_image w (JObj kvs) = Ok tt ->
    Py.assoc "working_directory" kvs
    = Some (JStr (working_dir_prefix ++ other)) ->
    PyStr.contains working_dir_prefix other = false ->
    other <> example_dir ->
    validate_loaded w (JObj kvs) example_dir
    = Raise (ValidationError
               ("working_directory ('" ++ working_dir_prefix ++ other
                  ++ "') needs to end with "
                  ++ "the name of the example directory: " ++ example_dir)).
Proof.
  intros w kvs example_dir other Hschema Himage Hwd Habs Hne.
  unfold validate_loaded, checks_before_instance_type.
  rewrite Hschema, Himage. cbn [rbind].
  unfold check_working_directory. cbn [Py.subscript]. rewrite Hwd.
  cbn [rbind Py.str_method].
  unfold PyStr.startswith at 1. rewrite prefix_app. cbn [negb].
  rewrite replace_at_start by discriminate.
  rewrite replace_absent by exact Habs.
  apply String.eqb_neq in Hne. rewrite Hne. cbn [negb rbind].
  rewrite append_assoc. reflexivity.
Qed.

(** ** The workspace and the workers *)

(** X12. A recipe that passes every earlier rule and whose workspace (the
    jupyter_server if it is a non-empty object, else the rstudio_server) has
    no disk_space is rejected with the disk-space error. *)
Theorem workspace_without_disk_space_is_an_error :
  forall (w : world) (kvs fields : list (string * json)) (example_dir : string),
    checks_before_instance_type w (JObj kvs) example_dir = Ok tt ->
    check_instance_type w (JObj kvs) = Ok tt ->
    check_dask_cluster (JObj kvs) = Ok tt ->
    (field kvs "jupyter_server" = JObj fields /\ fields <> [])
    \/ (field kvs "jupyter_server" = JNull
        /\ field kvs "rstudio_server" = JObj fields) ->
    Py.assoc "disk_space" fields = None ->
    validate_loaded w (JObj kvs) example_dir
    = Raise (ValidationError "disk_space is required for workspaces.").
Proof.
  intros w kvs fields example_dir Hbefore Hit Hdask Hws Hdisk.
  unfold validate_loaded. rewrite Hbefore, Hit, Hdask. cbn [rbind].
  unfold check_disk_space, workspace. rewrite !get_field. cbn [rbind].
  destruct Hws as [[Hj Hne]|[Hj Hr]].
  - rewrite Hj. destruct fields as [|kv fields]; [congruence|].
    cbn [Py.or_ Py.truthy Py.is_not_none Py.contains rbind].
    rewrite Hdisk. reflexivity.
  - rewrite Hj, Hr.
    cbn [Py.or_ Py.truthy Py.is_not_none Py.contains rbind].
    rewrite Hdisk. reflexivity.
Qed.

(** X13. A recipe that passes the earlier rules and has a dask_cluster of at
    most three workers whose worker has another instance type than the
    resource is rejected with the mismatch error. *)
Theorem worker_of_another_instance_type_is_an_error :
  forall (w : world) (kvs dask worker : list (string * json))
         (example_dir : string) (res : json) (num_workers : Z)
         (instance_type worker_type : string),
    checks_before_instance_type w (JObj kvs) example_dir = Ok tt ->
    check_instance_type w (JObj kvs) = Ok tt ->
    resource (JObj kvs) = Ok res ->
    Py.subscript res "instance_type" = Ok (JStr instance_type) ->
    Py.assoc "dask_cluster" kvs = Some (JObj dask) ->
    Py.assoc "num_workers" dask = Some (JNum num_workers) ->
    (num_workers <= 3)%Z ->
    Py.assoc "worker" dask = Some (JObj worker) ->
    Py.assoc "instance_type" worker = Some (JStr worker_type) ->
    worker_type <> instance_type ->
    validate_loaded w (JObj kvs) example_dir
    = Raise (ValidationError worker_mismatch_msg).
Proof.
  intros w kvs dask worker example_dir res n it wt
         Hbefore Hit Hres Hsub Hdask Hnum Hle Hworker Hwt Hne.
  unfold validate_loaded. rewrite Hbefore, Hit. cbn [rbind].
  unfold check_dask_cluster. rewrite Hres.
  cbn [rbind Py.get Py.subscript]. rewrite Hdask.
  destruct dask as [|kv dask']; [discriminate Hnum|].
  cbn [rbind Py.truthy Py.subscript]. rewrite Hnum. cbn [rbind Py.gt].
  replace (n >? 3)%Z with false
    by (symmetry; rewrite Z.gtb_ltb; apply Z.ltb_ge; lia).
  rewrite Hworker. cbn [rbind Py.subscript]. rewrite Hwt. cbn [rbind].
  rewrite Hsub. cbn [rbind Py.eq].
  apply String.eqb_neq in Hne. rewrite Hne. reflexivity.
Qed.

(** ** What an accepted recipe satisfies *)

Lemma rbind_ok {A B : Type} (c : result A) (k : A -> result B) (b : B) :
  rbind c k = Ok b -> exists a, c = Ok a /\ k a = Ok b.
Proof. destruct c as [a|e]; cbn; [eauto|discriminate]. Qed.

Lemma subscript_ok (j : json) (k : string) (v : json) :
  Py.subscript j k = Ok v -> exists kvs, j = JObj kvs /\ Py.assoc k kvs = Some v.
Proof.
  destruct j; cbn; try discriminate.
  destruct (Py.assoc k kvs) eqn:H; [|discriminate].
  intros [= <-]. eauto.
Qed.

Lemma str_method_ok (j : json) (s : string) :
  Py.str_method j = Ok s -> j = JStr s.
Proof. destruct j; cbn; try discriminate. intros [= <-]. reflexivity. Qed.

Lemma if_negb_raise_ok (b : bool) (e : exn) :
  (if negb b then Raise e else Ok tt) = Ok tt -> b = true.
Proof. destruct b; [reflexivity|discriminate]. Qed.

Lemma image_name_tag_ok (image_uri image_name image_tag : string) :
  image_name_tag image_uri = Ok (image_name, image_tag) ->
  PyStr.count_char ":" image_uri = 1
  /\ image_uri = image_name ++ ":" ++ image_tag.
Proof.
  intros H. unfold image_name_tag in H.
  pose proof (split_char_length ":" image_uri) as Hlen.
  destruct (PyStr.split image_uri ":") as [|a [|b [|c l]]] eqn:Hs;
    try discriminate H.
  cbn in H. injection H as -> ->. cbn in Hlen.
  assert (Hone : PyStr.count_char ":" image_uri = 1) by lia.
  split; [exact Hone|].
  destruct (split_char_once ":" image_uri Hone) as (a & b & Hs' & _ & Heq & _).
  rewrite Hs in Hs'. injection Hs' as -> ->. exact Heq.
Qed.

Lemma in_options_ok (w : world) (x : json) :
  in_options w x = Ok true ->
  exists s, x = JStr s /\ In s (instance_type_options w).
Proof.
  destruct x; cbn; try discriminate.
  intros [= H]. exists s. split; [reflexivity|]. apply existsb_eqb_In. exact H.
Qed.

(** X14. A recipe that the validator accepts satisfies every rule: it is an
    object that passes the schema, its name starts with example-, its
    image_uri has exactly one colon, its working directory starts with the
    prefix, gives the example directory once the prefix is removed and
    exists, its git_repositories is not empty, the instance type of its
    resource is one of the options, a truthy dask_cluster has at most three
    workers of that instance type, the image was found on its registry
    unless the check is skipped, and a workspace has a disk_space. *)
Theorem accepted_recipe_satisfies_the_rules :
  forall (w : world) (recipe : json) (example_dir : string),
    validate_loaded w recipe example_dir = Ok tt ->
    exists kvs name image_uri working_dir git_repositories res instance_type,
      recipe = JObj kvs
      /\ jsonschema_validate w recipe = None
      /\ Py.assoc "name" kvs = Some (JStr name)
      /\ PyStr.startswith name "example-" = true
      /\ Py.assoc "image_uri" kvs = Some (JStr image_uri)
      /\ PyStr.count_char ":" image_uri = 1
      /\ Py.assoc "working_directory" kvs = Some (JStr working_dir)
      /\ PyStr.startswith working_dir working_dir_prefix = true
      /\ PyStr.replace working_dir working_dir_prefix EmptyString = example_dir
      /\ OsPath.exists_ w (OsPath.join (EXAMPLES_DIR w) example_dir) = true
      /\ Py.assoc "git_repositories" kvs = Some git_repositories
      /\ (exists n, Py.len git_repositories = Ok n /\ 1 <= n)
      /\ resource recipe = Ok res
      /\ Py.subscript res "instance_type" = Ok (JStr instance_type)
      /\ In instance_type (instance_type_options w)
      /\ (forall dask,
            Py.assoc "dask_cluster" kvs = Some dask -> Py.truthy dask = true ->
            exists num_workers worker worker_type,
              Py.subscript dask "num_workers" = Ok num_workers
              /\ Py.gt num_workers 3 = Ok false
              /\ Py.subscript dask "worker" = Ok worker
              /\ Py.subscript worker "instance_type" = Ok worker_type
              /\ Py.eq worker_type (JStr instance_type) = true)
      /\ (SKIP_IMAGE_CHECK w = false ->
          exists image_name image_tag,
            image_uri = image_name ++ ":" ++ image_tag
            /\ image_exists_on_registry w
                 (fst (registry_and_repository image_name))
                 (snd (registry_and_repository image_name)) image_tag
               = Ok true)
      /\ (exists ws,
            workspace recipe = Ok ws
            /\ (Py.is_not_none ws = true ->
                Py.contains ws "disk_space" = Ok true)).
Proof.
  intros w recipe example_dir H.
  unfold validate_loaded, checks_before_instance_type in H.
  apply rbind_ok in H as ([] & Hbefore & H).
  apply rbind_ok in Hbefore as ([] & Hname & Hbefore).
  apply rbind_ok in Hbefore as ([] & Himage & Hbefore).
  apply rbind_ok in Hbefore as ([] & Hwd & Hgit).
  apply rbind_ok in H as ([] & Hit & H).
  apply rbind_ok in H as ([] & Hdask & Hdisk).
  (* the schema and the name *)
  unfold check_schema_and_name in Hname.
  apply rbind_ok in Hname as ([] & Hschema & Hname).
  destruct (jsonschema_validate w recipe) eqn:Hvalid; [discriminate Hschema|].
  apply rbind_ok in Hname as (name_pre & Hsub & Hname).
  apply subscript_ok in Hsub as (kvs & -> & Hname_field).
  apply rbind_ok in Hname as (name & Hstr & Hname).
  apply str_method_ok in Hstr as ->.
  apply if_negb_raise_ok in Hname.
  (* the image *)
  unfold check_image in Himage. cbn [Py.subscript] in Himage.
  destruct (Py.assoc "image_uri" kvs) as [uri|] eqn:Huri; [|discriminate Himage].
  cbn [rbind] in Himage.
  apply rbind_ok in Himage as (image_uri & Hstr & Himage).
  apply str_method_ok in Hstr as ->.
  apply rbind_ok in Himage as ([image_name image_tag] & Hsplit & Himage).
  apply image_name_tag_ok in Hsplit as [Hcolon Huri_parts].
  assert (Hexists : SKIP_IMAGE_CHECK w = false ->
                    exists name tag,
                      image_uri = name ++ ":" ++ tag
                      /\ image_exists_on_registry w
                           (fst (registry_and_repository name))
                           (snd (registry_and_repository name)) tag
                         = Ok true).
  { intros Hskip. rewrite Hskip in Himage. cbn [negb fst snd] in Himage.
    apply rbind_ok in Himage as (image_exists & Hex & Himage).
    destruct image_exists; [|discriminate Himage].
    exists image_name, image_tag. split; [exact Huri_parts|exact Hex]. }
  clear Himage.
  assert (Hspace : exists ws,
             workspace (JObj kvs) = Ok ws
             /\ (Py.is_not_none ws = true ->
                 Py.contains ws "disk_space" = Ok true)).
  { unfold check_disk_space in Hdisk.
    apply rbind_ok in Hdisk as (ws & Hws & Hdisk).
    exists ws. split; [exact Hws|]. intros Hnot. rewrite Hnot in Hdisk.
    apply rbind_ok in Hdisk as (has & Hhas & Hdisk).
    destruct has; [exact Hhas|discriminate Hdisk]. }
  clear Hdisk.
  (* the working directory *)
  unfold check_working_directory in Hwd. cbn [Py.subscript] in Hwd.
  destruct (Py.assoc "working_directory" kvs) as [wd|] eqn:Hwd_field;
    [|discriminate Hwd].
  cbn [rbind] in Hwd.
  apply rbind_ok in Hwd as (working_dir & Hstr & Hwd).
  apply str_method_ok in Hstr as ->.
  destruct (PyStr.startswith working_dir working_dir_prefix) eqn:Hstart;
    [|discriminate Hwd].
  cbn [negb] in Hwd.
  destruct (String.eqb_spec
              (PyStr.replace working_dir working_dir_prefix EmptyString)
              example_dir) as [Hsuffix|_]; [|discriminate Hwd].
  cbn [negb] in Hwd. rewrite Hsuffix in Hwd.
  apply if_negb_raise_ok in Hwd.
  (* the git repositories *)
  unfold check_git_repositories in Hgit. cbn [Py.subscript] in Hgit.
  destruct (Py.assoc "git_repositories" kvs) as [git|] eqn:Hgit_field;
    [|discriminate Hgit].
  cbn [rbind] in Hgit.
  apply rbind_ok in Hgit as (n & Hlen & Hgit).
  destruct (Nat.ltb_spec n 1) as [_|Hn]; [discriminate Hgit|].
  (* the instance type *)
  unfold check_instance_type in Hit.
  apply rbind_ok in Hit as (res & Hres & Hit).
  apply rbind_ok in Hit as (it & Hsub & Hit).
  apply rbind_ok in Hit as (valid & Hvalid_it & Hit).
  destruct valid; [|discriminate Hit].
  apply in_options_ok in Hvalid_it as (instance_type & -> & Hin).
  (* the dask cluster *)
  exists kvs, name, image_uri, working_dir, git, res, instance_type.
  repeat match goal with
         | |- _ /\ _ => split
         end;
    try first [reflexivity | assumption | solve [eauto]].
  intros dask Hdask_field Htruthy.
  unfold check_dask_cluster in Hdask. rewrite Hres in Hdask.
  cbn [rbind Py.get Py.subscript] in Hdask. rewrite Hdask_field in Hdask.
  cbn [rbind] in Hdask. rewrite Htruthy in Hdask.
  apply rbind_ok in Hdask as (num_workers & Hnum & Hdask).
  apply rbind_ok in Hdask as (too_many & Hgt & Hdask).
  destruct too_many; [discriminate Hdask|].
  apply rbind_ok in Hdask as (worker & Hworker & Hdask).
  apply rbind_ok in Hdask as (worker_type & Hwt & Hdask).
  rewrite Hsub in Hdask. cbn [rbind] in Hdask.
  apply if_negb_raise_ok in Hdask.
  exists num_workers, worker, worker_type. auto.
Qed.

(** ** The registry of an image *)

Lemma split_go_max_absent (x : ascii) (maxsplit : option nat) (s : string) :
  PyStr.count_char x s = 0 ->
  PyStr.split_go (String x EmptyString) maxsplit 0 s = [s].
Proof.
  induction s as [|c s IH]; intros H; [reflexivity|].
  cbn [PyStr.count_char] in H. cbn [PyStr.split_go]. rewrite prefix_char.
  destruct (Ascii.eqb c x); [discriminate H|].
  rewrite andb_false_r, (IH H). reflexivity.
Qed.

Lemma split_go_max_zero (sep s : string) :
  PyStr.split_go sep (Some 0) 0 s = [s].
Proof.
  induction s as [|c s IH]; [reflexivity|].
  cbn [PyStr.split_go PyStr.may_split andb]. rewrite IH. reflexivity.
Qed.

Lemma split_go_max_app (x : ascii) (n : nat) (a b : string) :
  PyStr.count_char x a = 0 ->
  PyStr.split_go (String x EmptyString) (Some (S n)) 0 (a ++ String x b)
  = a :: PyStr.split_go (String x EmptyString) (Some n) 0 b.
Proof.
  induction a as [|c a IH]; intros H.
  - cbn [append PyStr.split_go PyStr.may_split andb]. rewrite prefix_char.
    rewrite Ascii.eqb_refl. reflexivity.
  - cbn [PyStr.count_char] in H. cbn [append PyStr.split_go]. rewrite prefix_char.
    destruct (Ascii.eqb c x); [discriminate H|].
    rewrite andb_false_r, (IH H). reflexivity.
Qed.

Lemma rev_involutive (s : string) : PyStr.rev (PyStr.rev s) = s.
Proof.
  induction s as [|c s IH]; [reflexivity|].
  cbn [PyStr.rev]. rewrite rev_append, IH. reflexivity.
Qed.

(** [rsplit("/", 2)] on a name with fewer than two slashes, and on a name
    with a host before the last two segments. *)
Lemma rsplit_no_slash (name : string) :
  PyStr.count_char "/" name = 0 -> PyStr.rsplit name "/" 2 = [name].
Proof.
  intros H. unfold PyStr.rsplit. cbn [PyStr.rev append].
  rewrite split_go_max_absent by (rewrite count_char_rev; exact H).
  cbn [map List.rev app]. rewrite rev_involutive. reflexivity.
Qed.

Lemma rev_slash_join (x y : string) :
  PyStr.rev (x ++ "/" ++ y) = PyStr.rev y ++ String "/" (PyStr.rev x).
Proof.
  rewrite rev_append. cbn [append PyStr.rev]. rewrite append_assoc. reflexivity.
Qed.

Lemma rsplit_one_slash (a b : string) :
  PyStr.count_char "/" a = 0 -> PyStr.count_char "/" b = 0 ->
  PyStr.rsplit (a ++ "/" ++ b) "/" 2 = [a; b].
Proof.
  intros Ha Hb. unfold PyStr.rsplit. rewrite rev_slash_join.
  cbn [PyStr.rev append].
  rewrite split_go_max_app by (rewrite count_char_rev; exact Hb).
  rewrite split_go_max_absent by (rewrite count_char_rev; exact Ha).
  cbn [map List.rev app]. rewrite !rev_involutive. reflexivity.
Qed.

Lemma rsplit_two_slashes (host a b : string) :
  PyStr.count_char "/" a = 0 -> PyStr.count_char "/" b = 0 ->
  PyStr.rsplit (host ++ "/" ++ a ++ "/" ++ b) "/" 2 = [host; a; b].
Proof.
  intros Ha Hb. unfold PyStr.rsplit. rewrite !rev_slash_join.
  rewrite append_assoc. cbn [PyStr.rev append].
  rewrite split_go_max_app by (rewrite count_char_rev; exact Hb).
  rewrite split_go_max_app by (rewrite count_char_rev; exact Ha).
  rewrite split_go_max_zero.
  cbn [map List.rev app]. rewrite !rev_involutive. reflexivity.
Qed.

Lemma image_name_tag_parts (image_name image_tag : string) :
  PyStr.count_char ":" image_name = 0 -> PyStr.count_char ":" image_tag = 0 ->
  image_name_tag (image_name ++ ":" ++ image_tag) = Ok (image_name, image_tag).
Proof.
  intros Hn Ht. unfold image_name_tag. cbn [append].
  rewrite (split_char_app ":" image_name image_tag Hn).
  rewrite (split_char_absent ":" image_tag Ht). reflexivity.
Qed.

(** X15. When images are checked, an image name with no slash or one slash
    is looked up with no registry under its whole name, and a name with two
    slashes or more is looked up on the registry that stands before its
    last two components, under these two components; the check passes on
    the answer true, raises the image error on false, and lets an exception
    of the lookup through. *)
Theorem registry_is_read_from_the_image_name :
  forall (w : world) (kvs : list (string * json)) (image_name image_tag : string),
    SKIP_IMAGE_CHECK w = false ->
    Py.assoc "image_uri" kvs = Some (JStr (image_name ++ ":" ++ image_tag)) ->
    PyStr.count_char ":" image_name = 0 ->
    PyStr.count_char ":" image_tag = 0 ->
    let outcome registry repository :=
      match image_exists_on_registry w registry repository image_tag with
      | Ok true => Ok tt
      | Ok false =>
          Raise (ValidationError (image_missing_msg image_name image_tag))
      | Raise e => Raise e
      end in
    (PyStr.count_char "/" image_name = 0 ->
     check_image w (JObj kvs) = outcome None image_name)
    /\ (forall a b,
          image_name = a ++ "/" ++ b ->
          PyStr.count_char "/" a = 0 -> PyStr.count_char "/" b = 0 ->
          check_image w (JObj kvs) = outcome None image_name)
    /\ (forall host a b,
          image_name = host ++ "/" ++ a ++ "/" ++ b ->
          PyStr.count_char "/" a = 0 -> PyStr.count_char "/" b = 0 ->
          check_image w (JObj kvs) = outcome (Some host) (a ++ "/" ++ b)).
Proof.
  intros w kvs image_name image_tag Hskip Huri Hn Ht outcome.
  assert (Hrun : check_image w (JObj kvs)
                 = let rr := match PyStr.rsplit image_name "/" 2 with
                             | [p0; p1; p2] => (Some p0, p1 ++ "/" ++ p2)
                             | _ => (None, image_name)
                             end in
                   outcome (fst rr) (snd rr)).
  { unfold check_image. cbn [Py.subscript]. rewrite Huri.
    cbn [rbind Py.str_method]. rewrite (image_name_tag_parts _ _ Hn Ht).
    cbn [rbind fst snd]. rewrite Hskip. cbn [negb]. unfold outcome.
    destruct (image_exists_on_registry w _ _ image_tag) as [[|]|e]; reflexivity. }
  rewrite Hrun. clear Hrun. repeat split.
  - intros Hslash. rewrite (rsplit_no_slash image_name Hslash). reflexivity.
  - intros a b -> Ha Hb. rewrite (rsplit_one_slash a b Ha Hb). reflexivity.
  - intros host a b -> Ha Hb. rewrite (rsplit_two_slashes host a b Ha Hb).
    reflexivity.
Qed.

(** Docker Hub, named or not: a token is asked for the repository, and the
    manifest is asked from [registry-1.docker.io] with that token. *)
Lemma image_exists_on_docker_hub (w : world) (registry : option string)
    (image_name image_tag token : string) :
  registry = None \/ registry = Some "docker.io" ->
  docker_token w (docker_hub_token_url image_name) = Ok token ->
  image_exists_on_registry w registry image_name image_tag
  = rbind (requests_head w
             (manifest_url "registry-1.docker.io" image_name image_tag)
             (with_bearer accept_header token))
          (fun status => Ok (status =? 200)%Z).
Proof.
  intros [-> | ->] Htoken; unfold image_exists_on_registry;
    cbn [String.eqb Ascii.eqb Bool.eqb];
    fold (docker_hub_token_url image_name); rewrite Htoken; reflexivity.
Qed.

(** X16. The registry lookup treats no registry like docker.io: it asks
    Docker Hub for a token for the image, fails if that fails, and sends the
    manifest request to registry-1.docker.io with the token; for
    public.ecr.aws it uses the token of the AWS command line; for any other
    registry it sends the request to that host without a token. The answer
    is whether the status is 200. *)
Theorem image_exists_on_registry_by_registry :
  forall (w : world) (image_name image_tag : string),
    image_exists_on_registry w None image_name image_tag
    = image_exists_on_registry w (Some "docker.io") image_name image_tag
    /\ (forall e,
          docker_token w (docker_hub_token_url image_name) = Raise e ->
          image_exists_on_registry w None image_name image_tag = Raise e)
    /\ (forall token,
          docker_token w (docker_hub_token_url image_name) = Ok token ->
          image_exists_on_registry w None image_name image_tag
          = rbind (requests_head w
                     (manifest_url "registry-1.docker.io" image_name image_tag)
                     (with_bearer accept_header token))
                  (fun status => Ok (status =? 200)%Z))
    /\ image_exists_on_registry w (Some "public.ecr.aws") image_name image_tag
       = rbind (aws_token w)
           (fun token =>
              rbind (requests_head w
                       (manifest_url "public.ecr.aws" image_name image_tag)
                       (with_bearer accept_header token))
                    (fun status => Ok (status =? 200)%Z))
    /\ (forall registry,
          registry <> "docker.io" -> registry <> "public.ecr.aws" ->
          image_exists_on_registry w (Some registry) image_name image_tag
          = rbind (requests_head w
                     (manifest_url registry image_name image_tag)
                     accept_header)
                  (fun status => Ok (status =? 200)%Z)).
Proof.
  intros w image_name image_tag. repeat split.
  - intros e He. unfold image_exists_on_registry.
    fold (docker_hub_token_url image_name). rewrite He. reflexivity.
  - intros token Htoken.
    apply image_exists_on_docker_hub; [left; reflexivity|exact Htoken].
  - unfold image_exists_on_registry. cbn [String.eqb Ascii.eqb Bool.eqb].
    destruct (aws_token w); reflexivity.
  - intros registry Hd He. unfold image_exists_on_registry.
    apply String.eqb_neq in Hd, He. rewrite Hd, He. reflexivity.
Qed.

Lemma rsplit_few_slashes (name : string) :
  PyStr.count_char "/" name < 2 ->
  PyStr.rsplit name "/" 2 = [name]
  \/ exists a b, PyStr.rsplit name "/" 2 = [a; b].
Proof.
  intros H.
  destruct (PyStr.count_char "/" name) as [|[|n]] eqn:Hcount; [| |lia].
  - left. apply rsplit_no_slash. exact Hcount.
  - right. destruct (split_char_once "/" name Hcount)
      as (a & b & _ & _ & Heq & Hb).
    exists a, b.
    assert (Ha : PyStr.count_char "/" a = 0).
    { rewrite Heq, count_char_append in Hcount.
      cbn [PyStr.count_char] in Hcount. rewrite Ascii.eqb_refl in Hcount. lia. }
    rewrite Heq. apply (rsplit_one_slash a b Ha Hb).
Qed.

(** X17. When images are checked and Docker Hub answers the manifest request
    of an image name with fewer than two slashes with a status other than
    200, the recipe is rejected with the error that the image is not
    available; with the status 200 the image rule passes. *)
Theorem image_missing_from_docker_hub_is_an_error :
  forall (w : world) (kvs : list (string * json)) (example_dir : string)
         (image_name image_tag token : string) (status : Z),
    check_schema_and_name w (JObj kvs) = Ok tt ->
    SKIP_IMAGE_CHECK w = false ->
    Py.assoc "image_uri" kvs = Some (JStr (image_name ++ ":" ++ image_tag)) ->
    PyStr.count_char ":" image_name = 0 ->
    PyStr.count_char ":" image_tag = 0 ->
    PyStr.count_char "/" image_name < 2 ->
    docker_token w (docker_hub_token_url image_name) = Ok token ->
    requests_head w (manifest_url "registry-1.docker.io" image_name image_tag)
      (with_bearer accept_header token) = Ok status ->
    (status <> 200%Z ->
     validate_loaded w (JObj kvs) example_dir
     = Raise (ValidationError (image_missing_msg image_name image_tag)))
    /\ (status = 200%Z -> check_image w (JObj kvs) = Ok tt).
Proof.
  intros w kvs example_dir image_name image_tag token status
         Hschema Hskip Huri Hn Ht Hslash Htoken Hhead.
  assert (Hexists : image_exists_on_registry w None image_name image_tag
                    = Ok (status =? 200)%Z).
  { rewrite (image_exists_on_docker_hub w None image_name image_tag token);
      [|left; reflexivity|exact Htoken].
    rewrite Hhead. reflexivity. }
  assert (Himage : check_image w (JObj kvs)
                   = if (status =? 200)%Z then Ok tt
                     else Raise (ValidationError
                                   (image_missing_msg image_name image_tag))).
  { unfold check_image. cbn [Py.subscript]. rewrite Huri.
    cbn [rbind Py.str_method]. rewrite (image_name_tag_parts _ _ Hn Ht).
    cbn [rbind fst snd]. rewrite Hskip. cbn [negb].
    destruct (rsplit_few_slashes image_name Hslash) as [-> | (a & b & ->)];
      cbn [fst snd]; rewrite Hexists; cbn [rbind];
      destruct (status =? 200)%Z; reflexivity. }
  split.
  - intros Hne. unfold validate_loaded, checks_before_instance_type.
    rewrite Hschema, Himage. cbn [rbind].
    apply Z.eqb_neq in Hne. rewrite Hne. reflexivity.
  - intros ->. rewrite Himage. reflexivity.
Qed.

(** X18. With the image check skipped the image rule passes for every
    image_uri that has exactly one colon, whatever the registries would
    answer. *)
Theorem skipped_image_check_asks_no_registry :
  forall (w : world) (kvs : list (string * json)) (image_uri : string),
    SKIP_IMAGE_CHECK w = true ->
    Py.assoc "image_uri" kvs = Some (JStr image_uri) ->
    PyStr.count_char ":" image_uri = 1 ->
    check_image w (JObj kvs) = Ok tt.
Proof.
  intros w kvs image_uri Hskip Huri Hcount.
  destruct (split_char_once ":" image_uri Hcount) as (n & t & Hsplit & _).
  unfold check_image, image_name_tag. cbn [Py.subscript]. rewrite Huri.
  cbn [rbind Py.str_method]. rewrite Hsplit. cbn [unpack2 rbind].
  rewrite Hskip. reflexivity.
Qed.

(** ** What the recipe validator raises *)

(** X19. When the example has its recipe file and the validator raises a
    ValidationError, the script records one error that contains the message
    of the exception, prints nothing, and goes on. *)
Theorem validation_error_is_recorded_and_the_loop_goes_on :
  forall (w : world) (example_dir msg : string) (st : state),
    OsPath.isdir w (saturn_dir w example_dir) = true ->
    OsPath.isfile w (saturn_json w example_dir) = true ->
    validate_recipe w (saturn_json w example_dir) example_dir
    = Raise (ValidationError msg) ->
    check_saturn w example_dir st
    = (Ok tt,
       mkState (_errors st ++ [schema_issues_msg w example_dir msg])%list
               (stdout st))
    /\ PyStr.contains msg (schema_issues_msg w example_dir msg) = true.
Proof.
  intros w example_dir msg st Hdir Hfile Hraise. split.
  - unfold check_saturn, bind, try_validate_recipe.
    rewrite Hdir, Hfile, Hraise. reflexivity.
  - unfold schema_issues_msg. do 3 apply contains_append_r.
    rewrite <- (append_nil_r msg) at 2. apply contains_prefix.
Qed.

(** X20. An exception of the validator that is no ValidationError is not
    caught: it leaves the try statement with the state unchanged, and if the
    example is one of the listed directories the run ends with an exception
    and no report. *)
Theorem other_exception_of_the_validator_aborts_the_run :
  forall (w : world) (example_dir : string) (e : exn),
    In example_dir (listdir w) ->
    directory_regex (OsPath.basename example_dir) = true ->
    OsPath.isfile w (saturn_json w example_dir) = true ->
    validate_recipe w (saturn_json w example_dir) example_dir = Raise e ->
    is_validation_error e = false ->
    (forall st, try_validate_recipe w example_dir st = (Raise e, st))
    /\ (exists out e', main w = Aborted out e').
Proof.
  intros w example_dir e Hin Hname Hfile Hraise Hnot. split.
  - intros st. unfold try_validate_recipe. rewrite Hraise.
    destruct e; try discriminate Hnot; reflexivity.
  - apply (main_aborts w example_dir Hin).
    apply (check_example_raises w example_dir e); assumption.
Qed.

(** ** The error collection *)

Lemma appends_check_templates (w : world) (example_dirs : list string)
    (templates : list template) :
  forall weights, appends (check_templates w example_dirs weights templates).
Proof.
  induction templates as [|t templates IH]; intros weights;
    cbn [check_templates].
  - apply appends_ret.
  - apply appends_bind; [|intros ?; apply IH].
    unfold check_template. apply appends_bind; [apply appends_lift|].
    intros status. cbv zeta.
    destruct (weight_matches weights (weight t)); appends_tac.
Qed.

Lemma appends_check_catalog (w : world) (example_dirs : list string)
    (template_name : string) :
  appends (check_catalog w example_dirs template_name).
Proof.
  unfold check_catalog. destruct (catalogs w template_name).
  - appends_tac. apply appends_check_templates.
  - apply appends_raise.
Qed.

Lemma appends_check_saturn (w : world) (example_dir : string) :
  appends (check_saturn w example_dir).
Proof.
  unfold check_saturn, try_validate_recipe.
  destruct (validate_recipe w _ example_dir) as [[]|[]]; appends_tac.
Qed.

Lemma appends_check_example (w : world) (example_dir : string) :
  appends (check_example w example_dir).
Proof.
  pose proof (appends_second_level_readmes w example_dir).
  pose proof (appends_readme w example_dir).
  pose proof (appends_check_saturn w example_dir).
  pose proof (appends_notebooks w).
  pose proof (appends_names w).
  unfold check_example. cbv zeta.
  apply appends_bind; [apply appends_print|intros _].
  apply appends_if; [apply appends_add|].
  apply appends_if; [apply appends_add|].
  repeat (apply appends_bind; [solve [auto]|intros _]). exact H1.
Qed.

(** X21. The script only appends to the error collection: the checks of the
    whole run and of one example keep the errors recorded before them as a
    prefix, also when they raise, and the report leaves the collection as it
    is. *)
Theorem recorded_errors_are_kept_in_order :
  forall (w : world) (st : state),
    (exists new, _errors (snd (checks w st)) = (_errors st ++ new)%list)
    /\ (forall example_dir,
          exists new,
            _errors (snd (check_example w example_dir st))
            = (_errors st ++ new)%list)
    /\ _errors (snd (ErrorCollection.report st)) = _errors st.
Proof.
  intros w st. repeat split.
  - assert (H : appends (checks w)).
    { unfold checks. cbv zeta.
      apply appends_bind;
        [apply appends_if; [apply appends_add|apply appends_ret]|intros _].
      apply appends_bind;
        [apply appends_for_each; intros name; apply appends_check_catalog
        |intros _].
      apply appends_for_each. intros example_dir.
      apply appends_check_example. }
    apply H.
  - intros example_dir. apply appends_check_example.
  - rewrite report_spec. reflexivity.
Qed.

(** ** The catalogs *)

(** X22. Without the file templates-hosted.json the run ends with a
    FileNotFoundError for its path before anything is printed. *)
Theorem missing_catalog_aborts_the_run :
  forall (w : world),
    catalogs w "templates-hosted.json" = None ->
    main w
    = Aborted []
        (FileNotFoundError
           (OsPath.join
              (OsPath.join (OsPath.join (EXAMPLES_DIR w) "..") ".saturn")
              "templates-hosted.json")).
Proof.
  intros w Hnone. unfold main, script, checks, bind.
  destruct (List.length (listdir w) =? 0)%nat;
    cbn [ErrorCollection.add ret TEMPLATES_JSON_NAMES for_each];
    unfold bind, check_catalog; rewrite Hnone; reflexivity.
Qed.

Lemma is_missing_example_error_weight_msg (t : template) (matches : list string) :
  is_missing_example_error (weight_msg t matches) = false.
Proof. reflexivity. Qed.

Lemma is_missing_example_error_msg (d : string) (t : template) :
  is_missing_example_error (missing_example_msg d t) = true.
Proof.
  unfold is_missing_example_error, PyStr.startswith, missing_example_msg.
  apply prefix_app.
Qed.

Lemma filter_missing_templates_errors (example_dirs : list string)
    (templates : list template) :
  forall weights,
    filter is_missing_example_error
      (templates_errors example_dirs weights templates)
    = map (fun t => missing_example_msg (example_dir_of (recipe_path t)) t)
          (filter (fun t => negb (example_is_listed example_dirs t)) templates).
Proof.
  unfold example_is_listed.
  induction templates as [|t templates IH]; intros weights; [reflexivity|].
  cbn [templates_errors filter]. unfold template_errors.
  rewrite !filter_app, IH.
  destruct (weight_matches weights (weight t)) as [|m ms];
    destruct (negb (existsb (String.eqb (example_dir_of (recipe_path t)))
                      example_dirs));
    cbn [filter app map];
    rewrite ?is_missing_example_error_weight_msg, ?is_missing_example_error_msg;
    reflexivity.
Qed.

(** X23. When every thumbnail request answers, the loop over a catalog
    prints its line, never raises and records one missing-directory error
    for each template whose example directory is not among the listed ones,
    in the order of the catalog. *)
Theorem template_of_an_unlisted_example_is_an_error :
  forall (w : world) (example_dirs : list string) (template_name : string)
         (templates : list template) (st : state),
    catalogs w template_name = Some templates ->
    thumbnails_answer w templates ->
    exists new,
      check_catalog w example_dirs template_name st
      = (Ok tt,
         mkState (_errors st ++ new)%list
                 (stdout st ++ [("Working on " ++ template_name)%string])%list)
      /\ filter is_missing_example_error new
         = map (fun t => missing_example_msg (example_dir_of (recipe_path t)) t)
               (filter (fun t => negb (example_is_listed example_dirs t))
                       templates).
Proof.
  intros w example_dirs template_name templates st Hcat Hans.
  exists (templates_errors example_dirs [] templates). split.
  - apply check_catalog_spec; assumption.
  - apply filter_missing_templates_errors.
Qed.

Lemma weight_errors_collisions (templates : list template) :
  forall seen,
    NoDup (map title (seen ++ templates)) ->
    weight_errors (dict_of seen) templates = collisions seen templates.
Proof.
  induction templates as [|t templates IH]; intros seen Hnd; [reflexivity|].
  assert (Hfresh : ~ In (title t) (map title seen)).
  { rewrite map_app in Hnd. cbn [map] in Hnd.
    apply NoDup_remove_2 in Hnd. intros Hin. apply Hnd.
    apply in_or_app. left. exact Hin. }
  rewrite weight_errors_step by exact Hfresh.
  cbn [collisions]. unfold earlier_same_weight.
  rewrite IH by (rewrite <- app_assoc; exact Hnd).
  destruct (filter (fun s => (weight t =? weight s)%Z) seen); reflexivity.
Qed.

(** X24. When every thumbnail request answers and the titles of a catalog
    are distinct, the loop records one weight error for each template that
    comes after a template of the same weight, in the order of the catalog,
    and the error lists the titles of all the earlier templates of that
    weight. *)
Theorem each_later_template_of_a_weight_is_an_error :
  forall (w : world) (example_dirs : list string) (template_name : string)
         (templates : list template) (st : state),
    catalogs w template_name = Some templates ->
    thumbnails_answer w templates ->
    NoDup (map title templates) ->
    exists new,
      check_catalog w example_dirs template_name st
      = (Ok tt,
         mkState (_errors st ++ new)%list
                 (stdout st ++ [("Working on " ++ template_name)%string])%list)
      /\ filter is_weight_error new = collisions [] templates.
Proof.
  intros w example_dirs template_name templates st Hcat Hans Hnd.
  exists (templates_errors example_dirs [] templates). split.
  - apply check_catalog_spec; assumption.
  - rewrite filter_templates_errors.
    apply (weight_errors_collisions templates []). exact Hnd.
Qed.

(** ** The names of files and directories *)

(** X25. The naming loop never raises, prints nothing, and records in the
    order of the paths one error for each directory whose base name neither
    matches the directory pattern nor is an administrative directory, and
    one for each other path whose base name does not match the file pattern. *)
Theorem every_badly_named_path_is_an_error :
  forall (w : world) (all_files : list string) (st : state),
    check_names w all_files st
    = (Ok tt,
       mkState (_errors st ++ flat_map (name_error w) all_files)%list
               (stdout st)).
Proof.
  intros w all_files. unfold check_names.
  induction all_files as [|fname all_files IH]; intros st.
  - cbn. rewrite app_nil_r. destruct st; reflexivity.
  - cbn [for_each flat_map]. unfold bind at 1. unfold name_error at 1.
    destruct (OsPath.isdir w fname); cbn [fst snd].
    + destruct (existsb (String.eqb (OsPath.basename_normpath fname)) ADMIN_DIRS);
        destruct (directory_regex (OsPath.basename_normpath fname));
        cbn [negb orb]; unfold ErrorCollection.add, ret;
        rewrite IH; cbn [_errors stdout app];
        rewrite <- ?app_assoc; reflexivity.
    + destruct (filename_regex (OsPath.basename fname));
        cbn [negb]; unfold ErrorCollection.add, ret;
        rewrite IH; cbn [_errors stdout app];
        rewrite <- ?app_assoc; reflexivity.
Qed.

(** ** The example directory of a template *)

(** ** The example a template refers to *)

Lemma split_go_skip (sep a s : string) (maxsplit : option nat) :
  PyStr.split_go sep maxsplit (String.length a) (a ++ s)
  = PyStr.split_go sep maxsplit 0 s.
Proof.
  induction a as [|c a IH]; cbn [String.length append]; [reflexivity|].
  cbn [PyStr.split_go]. exact IH.
Qed.

Lemma split_absent (sep s : string) :
  PyStr.contains sep s = false -> PyStr.split s sep = [s].
Proof.
  unfold PyStr.split. induction s as [|c s IH]; intros H; [reflexivity|].
  cbn [PyStr.contains] in H. apply orb_false_iff in H as [Hp Hc].
  cbn [PyStr.split_go PyStr.may_split andb]. rewrite Hp, (IH Hc). reflexivity.
Qed.

Lemma split_at_start (sep s : string) :
  sep <> EmptyString ->
  PyStr.split (sep ++ s) sep = EmptyString :: PyStr.split s sep.
Proof.
  intros Hne. unfold PyStr.split. destruct sep as [|c sep]; [congruence|].
  cbn [append PyStr.split_go PyStr.may_split andb option_map].
  change (String c (sep ++ s)) with (String c sep ++ s).
  rewrite prefix_app.
  replace (String.length (String c sep) - 1) with (String.length sep)
    by (cbn [String.length]; lia).
  rewrite split_go_skip. reflexivity.
Qed.

Lemma first_segment (d tail : string) :
  PyStr.count_char "/" d = 0 ->
  List.hd EmptyString (PyStr.split (d ++ "/" ++ tail) "/") = d
  /\ List.hd EmptyString (PyStr.split d "/") = d.
Proof.
  intros H. cbn [append]. rewrite (split_char_app "/" d tail H).
  rewrite (split_char_absent "/" d H). split; reflexivity.
Qed.

(** X26. The example directory of a template is the first component of its
    recipe path after the last examples/: a path d/tail, with or without
    examples/ before it, gives d when d has no slash and d/tail does not
    contain examples/. *)
Theorem example_of_a_recipe_path :
  forall (d tail : string),
    PyStr.count_char "/" d = 0 ->
    PyStr.contains "examples/" (d ++ "/" ++ tail) = false ->
    example_dir_of ("examples/" ++ d ++ "/" ++ tail) = d
    /\ example_dir_of (d ++ "/" ++ tail) = d.
Proof.
  intros d tail Hslash Habs. unfold example_dir_of. split.
  - rewrite split_at_start by discriminate.
    rewrite (split_absent _ _ Habs). cbn [List.last].
    apply first_segment. exact Hslash.
  - rewrite (split_absent _ _ Habs). cbn [List.last].
    apply first_segment. exact Hslash.
Qed.

(** ** A run on an empty examples directory *)

Lemma missing_in_templates_errors (templates : list template) (t : template) :
  In t templates ->
  forall weights,
    In (missing_example_msg (example_dir_of (recipe_path t)) t)
       (templates_errors [] weights templates).
Proof.
  induction templates as [|t' templates IH]; intros Hin weights; [contradiction|].
  cbn [templates_errors]. apply in_or_app.
  destruct Hin as [-> | Hin].
  - left. unfold template_errors. apply in_or_app. right. left. reflexivity.
  - right. apply IH. exact Hin.
Qed.

Lemma templates_errors_length (templates : list template) :
  forall weights,
    List.length templates <= List.length (templates_errors [] weights templates).
Proof.
  induction templates as [|t templates IH]; intros weights; [apply le_n|].
  cbn [templates_errors List.length]. rewrite length_app.
  specialize (IH (dict_set weights (title t) (weight t))).
  unfold template_errors. rewrite length_app. cbn [existsb negb List.length].
  lia.
Qed.

(** X27. With no entry under the examples directory the first recorded error
    says that no directories were found and every template of both catalogs
    gets its missing-directory error, so that at least one error more than
    there are templates is recorded, and the run ends with the number of
    recorded errors modulo 256 as its exit status. *)
Theorem empty_examples_directory_is_an_error :
  forall (w : world) (hosted enterprise : list template),
    listing w = [] ->
    catalogs w "templates-hosted.json" = Some hosted ->
    catalogs w "templates-enterprise.json" = Some enterprise ->
    thumbnails_answer w hosted ->
    thumbnails_answer w enterprise ->
    exists st,
      checks w initial = (Ok tt, st)
      /\ List.hd_error (_errors st)
         = Some ("No directories found under '" ++ EXAMPLES_DIR w ++ "'")
      /\ (forall t, In t (hosted ++ enterprise)%list ->
                    In (missing_example_msg (example_dir_of (recipe_path t)) t)
                       (_errors st))
      /\ 1 + List.length (hosted ++ enterprise)%list <= List.length (_errors st)
      /\ exists out,
           main w
           = Exited out (Z.of_nat (List.length (_errors st)) mod 256).
Proof.
  intros w hosted enterprise Hempty Hh He Hah Hae.
  assert (Hrun : checks w initial
                 = (Ok tt,
                    mkState
                      ([("No directories found under '"
                           ++ EXAMPLES_DIR w ++ "'")%string]
                         ++ templates_errors [] [] hosted
                         ++ templates_errors [] [] enterprise)%list
                      ["Working on templates-hosted.json";
                       "Working on templates-enterprise.json"])).
  { unfold checks, listdir. rewrite Hempty.
    cbn [map List.length Nat.eqb TEMPLATES_JSON_NAMES for_each].
    unfold bind at 1. unfold ErrorCollection.add at 1.
    unfold bind at 1. unfold bind at 1.
    rewrite (check_catalog_spec w [] _ hosted _ Hh Hah).
    unfold bind at 1.
    rewrite (check_catalog_spec w [] _ enterprise _ He Hae).
    cbn [ret _errors stdout initial app]. rewrite <- ?app_assoc. reflexivity. }
  eexists. split; [exact Hrun|]. cbn [_errors]. split; [reflexivity|].
  split; [|split].
  - intros t Hin. apply in_or_app. right. apply in_or_app.
    apply in_app_or in Hin as [Hin|Hin];
      [left|right]; apply missing_in_templates_errors; exact Hin.
  - rewrite !length_app. cbn [List.length].
    pose proof (templates_errors_length hosted []).
    pose proof (templates_errors_length enterprise []). lia.
  - unfold main, script. rewrite (bind_ok _ _ _ _ _ Hrun), report_spec.
    eexists. reflexivity.
Qed.

(** ** An example that passes every check *)

Lemma split_nonempty (s sep : string) : PyStr.split s sep <> [].
Proof.
  unfold PyStr.split. generalize 0 at 1. generalize (@None nat).
  induction s as [|c s IH]; intros m k; cbn [PyStr.split_go]; [discriminate|].
  destruct k; [|apply IH].
  destruct (PyStr.may_split m && String.prefix sep (String c s));
    [discriminate|].
  specialize (IH m 0). destruct (PyStr.split_go sep m 0 s);
    [congruence|discriminate].
Qed.

Lemma split_char_app_last (x : ascii) (r d : string) :
  PyStr.count_char x d = 0 ->
  PyStr.split (r ++ String x d) (String x EmptyString)
  = (PyStr.split r (String x EmptyString) ++ [d])%list.
Proof.
  intros Hd. induction r as [|c r IH]; cbn [append].
  - rewrite split_char_cons, Ascii.eqb_refl, (split_char_absent x d Hd).
    reflexivity.
  - rewrite !split_char_cons, IH. destruct (Ascii.eqb c x); [reflexivity|].
    pose proof (split_nonempty r (String x EmptyString)) as Hne.
    destruct (PyStr.split r (String x EmptyString)); [congruence|reflexivity].
Qed.

Lemma basename_append (r d : string) :
  PyStr.count_char "/" d = 0 -> OsPath.basename (r ++ String "/" d) = d.
Proof.
  intros Hd. unfold OsPath.basename.
  rewrite (split_char_app_last "/" r d Hd). apply last_last.
Qed.

Lemma endswith_char (s : string) (x : ascii) :
  PyStr.endswith s (String x EmptyString) = true ->
  exists r, s = r ++ String x EmptyString.
Proof.
  unfold PyStr.endswith. cbn [PyStr.rev append]. intros H.
  destruct (PyStr.rev s) as [|c t] eqn:Hrev; [discriminate H|].
  rewrite prefix_char in H. apply Ascii.eqb_eq in H. subst c.
  exists (PyStr.rev t). rewrite <- (rev_involutive s), Hrev. reflexivity.
Qed.

Lemma root_shape (w : world) :
  root w = EmptyString \/ exists r, root w = r ++ String "/" EmptyString.
Proof.
  unfold root, OsPath.join. change (PyStr.startswith EmptyString "/") with false.
  destruct (String.eqb_spec (EXAMPLES_DIR w) EmptyString) as [->|Hne].
  - left. reflexivity.
  - cbn [orb]. destruct (PyStr.endswith (EXAMPLES_DIR w) "/") eqn:Hend.
    + right. apply endswith_char in Hend as (r & ->).
      exists r. apply append_nil_r.
    + right. exists (EXAMPLES_DIR w). reflexivity.
Qed.

Lemma basename_below_root (w : world) (a d : string) :
  PyStr.count_char "/" d = 0 ->
  OsPath.basename (root w ++ a ++ String "/" d) = d.
Proof.
  intros Hd. rewrite <- append_assoc. apply basename_append. exact Hd.
Qed.

Lemma basename_example (w : world) (d : string) :
  PyStr.count_char "/" d = 0 -> OsPath.basename (root w ++ d) = d.
Proof.
  intros Hd. destruct (root_shape w) as [-> | (r & ->)].
  - apply basename_plain. exact Hd.
  - rewrite append_assoc. apply basename_append. exact Hd.
Qed.

Lemma drop_slashes_rev (s : string) :
  s <> EmptyString -> PyStr.count_char "/" s = 0 ->
  OsPath.drop_slashes (PyStr.rev s ++ EmptyString) = PyStr.rev s
  /\ forall t, OsPath.drop_slashes (PyStr.rev s ++ t) = PyStr.rev s ++ t.
Proof.
  intros Hne Hslash. rewrite <- count_char_rev in Hslash.
  destruct (PyStr.rev s) as [|c r] eqn:Hrev.
  - exfalso. apply Hne. destruct s as [|c s]; [reflexivity|].
    cbn [PyStr.rev] in Hrev. destruct (PyStr.rev s); discriminate Hrev.
  - cbn [PyStr.count_char] in Hslash.
    destruct (Ascii.eqb_spec c "/") as [->|Hc]; [discriminate Hslash|].
    assert (H : forall t, OsPath.drop_slashes (String c r ++ t) = String c r ++ t).
    { intros t. cbn [append OsPath.drop_slashes].
      destruct c as [[] [] [] [] [] [] [] []]; try reflexivity. congruence. }
    split; [rewrite H; apply append_nil_r|exact H].
Qed.

Lemma basename_normpath_example (w : world) (d : string) :
  d <> EmptyString -> PyStr.count_char "/" d = 0 ->
  OsPath.basename_normpath (root w ++ d ++ "/") = d.
Proof.
  intros Hne Hslash. unfold OsPath.basename_normpath.
  rewrite <- append_assoc, rev_append. cbn [PyStr.rev append OsPath.drop_slashes].
  rewrite rev_append.
  destruct (drop_slashes_rev d Hne Hslash) as [_ Hdrop]. rewrite Hdrop.
  rewrite <- rev_append, rev_involutive. apply basename_example. exact Hslash.
Qed.

Section MinimalExample.

Variable w : world.
Variable d : string.
Variable readme : option json.
Variable recipe : json.
Hypothesis Hname : directory_regex d = true.
Hypothesis Hfound :
  OsPath.find_child d (listing w) = Some (minimal_example d readme recipe).

Lemma example_name : d <> EmptyString /\ PyStr.count_char "/" d = 0.
Proof. apply directory_regex_name. exact Hname. Qed.

Lemma full_dir_example : full_dir w d = root w ++ d.
Proof. apply join_root. apply example_name. Qed.

Lemma join_in_example (child : string) :
  PyStr.count_char "/" child = 0 ->
  OsPath.join (root w ++ d) child = root w ++ d ++ "/" ++ child.
Proof.
  intros Hchild. destruct example_name as [Hne Hslash].
  apply join_below; assumption.
Qed.

Lemma resolve_example : OsPath.resolve w (root w ++ d) = Some (minimal_example d readme recipe).
Proof.
  destruct example_name as [_ Hslash].
  rewrite resolve_below_root, (split_char_absent "/" d Hslash).
  unfold OsPath.root_dir. cbn [OsPath.walk]. rewrite Hfound. reflexivity.
Qed.

Lemma resolve_in_example (tail : string) :
  OsPath.resolve w (root w ++ d ++ "/" ++ tail)
  = OsPath.walk [OsPath.root_dir w] (minimal_example d readme recipe)
      (PyStr.split tail "/").
Proof.
  destruct example_name as [_ Hslash].
  rewrite resolve_below_root. cbn [append].
  rewrite (split_char_app "/" d tail Hslash).
  unfold OsPath.root_dir. cbn [OsPath.walk]. rewrite Hfound. reflexivity.
Qed.

Lemma glob_recursive_example :
  Glob.glob_recursive w (full_dir w d)
  = [root w ++ d ++ "/"; root w ++ d ++ "/README.md"].
Proof.
  unfold Glob.glob_recursive. rewrite full_dir_example, resolve_example.
  change (Glob.rlistdir (minimal_example d readme recipe)) with ["README.md"].
  cbn [map]. rewrite !join_in_example by reflexivity. reflexivity.
Qed.

Lemma glob_children_example :
  Glob.glob_children w (full_dir w d) = [root w ++ d ++ "/README.md"].
Proof.
  unfold Glob.glob_children. rewrite full_dir_example, resolve_example.
  unfold minimal_example.
  change (filter (fun x => negb (Glob.ishidden x))
            (map node_name
               [File "README.md" readme;
                Dir ".saturn" [File "saturn.json" (Some recipe)]]))
    with ["README.md"].
  cbn [map]. rewrite !join_in_example by reflexivity. reflexivity.
Qed.

Lemma check_example_minimal :
  validate_loaded w recipe d = Ok tt ->
  forall st,
    check_example w d st
    = (Ok tt,
       mkState (_errors st)
               (stdout st ++ [("Working on directory '" ++ d ++ "'")%string])%list).
Proof.
  intros Hvalid st. destruct example_name as [Hne Hslash].
  assert (Hreadme : OsPath.resolve w (root w ++ d ++ "/README.md")
                    = Some (File "README.md" readme))
    by exact (resolve_in_example "README.md").
  assert (Hself : OsPath.resolve w (root w ++ d ++ "/")
                  = Some (minimal_example d readme recipe))
    by exact (resolve_in_example EmptyString).
  assert (Hsaturn : OsPath.resolve w (root w ++ d ++ "/.saturn")
                    = Some (Dir ".saturn" [File "saturn.json" (Some recipe)]))
    by exact (resolve_in_example ".saturn").
  assert (Hjson : OsPath.resolve w (root w ++ d ++ "/.saturn/saturn.json")
                  = Some (File "saturn.json" (Some recipe)))
    by exact (resolve_in_example ".saturn/saturn.json").
  unfold check_example.
  rewrite (basename_plain d Hslash), Hname, glob_recursive_not_empty.
  cbn [negb]. unfold bind at 1. unfold print at 1.
  (* the directories two levels below *)
  unfold bind at 1. unfold check_second_level_readmes.
  rewrite glob_children_example. cbn [for_each].
  unfold OsPath.isdir at 1. rewrite Hreadme. unfold bind at 1, ret at 1 2.
  (* the notebooks *)
  rewrite glob_recursive_example.
  unfold bind at 1. unfold check_notebooks.
  assert (Hnb1 : PyStr.endswith (root w ++ d ++ "/") ".ipynb" = false).
  { unfold PyStr.endswith. rewrite <- append_assoc, rev_append. reflexivity. }
  assert (Hnb2 : PyStr.endswith (root w ++ d ++ "/README.md") ".ipynb" = false).
  { unfold PyStr.endswith. rewrite <- append_assoc, rev_append. reflexivity. }
  cbn [filter]. rewrite Hnb1, Hnb2. cbn [for_each]. unfold ret at 1.
  (* the names *)
  unfold bind at 1. unfold check_names. cbn [for_each].
  unfold OsPath.isdir. rewrite Hself, Hreadme. unfold minimal_example.
  rewrite (basename_normpath_example w d Hne Hslash), Hname.
  change (root w ++ d ++ "/README.md")
    with (root w ++ d ++ String "/" "README.md").
  rewrite (basename_below_root w d "README.md") by reflexivity.
  cbn [fst snd negb existsb orb ADMIN_DIRS].
  change (filename_regex "README.md") with true.
  destruct (String.eqb d "_img"); cbn [negb fst snd]; unfold bind, ret;
  (* the README and the recipe *)
  unfold check_readme; rewrite full_dir_example;
  rewrite (join_in_example "README.md") by reflexivity;
  unfold OsPath.isfile at 1; cbn [append]; rewrite Hreadme; cbn [negb];
  unfold check_saturn, bind, ret;
  rewrite (saturn_dir_path w d Hname), (saturn_json_path w d Hname);
  unfold OsPath.isdir, OsPath.isfile; rewrite Hsaturn, Hjson; cbn [negb];
  unfold try_validate_recipe, validate_recipe, load_json;
  rewrite (saturn_json_path w d Hname), Hjson; cbn [rbind];
  rewrite Hvalid; reflexivity.
Qed.

End MinimalExample.

(** X28. An example directory of a valid name that holds just a README.md
    and a .saturn directory with an accepted saturn.json passes every check:
    the script prints its line and records nothing. *)
Theorem minimal_example_passes :
  forall (w : world) (d : string) (readme : option json) (recipe : json),
    directory_regex d = true ->
    OsPath.find_child d (listing w) = Some (minimal_example d readme recipe) ->
    validate_loaded w recipe d = Ok tt ->
    forall st,
      check_example w d st
      = (Ok tt,
         mkState (_errors st)
                 (stdout st
                    ++ [("Working on directory '" ++ d ++ "'")%string])%list).
Proof. exact check_example_minimal. Qed.

(** ** A run without errors *)

Lemma find_child_some (name : string) (nodes : list node) (n : node) :
  OsPath.find_child name nodes = Some n -> In n nodes /\ node_name n = name.
Proof.
  induction nodes as [|m nodes IH]; intros H; [discriminate H|].
  cbn [OsPath.find_child] in H.
  destruct (String.eqb_spec name (node_name m)) as [Heq|_].
  - injection H as <-. split; [left; reflexivity|congruence].
  - destruct (IH H) as [Hin Hn]. split; [right; exact Hin|exact Hn].
Qed.

Lemma clean_example_passes (w : world) (example_dir : string) :
  Forall (clean_example w) (listing w) ->
  In example_dir (listdir w) ->
  forall st,
    check_example w example_dir st
    = (Ok tt,
       mkState (_errors st)
               (stdout st
                  ++ [("Working on directory '" ++ example_dir ++ "'")%string])%list).
Proof.
  intros Hclean Hin st.
  destruct (find_child_listed example_dir (listing w) Hin) as (n & Hfound).
  destruct (find_child_some _ _ _ Hfound) as [Hn Hname].
  rewrite Forall_forall in Hclean.
  destruct (Hclean n Hn) as (readme & recipe & Hshape & Hregex & Hvalid).
  rewrite Hname in *. rewrite Hshape in Hfound.
  apply (check_example_minimal w example_dir readme recipe Hregex Hfound Hvalid).
Qed.

Lemma clean_examples_pass (w : world) (names : list string) :
  Forall (clean_example w) (listing w) ->
  (forall name, In name names -> In name (listdir w)) ->
  forall st,
    for_each names (check_example w) st
    = (Ok tt,
       mkState (_errors st)
               (stdout st
                  ++ map (fun name =>
                            ("Working on directory '" ++ name ++ "'")%string)
                         names)%list).
Proof.
  intros Hclean. induction names as [|name names IH]; intros Hin st.
  - cbn. rewrite app_nil_r. destruct st; reflexivity.
  - cbn [for_each map]. unfold bind.
    rewrite (clean_example_passes w name Hclean (Hin name (or_introl eq_refl))).
    rewrite IH by (intros name' H'; apply Hin; right; exact H').
    cbn [_errors stdout]. rewrite <- app_assoc. reflexivity.
Qed.

Lemma templates_errors_classes (example_dirs : list string)
    (templates : list template) :
  forall weights msg,
    In msg (templates_errors example_dirs weights templates) ->
    is_weight_error msg = true \/ is_missing_example_error msg = true.
Proof.
  induction templates as [|t templates IH]; intros weights msg H; [contradiction|].
  cbn [templates_errors] in H. apply in_app_or in H as [H|H]; [|eapply IH; exact H].
  unfold template_errors in H. apply in_app_or in H as [H|H].
  - left. destruct (weight_matches weights (weight t)); [contradiction|].
    destruct H as [<-|[]]. apply is_weight_error_weight_msg.
  - right. destruct (negb _); [|contradiction].
    destruct H as [<-|[]]. apply is_missing_example_error_msg.
Qed.

Lemma clean_catalog_adds_nothing (w : world) (templates : list template) :
  clean_catalog w templates ->
  templates_errors (listdir w) [] templates = [].
Proof.
  intros (_ & Htitles & Hweights & Hlisted).
  destruct (templates_errors (listdir w) [] templates) as [|msg l] eqn:Herr;
    [reflexivity|exfalso].
  assert (Hin : In msg (templates_errors (listdir w) [] templates))
    by (rewrite Herr; left; reflexivity).
  pose proof (filter_templates_errors (listdir w) templates []) as Hw.
  rewrite (weight_errors_all_distinct templates Htitles Hweights) in Hw.
  pose proof (filter_missing_templates_errors (listdir w) templates []) as Hm.
  rewrite (filter_none (fun t => negb (example_is_listed (listdir w) t)))
    in Hm by (intros t Ht; rewrite (Hlisted t Ht); reflexivity).
  cbn [map] in Hm.
  destruct (templates_errors_classes _ _ _ _ Hin) as [Hc|Hc].
  - assert (H : In msg (filter is_weight_error
                          (templates_errors (listdir w) [] templates)))
      by (apply filter_In; split; assumption).
    rewrite Hw in H. exact H.
  - assert (H : In msg (filter is_missing_example_error
                          (templates_errors (listdir w) [] templates)))
      by (apply filter_In; split; assumption).
    rewrite Hm in H. exact H.
Qed.

(** X29. When every entry of the examples directory is such a minimal
    example and both catalogs have answering thumbnails, distinct titles,
    distinct weights and only listed example directories, the run prints the
    catalog lines, one line per example and the report of zero errors, and
    exits with status 0. *)
Theorem clean_tree_exits_with_status_zero :
  forall (w : world) (hosted enterprise : list template),
    listing w <> [] ->
    Forall (clean_example w) (listing w) ->
    catalogs w "templates-hosted.json" = Some hosted ->
    catalogs w "templates-enterprise.json" = Some enterprise ->
    clean_catalog w hosted ->
    clean_catalog w enterprise ->
    main w
    = Exited
        (["Working on templates-hosted.json";
          "Working on templates-enterprise.json"]
           ++ map (fun name => ("Working on directory '" ++ name ++ "'")%string)
                  (listdir w)
           ++ [ErrorCollection.banner; ErrorCollection.header 0])%list
        0.
Proof.
  intros w hosted enterprise Hne Hclean Hh He Hch Hce.
  assert (Hrun : checks w initial
                 = (Ok tt,
                    mkState []
                      (["Working on templates-hosted.json";
                        "Working on templates-enterprise.json"]
                         ++ map (fun name =>
                                   ("Working on directory '" ++ name ++ "'")%string)
                                (listdir w))%list)).
  { unfold checks.
    replace (List.length (listdir w) =? 0)%nat with false.
    2:{ unfold listdir. rewrite length_map.
        destruct (listing w); [congruence|reflexivity]. }
    cbn [TEMPLATES_JSON_NAMES for_each].
    unfold bind at 1. unfold ret at 1.
    unfold bind at 1. unfold bind at 1.
    rewrite (check_catalog_spec w _ _ hosted _ Hh (proj1 Hch)).
    unfold bind at 1.
    rewrite (check_catalog_spec w _ _ enterprise _ He (proj1 Hce)).
    rewrite !clean_catalog_adds_nothing by assumption.
    cbn [ret _errors stdout initial app].
    rewrite (clean_examples_pass w (listdir w) Hclean) by auto.
    reflexivity. }
  unfold main, script. rewrite (bind_ok _ _ _ _ _ Hrun), report_spec.
  cbn [_errors stdout]. rewrite <- ?app_assoc. reflexivity.
Qed.

(** ** The further properties on the sample inputs *)

Lemma well_formed_notebooks_get_one_error_each_witness :
  check_notebooks world_notebook
    ["examples/demo/"; "examples/demo/README.md"; "examples/demo/analysis.ipynb"]
    initial
  = (Ok tt,
     mkState
       [delayed_msg "examples/demo/analysis.ipynb";
        "Found 1 non-empty cells in 'examples/demo/analysis.ipynb'. Clear all outputs and re-commit this file."]
       []).
Proof.
  refine (eq_trans
            (well_formed_notebooks_get_one_error_each world_notebook
               ["examples/demo/"; "examples/demo/README.md";
                "examples/demo/analysis.ipynb"] initial _) _);
    [|reflexivity].
  intros path [<-|[<-|[<-|[]]]] Hend; try discriminate Hend.
  exists sample_cells. split; [reflexivity|].
  repeat constructor.
  - eexists _, _. split; [reflexivity|]. split; [reflexivity|].
    intros H. discriminate H.
  - eexists _, _. split; [reflexivity|]. split; [reflexivity|].
    intros _. exists ["import dask "; "@delayed "]. reflexivity.
  - eexists _, _. split; [reflexivity|]. split; [reflexivity|].
    intros _. exists ["x = 1"]. reflexivity.
Defined.

Lemma name_without_prefix_is_an_error_witness :
  validate_loaded (sample_world [demo_dir unprefixed_recipe] [] [])
    (JObj unprefixed_recipe) "demo"
  = Raise (ValidationError "name ('demo') needs to start with example-").
Proof.
  apply (name_without_prefix_is_an_error
           (sample_world [demo_dir unprefixed_recipe] [] [])
           unprefixed_recipe "demo" "demo"); reflexivity.
Defined.

Lemma empty_git_repositories_is_an_error_witness :
  validate_loaded (sample_world [demo_dir no_git_recipe] [] [])
    (JObj no_git_recipe) "demo"
  = Raise (ValidationError "git_repositories cannot be empty").
Proof.
  apply empty_git_repositories_is_an_error; reflexivity.
Defined.

Lemma git_repository_without_path_is_an_error_witness :
  validate_loaded (sample_world [demo_dir pathless_git_recipe] [] [])
    (JObj pathless_git_recipe) "demo"
  = Raise (ValidationError
             "At least one git_repository is missing a path [{'url': 'git@github.com:saturncloud/examples.git'}]").
Proof.
  apply (git_repository_without_path_is_an_error
           (sample_world [demo_dir pathless_git_recipe] [] [])
           pathless_git_recipe "demo"
           [JObj [("url", JStr "git@github.com:saturncloud/examples.git")]]);
    reflexivity.
Defined.

Lemma working_directory_of_the_example_is_accepted_witness :
  check_working_directory (sample_world [demo_dir doubled_prefix_recipe] [] [])
    (JObj doubled_prefix_recipe) "demo"
  = Ok tt.
Proof.
  apply (working_directory_of_the_example_is_accepted
           (sample_world [demo_dir doubled_prefix_recipe] [] [])
           doubled_prefix_recipe "demo" 1).
  - left. reflexivity.
  - reflexivity.
  - reflexivity.
Defined.

Lemma working_directory_of_another_name_is_an_error_witness :
  validate_loaded (sample_world [demo_dir other_directory_recipe] [] [])
    (JObj other_directory_recipe) "demo"
  = Raise (ValidationError
             "working_directory ('/home/jovyan/examples/examples/other') needs to end with the name of the example directory: demo").
Proof.
  apply (working_directory_of_another_name_is_an_error
           (sample_world [demo_dir other_directory_recipe] [] [])
           other_directory_recipe "demo" "other");
    try reflexivity.
  intros H. discriminate H.
Defined.

Lemma workspace_without_disk_space_is_an_error_witness :
  validate_loaded (sample_world [demo_dir no_disk_space_recipe] [] [])
    (JObj no_disk_space_recipe) "demo"
  = Raise (ValidationError "disk_space is required for workspaces.").
Proof.
  apply (workspace_without_disk_space_is_an_error
           (sample_world [demo_dir no_disk_space_recipe] [] [])
           no_disk_space_recipe [("instance_type", JStr "medium")] "demo");
    try reflexivity.
  left. split; [reflexivity|]. intros H. discriminate H.
Defined.

Lemma worker_of_another_instance_type_is_an_error_witness :
  validate_loaded (sample_world [demo_dir large_worker_recipe] [] [])
    (JObj large_worker_recipe) "demo"
  = Raise (ValidationError worker_mismatch_msg).
Proof.
  apply (worker_of_another_instance_type_is_an_error
           (sample_world [demo_dir large_worker_recipe] [] [])
           large_worker_recipe three_large_workers large_worker "demo"
           (JObj [("instance_type", JStr "medium"); ("disk_space", JStr "10Gi")])
           3%Z "medium" "large");
    try reflexivity.
  intros H. discriminate H.
Defined.

Lemma accepted_recipe_satisfies_the_rules_witness :
  exists kvs name image_uri working_dir git_repositories res instance_type,
    JObj valid_recipe = JObj kvs
    /\ jsonschema_validate world_checked (JObj valid_recipe) = None
    /\ Py.assoc "name" kvs = Some (JStr name)
    /\ PyStr.startswith name "example-" = true
    /\ Py.assoc "image_uri" kvs = Some (JStr image_uri)
    /\ PyStr.count_char ":" image_uri = 1
    /\ Py.assoc "working_directory" kvs = Some (JStr working_dir)
    /\ PyStr.startswith working_dir working_dir_prefix = true
    /\ PyStr.replace working_dir working_dir_prefix EmptyString = "demo"
    /\ OsPath.exists_ world_checked
         (OsPath.join (EXAMPLES_DIR world_checked) "demo") = true
    /\ Py.assoc "git_repositories" kvs = Some git_repositories
    /\ (exists n, Py.len git_repositories = Ok n /\ 1 <= n)
    /\ resource (JObj valid_recipe) = Ok res
    /\ Py.subscript res "instance_type" = Ok (JStr instance_type)
    /\ In instance_type (instance_type_options world_checked)
    /\ (forall dask,
          Py.assoc "dask_cluster" kvs = Some dask -> Py.truthy dask = true ->
          exists num_workers worker worker_type,
            Py.subscript dask "num_workers" = Ok num_workers
            /\ Py.gt num_workers 3 = Ok false
            /\ Py.subscript dask "worker" = Ok worker
            /\ Py.subscript worker "instance_type" = Ok worker_type
            /\ Py.eq worker_type (JStr instance_type) = true)
    /\ (SKIP_IMAGE_CHECK world_checked = false ->
        exists image_name image_tag,
          image_uri = image_name ++ ":" ++ image_tag
          /\ image_exists_on_registry world_checked
               (fst (registry_and_repository image_name))
               (snd (registry_and_repository image_name)) image_tag
             = Ok true)
    /\ (exists ws,
          workspace (JObj valid_recipe) = Ok ws
          /\ (Py.is_not_none ws = true ->
              Py.contains ws "disk_space" = Ok true)).
Proof.
  apply (accepted_recipe_satisfies_the_rules world_checked
           (JObj valid_recipe) "demo").
  reflexivity.
Defined.

Lemma registry_is_read_from_the_image_name_witness :
  check_image (checking_world [demo_dir ecr_recipe] 200) (JObj ecr_recipe)
  = match image_exists_on_registry (checking_world [demo_dir ecr_recipe] 200)
            (Some "public.ecr.aws") "saturncloud/saturn" "2022.01.06" with
    | Ok true => Ok tt
    | Ok false =>
        Raise (ValidationError
                 (image_missing_msg "public.ecr.aws/saturncloud/saturn"
                    "2022.01.06"))
    | Raise e => Raise e
    end.
Proof.
  destruct (registry_is_read_from_the_image_name
              (checking_world [demo_dir ecr_recipe] 200) ecr_recipe
              "public.ecr.aws/saturncloud/saturn" "2022.01.06"
              eq_refl eq_refl eq_refl eq_refl) as (_ & _ & H).
  exact (H "public.ecr.aws" "saturncloud" "saturn" eq_refl eq_refl eq_refl).
Defined.

Lemma image_missing_from_docker_hub_is_an_error_witness :
  validate_loaded (checking_world [demo_dir valid_recipe] 404)
    (JObj valid_recipe) "demo"
  = Raise (ValidationError
             "image 'saturncloud/saturn:2021.02.22' is not available on Docker Hub.").
Proof.
  refine (proj1 (image_missing_from_docker_hub_is_an_error
                   (checking_world [demo_dir valid_recipe] 404) valid_recipe
                   "demo" "saturncloud/saturn" "2021.02.22" "token" 404
                   eq_refl eq_refl eq_refl eq_refl eq_refl _ eq_refl eq_refl) _).
  - apply le_n.
  - intros H. discriminate H.
Defined.

Lemma skipped_image_check_asks_no_registry_witness :
  check_image world_bad_thumbnail (JObj valid_recipe) = Ok tt.
Proof.
  apply (skipped_image_check_asks_no_registry world_bad_thumbnail valid_recipe
           "saturncloud/saturn:2021.02.22"); reflexivity.
Defined.

Lemma validation_error_is_recorded_and_the_loop_goes_on_witness :
  check_saturn (sample_world [demo_dir huge_recipe] [] []) "demo" initial
  = (Ok tt,
     mkState
       [schema_issues_msg (sample_world [demo_dir huge_recipe] [] []) "demo"
          (instance_type_msg (JStr "huge"))]
       []).
Proof.
  exact (proj1 (validation_error_is_recorded_and_the_loop_goes_on
                  (sample_world [demo_dir huge_recipe] [] []) "demo"
                  (instance_type_msg (JStr "huge")) initial
                  eq_refl eq_refl eq_refl)).
Defined.

Lemma other_exception_of_the_validator_aborts_the_run_witness :
  exists out e, main world_unreadable_recipe = Aborted out e.
Proof.
  refine (proj2 (other_exception_of_the_validator_aborts_the_run
                   world_unreadable_recipe "demo"
                   JSONDecodeError
                   _ eq_refl eq_refl eq_refl eq_refl)).
  left. reflexivity.
Defined.

Lemma missing_catalog_aborts_the_run_witness :
  main world_without_catalogs
  = Aborted []
      (FileNotFoundError "examples/../.saturn/templates-hosted.json").
Proof.
  apply (missing_catalog_aborts_the_run world_without_catalogs). reflexivity.
Defined.

Lemma thumbnails_answer_sample (listing : list node)
    (hosted enterprise templates : list template) :
  thumbnails_answer (sample_world listing hosted enterprise) templates.
Proof.
  intros t _. exists 404%Z. reflexivity.
Defined.

Lemma template_of_an_unlisted_example_is_an_error_witness :
  exists new,
    check_catalog world_stray_template ["demo"] "templates-hosted.json" initial
    = (Ok tt, mkState new ["Working on templates-hosted.json"])
    /\ filter is_missing_example_error new
       = ["Example directory: 'gone' referenced by template: 'Stray' does not exist."].
Proof.
  destruct (template_of_an_unlisted_example_is_an_error world_stray_template
              ["demo"] "templates-hosted.json"
              [sample_template "Dask" 1; stray_template] initial eq_refl
              (thumbnails_answer_sample _ _ _ _)) as (new & Hrun & Hnew).
  exists new. split; [exact Hrun | exact Hnew].
Defined.

Lemma each_later_template_of_a_weight_is_an_error_witness :
  exists new,
    check_catalog world_three_weights ["demo"] "templates-hosted.json" initial
    = (Ok tt, mkState new ["Working on templates-hosted.json"])
    /\ filter is_weight_error new
       = [weight_msg (sample_template "Prefect" 1) ["Dask"];
          weight_msg (sample_template "Snowflake" 1) ["Dask"; "Prefect"]].
Proof.
  refine (each_later_template_of_a_weight_is_an_error world_three_weights
            ["demo"] "templates-hosted.json"
            [sample_template "Dask" 1; sample_template "Prefect" 1;
             sample_template "Snowflake" 1] initial eq_refl
            (thumbnails_answer_sample _ _ _ _) _).
  repeat constructor; cbn; intros H;
    repeat (destruct H as [H|H]; [discriminate H|]); exact H.
Defined.

Lemma example_of_a_recipe_path_witness :
  example_dir_of "examples/demo/.saturn/saturn.json" = "demo"
  /\ example_dir_of "demo/.saturn/saturn.json" = "demo".
Proof.
  apply (example_of_a_recipe_path "demo" ".saturn/saturn.json"); reflexivity.
Defined.

Lemma empty_examples_directory_is_an_error_witness :
  exists st,
    checks world_no_examples initial = (Ok tt, st)
    /\ List.hd_error (_errors st)
       = Some "No directories found under 'examples'"
    /\ (forall t, In t [sample_template "Dask" 1] ->
                  In (missing_example_msg (example_dir_of (recipe_path t)) t)
                     (_errors st))
    /\ 1 + 1 <= List.length (_errors st)
    /\ exists out,
         main world_no_examples
         = Exited out (Z.of_nat (List.length (_errors st)) mod 256).
Proof.
  apply (empty_examples_directory_is_an_error world_no_examples
           [sample_template "Dask" 1] []);
    try reflexivity; apply thumbnails_answer_sample.
Defined.

Lemma minimal_example_passes_witness :
  check_example world_bad_thumbnail "demo" initial
  = (Ok tt, mkState [] ["Working on directory 'demo'"]).
Proof.
  apply (minimal_example_passes world_bad_thumbnail "demo" None
           (JObj valid_recipe));
    reflexivity.
Defined.

Lemma clean_tree_exits_with_status_zero_witness :
  main world_bad_thumbnail
  = Exited
      ["Working on templates-hosted.json";
       "Working on templates-enterprise.json";
       "Working on directory 'demo'";
       ErrorCollection.banner; ErrorCollection.header 0]
      0.
Proof.
  apply (clean_tree_exits_with_status_zero world_bad_thumbnail
           [sample_template "Demo" 1] []).
  - intros H. discriminate H.
  - constructor; [|constructor].
    exists None, (JObj valid_recipe). repeat split.
  - reflexivity.
  - reflexivity.
  - split; [apply thumbnails_answer_sample|].
    split; [repeat constructor; intros []|].
    split; [repeat constructor; intros []|].
    intros t [<-|[]]. reflexivity.
  - split; [apply thumbnails_answer_sample|].
    split; [constructor|]. split; [constructor|]. intros t [].
Defined.
